(** * YeongjoPT: worker registry and streaming gateways

    A shallow embedding of the three serving processes of the repository:

    - [fastchat/serve/controller.py]: the single-worker registry
      ([Controller]);
    - [fastchat/serve/openai_api_server.py]: the OpenAI-compatible gateway
      (bearer-token check, chat completion, Server-Sent-Events framing);
    - [fastchat/serve/gradio_web_server.py]: the chat front end
      ([bot_response_fn] and its worker stream iterator).

    Conventions of the embedding.

    - A Python [dict] is an insertion-ordered association list with unique
      keys ([PyDict]); the controller reads [list(d.keys())[0]], so the
      order is part of the model.
    - [time.time()] is read from the environment: every operation receives
      the clock value it would read.  Timestamps are integers (clock ticks).
    - HTTP calls to other processes are answered by an environment record;
      a failed call is a [RequestException].
    - A method that can raise returns a [result]; a method of an object with
      mutable fields is a function from the state before to the result and
      the state after.  A generator is the list of what it yields, together
      with how it ends.
    - JSON bodies follow the types of the worker contract (strings, integers,
      optional keys); a key that may be missing is an [option]. *)

From Stdlib Require Import String Ascii List ZArith Bool Lia DecimalString.
Import ListNotations.

Local Open Scope Z_scope.
Local Open Scope list_scope.

(** ** Python values and results *)

Inductive exn : Type :=
| KeyError (key : string)
| IndexError
| OtherException (msg : string).

Inductive result (A : Type) : Type :=
| Return (a : A)
| Raise (e : exn).

Arguments Return {A} a.
Arguments Raise {A} e.

(** Outcome of [requests.post(...)] followed by [raise_for_status()] and
    the decoding of the body. *)
Inductive http_result (A : Type) : Type :=
| HttpOk (body : A)
| RequestException (msg : string).

Arguments HttpOk {A} body.
Arguments RequestException {A} msg.

(** Truth value of a Python [str]: false exactly for the empty string. *)
Definition str_truthy (s : string) : bool :=
  match s with
  | EmptyString => false
  | String _ _ => true
  end.

(** Truth value of an optional string ([None] is false). *)
Definition opt_str_truthy (s : option string) : bool :=
  match s with
  | None => false
  | Some s => str_truthy s
  end.

(** Truth value of an optional integer ([None] and [0] are false). *)
Definition opt_int_truthy (n : option Z) : bool :=
  match n with
  | None => false
  | Some n => negb (n =? 0)
  end.

(** [d.get(key, default)] on a key modelled as an option. *)
Definition get_default {A : Type} (field : option A) (default : A) : A :=
  match field with
  | Some a => a
  | None => default
  end.

(** [x in xs] for a list of strings. *)
Definition str_in (x : string) (xs : list string) : bool :=
  existsb (String.eqb x) xs.

(** ** Insertion-ordered dictionaries *)

Module PyDict.

Section Dict.

Context {V : Type}.

Definition dict : Type := list (string * V).

Definition empty : dict := [].

(** [not d] is true exactly for the empty dictionary. *)
Definition is_empty (d : dict) : bool :=
  match d with
  | [] => true
  | _ :: _ => false
  end.

(** [d[k]], [None] standing for the missing key. *)
Fixpoint get (k : string) (d : dict) : option V :=
  match d with
  | [] => None
  | (k', v) :: rest => if String.eqb k' k then Some v else get k rest
  end.

(** [k in d]. *)
Definition contains (k : string) (d : dict) : bool :=
  match get k d with
  | Some _ => true
  | None => false
  end.

(** [d[k] = v]: a present key keeps its position, a new key goes last. *)
Fixpoint set (k : string) (v : V) (d : dict) : dict :=
  match d with
  | [] => [(k, v)]
  | (k', v') :: rest =>
      if String.eqb k' k then (k', v) :: rest
      else (k', v') :: set k v rest
  end.

(** [del d[k]] (the callers test [k in d] first; a missing key is left
    alone here). *)
Fixpoint del (k : string) (d : dict) : dict :=
  match d with
  | [] => []
  | (k', v') :: rest =>
      if String.eqb k' k then rest else (k', v') :: del k rest
  end.

Definition keys (d : dict) : list string := map fst d.
Definition values (d : dict) : list V := map snd d.
Definition items (d : dict) : list (string * V) := d.

End Dict.

Arguments dict V : clear implicits.

End PyDict.

(** ** The controller ([fastchat/serve/controller.py]) *)

(** [WorkerInfo] dataclass ([last_heart_beat] holds a value of
    [time.time()]). *)
Record WorkerInfo : Type := mkWorkerInfo {
  model_names : list string;
  speed : Z;
  queue_length : Z;
  check_heart_beat : bool;
  last_heart_beat : Z;
  multimodal : bool
}.

(** The [worker_status] dictionary, as sent in a registration request or
    returned by the worker's status operation: the three keys the controller
    reads, each of which may be missing (other keys are not represented, so
    the empty dictionary is the one without any of the three). *)
Record status_dict : Type := mkStatus {
  st_model_names : option (list string);
  st_speed : option Z;
  st_queue_length : option Z
}.

(** Truth value of [worker_status]: [None] and the empty dictionary are
    false. *)
Definition status_truthy (s : option status_dict) : bool :=
  match s with
  | None => false
  | Some (mkStatus None None None) => false
  | Some _ => true
  end.

(** State of a [Controller] object: the [worker_info] dictionary. *)
Definition Controller : Type := PyDict.dict WorkerInfo.

(** [Controller.__init__]: no worker. *)
Definition Controller_init : Controller := PyDict.empty.

(** A method of the controller: state before to result and state after. *)
Definition M (A : Type) : Type := Controller -> result A * Controller.

Definition ret {A : Type} (a : A) : M A := fun c => (Return a, c).

Definition raise {A : Type} (e : exn) : M A := fun c => (Raise e, c).

Definition bind {A B : Type} (m : M A) (k : A -> M B) : M B :=
  fun c =>
    match m c with
    | (Return a, c') => k a c'
    | (Raise e, c') => (Raise e, c')
    end.

Definition read_worker_info : M (PyDict.dict WorkerInfo) := fun c => (Return c, c).

Definition write_worker_info (d : PyDict.dict WorkerInfo) : M unit :=
  fun _ => (Return tt, d).

Declare Scope ctl_scope.
Delimit Scope ctl_scope with ctl.

Notation "x <- m ;; k" := (bind m (fun x => k))
  (at level 100, m at next level, right associativity) : ctl_scope.
Notation "m ;;; k" := (bind m (fun _ => k))
  (at level 100, right associativity) : ctl_scope.

(** [worker_status[key]] for a key that may be missing. *)
Definition getitem {A : Type} (key : string) (field : option A) : M A :=
  match field with
  | Some a => ret a
  | None => raise (KeyError key)
  end.

Section ControllerMethods.

(** [CONTROLLER_HEART_BEAT_EXPIRATION] of [fastchat.constants]. *)
Variable CONTROLLER_HEART_BEAT_EXPIRATION : Z.

(** The worker's status operation as the controller sees it:
    [requests.post(url)], [raise_for_status()], [r.json()]. *)
Variable post_worker_get_status : string -> http_result status_dict.

(** [Controller.get_worker_status_direct]. *)
Definition get_worker_status_direct (worker_name : string) : option status_dict :=
  match post_worker_get_status (worker_name ++ "/worker_get_status")%string with
  | HttpOk body => Some body
  | RequestException _ => None
  end.

(** The [WorkerInfo(...)] constructor call of [register_worker]: the three
    subscripts are evaluated left to right. *)
Definition new_worker_info (worker_status : status_dict)
    (check_heart_beat : bool) (now : Z) (multimodal : bool) : M WorkerInfo :=
  (names <- getitem "model_names" (st_model_names worker_status) ;;
   spd <- getitem "speed" (st_speed worker_status) ;;
   ql <- getitem "queue_length" (st_queue_length worker_status) ;;
   ret (mkWorkerInfo names spd ql check_heart_beat now multimodal))%ctl.

(** The statements that the two branches of [register_worker] share, word
    for word apart from the log messages: probe the worker when no status
    was given, return [False] when there is still none, store the record
    otherwise. *)
Definition store_registration (now : Z) (worker_name : string)
    (check_heart_beat : bool) (worker_status : option status_dict)
    (multimodal : bool) : M bool :=
  let worker_status :=
    if negb (status_truthy worker_status)
    then get_worker_status_direct worker_name
    else worker_status in
  if negb (status_truthy worker_status) then ret false
  else
    match worker_status with
    | Some st =>
        (w <- new_worker_info st check_heart_beat now multimodal ;;
         info <- read_worker_info ;;
         write_worker_info (PyDict.set worker_name w info) ;;;
         ret true)%ctl
    | None => ret false
    end.

(** [Controller.register_worker]; [now] is the value of [time.time()]. *)
Definition register_worker (now : Z) (worker_name : string)
    (check_heart_beat : bool) (worker_status : option status_dict)
    (multimodal : bool) : M bool :=
  (info <- read_worker_info ;;
   if PyDict.is_empty info then
     store_registration now worker_name check_heart_beat worker_status multimodal
   else if negb (PyDict.contains worker_name info) then
     ret false
   else
     store_registration now worker_name check_heart_beat worker_status multimodal)%ctl.

(** [Controller.remove_worker]. *)
Definition remove_worker (worker_name : string) : M unit :=
  (info <- read_worker_info ;;
   if PyDict.contains worker_name info
   then write_worker_info (PyDict.del worker_name info)
   else ret tt)%ctl.

(** [Controller.refresh_all_workers]. *)
Definition refresh_all_workers : M unit :=
  (info <- read_worker_info ;;
   match PyDict.keys info with
   | worker_name :: _ =>
       if negb (status_truthy (get_worker_status_direct worker_name))
       then remove_worker worker_name
       else ret tt
   | [] => ret tt
   end)%ctl.

(** [Controller.list_models]. *)
Definition list_models (c : Controller) : list string :=
  match PyDict.values c with
  | worker :: _ => model_names worker
  | [] => []
  end.

(** [Controller.list_multimodal_models]. *)
Definition list_multimodal_models (c : Controller) : list string :=
  match PyDict.values c with
  | worker :: _ => if multimodal worker then model_names worker else []
  | [] => []
  end.

(** [Controller.list_language_models]. *)
Definition list_language_models (c : Controller) : list string :=
  match PyDict.values c with
  | worker :: _ => if negb (multimodal worker) then model_names worker else []
  | [] => []
  end.

(** [Controller.get_worker_address]. *)
Definition get_worker_address (model_name : string) (c : Controller) : string :=
  match PyDict.keys c with
  | worker_name :: _ =>
      match PyDict.get worker_name c with
      | Some worker_data =>
          if str_in model_name (model_names worker_data)
          then worker_name
          else EmptyString
      | None => EmptyString
      end
  | [] => EmptyString
  end.

(** [Controller.receive_heart_beat]: the two attribute assignments mutate
    the stored record in place. *)
Definition receive_heart_beat (now : Z) (worker_name : string)
    (queue_length' : Z) : M bool :=
  (info <- read_worker_info ;;
   match PyDict.get worker_name info with
   | Some w =>
       let w1 := mkWorkerInfo (model_names w) (speed w) queue_length'
                   (check_heart_beat w) (last_heart_beat w) (multimodal w) in
       let w2 := mkWorkerInfo (model_names w1) (speed w1) (queue_length w1)
                   (check_heart_beat w1) now (multimodal w1) in
       write_worker_info (PyDict.set worker_name w2 info) ;;;
       ret true
   | None => ret false
   end)%ctl.

(** The first loop of [remove_stale_workers_by_expiration]. *)
Definition stale_workers (expire : Z) (c : Controller) : list string :=
  map fst
    (filter (fun kv => check_heart_beat (snd kv) && (last_heart_beat (snd kv) <? expire))
       (PyDict.items c)).

(** The second loop: [remove_worker] on every collected name. *)
Fixpoint remove_all (to_delete : list string) : M unit :=
  match to_delete with
  | [] => ret tt
  | worker_name :: rest => (remove_worker worker_name ;;; remove_all rest)%ctl
  end.

(** [Controller.remove_stale_workers_by_expiration]. *)
Definition remove_stale_workers_by_expiration (now : Z) : M unit :=
  (let expire := now - CONTROLLER_HEART_BEAT_EXPIRATION in
   info <- read_worker_info ;;
   remove_all (stale_workers expire info))%ctl.

End ControllerMethods.

(** ** The HTTP surface of the controller *)

(** The JSON body of a registration request: [worker_name] and
    [check_heart_beat] are read by subscript, [worker_status] and
    [multimodal] by [get]. *)
Record register_request : Type := mkRegisterRequest {
  rq_worker_name : option string;
  rq_check_heart_beat : option bool;
  rq_worker_status : option status_dict;
  rq_multimodal : option bool
}.

(** The JSON body of a heart beat. *)
Record heart_beat_request : Type := mkHeartBeatRequest {
  hb_worker_name : option string;
  hb_queue_length : option Z
}.

(** The JSON object an endpoint returns: one key and its value. *)
Inductive reply : Type :=
| ReplyMessage (message : string)
| ReplyModels (models : list string)
| ReplyAddress (address : string)
| ReplyExist (exist : bool).

(** The keys of a reply: what a client gets when it iterates over the
    decoded object. *)
Definition reply_keys (r : reply) : list string :=
  match r with
  | ReplyMessage _ => ["message"%string]
  | ReplyModels _ => ["models"%string]
  | ReplyAddress _ => ["address"%string]
  | ReplyExist _ => ["exist"%string]
  end.

(** The ["address"] key of a decoded reply, when it has one. *)
Definition reply_address (r : reply) : option string :=
  match r with
  | ReplyAddress address => Some address
  | _ => None
  end.

(** The ["models"] key of a decoded reply, when it has one. *)
Definition reply_models (r : reply) : option (list string) :=
  match r with
  | ReplyModels models => Some models
  | _ => None
  end.

Section ControllerEndpoints.

Variable post_worker_get_status : string -> http_result status_dict.

(** [app_register_worker]. *)
Definition app_register_worker (now : Z) (data : register_request) : M reply :=
  let multimodal := get_default (rq_multimodal data) false in
  let worker_status := rq_worker_status data in
  (worker_name <- getitem "worker_name" (rq_worker_name data) ;;
   check_heart_beat <- getitem "check_heart_beat" (rq_check_heart_beat data) ;;
   success <- register_worker post_worker_get_status now worker_name
                check_heart_beat worker_status multimodal ;;
   if success : bool
   then ret (ReplyMessage "Worker registered/updated successfully.")
   else ret (ReplyMessage "Worker registration failed."))%ctl.

(** [app_refresh_all_workers]. *)
Definition app_refresh_all_workers : M reply :=
  (refresh_all_workers post_worker_get_status ;;;
   ret (ReplyMessage "Workers refreshed successfully."))%ctl.

(** [app_list_models]. *)
Definition app_list_models : M reply :=
  (info <- read_worker_info ;; ret (ReplyModels (list_models info)))%ctl.

(** [app_list_multimodal_models]. *)
Definition app_list_multimodal_models : M reply :=
  (info <- read_worker_info ;; ret (ReplyModels (list_multimodal_models info)))%ctl.

(** [app_list_language_models]. *)
Definition app_list_language_models : M reply :=
  (info <- read_worker_info ;; ret (ReplyModels (list_language_models info)))%ctl.

(** [app_get_worker_address]; [model] is the ["model"] key of the body. *)
Definition app_get_worker_address (model : option string) : M reply :=
  (model_name <- getitem "model" model ;;
   info <- read_worker_info ;;
   ret (ReplyAddress (get_worker_address model_name info)))%ctl.

(** [app_receive_heart_beat]. *)
Definition app_receive_heart_beat (now : Z) (data : heart_beat_request) : M reply :=
  (worker_name <- getitem "worker_name" (hb_worker_name data) ;;
   queue_length <- getitem "queue_length" (hb_queue_length data) ;;
   exist <- receive_heart_beat now worker_name queue_length ;;
   ret (ReplyExist exist))%ctl.

(** [app_test_connection]. *)
Definition app_test_connection : M reply :=
  ret (ReplyMessage "Controller is active.").

End ControllerEndpoints.

(** What a client of the controller gets from [requests.post] and
    [raise_for_status]: the reply, or an error for the status 500 that
    answers an exception in the endpoint. *)
Definition served (outcome : result reply * Controller) : http_result reply :=
  match fst outcome with
  | Return r => HttpOk r
  | Raise _ => RequestException "500 Server Error"
  end.

(** ** Worker streams, shared by the two front ends *)

(** The newline character of the Python literals ["\n"]. *)
Definition nl : string := String (ascii_of_nat 10) EmptyString.

(** [str(n)] for an integer [n]. *)
Definition str_of_int (n : Z) : string := NilZero.string_of_int (Z.to_int n).

(** One decoded object of the worker's generation stream. *)
Record chunk : Type := mkChunk {
  text : option string;
  error_code : option Z;
  finish_reason : option string
}.

(** How the streaming connection to the worker ends: the server closes it,
    [requests] raises a [RequestException] (refused connection, bad status,
    broken transfer), or something else fails while a line is decoded. *)
Inductive stream_end : Type :=
| StreamClosed
| StreamRequestException (e : string)
| StreamException (e : string).

(** What [requests.post(..., stream=True)] and [iter_lines] deliver: the
    non-empty lines decoded so far, then the end of the connection. *)
Record worker_stream : Type := mkStream {
  ws_chunks : list chunk;
  ws_end : stream_end
}.

(** How a generator finishes once its items are exhausted. *)
Inductive gen_end : Type :=
| GenReturn
| GenRaise (e : exn).

(** ** The API gateway ([fastchat/serve/openai_api_server.py]) *)

Module ApiServer.

(** Modelled from the spec: the pydantic classes of
    [fastchat.protocol.api_protocol] are not among the sources; each record
    has the fields the gateway passes to the constructor, a field left out
    being [None].  [DeltaMessage]. *)
Record DeltaMessage : Type := mkDelta {
  delta_role : option string;
  delta_content : option string
}.

(** Modelled from the spec: [ChatCompletionStreamResponseChoice] of
    [fastchat.protocol.api_protocol]. *)
Record ChatCompletionStreamResponseChoice : Type := mkStreamChoice {
  sc_index : Z;
  sc_delta : DeltaMessage;
  sc_finish_reason : option string
}.

(** Modelled from the spec: [ChatCompletionStreamResponse] of
    [fastchat.protocol.api_protocol]. *)
Record ChatCompletionStreamResponse : Type := mkStreamResponse {
  sr_id : string;
  sr_choices : list ChatCompletionStreamResponseChoice;
  sr_model : string
}.

(** Modelled from the spec: [UsageInfo] of [fastchat.protocol.api_protocol]. *)
Record UsageInfo : Type := mkUsage {
  prompt_tokens : Z;
  completion_tokens : Z;
  total_tokens : Z
}.

(** Modelled from the spec: [ChatMessage] of [fastchat.protocol.api_protocol]. *)
Record ChatMessage : Type := mkChatMessage {
  cm_role : string;
  cm_content : string
}.

(** Modelled from the spec: [ChatCompletionResponseChoice] of
    [fastchat.protocol.api_protocol]. *)
Record ChatCompletionResponseChoice : Type := mkChoice {
  rc_index : Z;
  rc_message : ChatMessage;
  rc_finish_reason : string
}.

(** Modelled from the spec: [APIChatCompletionResponse] of
    [fastchat.protocol.api_protocol]. *)
Record APIChatCompletionResponse : Type := mkCompletion {
  cr_id : string;
  cr_choices : list ChatCompletionResponseChoice;
  cr_model : string;
  cr_usage : UsageInfo
}.

(** One entry of [request.messages] when it is a list. *)
Record message_dict : Type := mkMessage {
  msg_role : option string;
  msg_content : option string
}.

Inductive messages_field : Type :=
| MessagesStr (s : string)
| MessagesList (l : list message_dict).

(** Modelled from the spec: [APIChatCompletionRequest] of
    [fastchat.protocol.api_protocol], with the fields the handler reads.  The
    sampling parameters ([temperature], [top_p], [stop]) are copied into the
    worker request unread and are left out. *)
Record APIChatCompletionRequest : Type := mkRequest {
  req_model : string;
  req_messages : messages_field;
  req_max_tokens : option Z;
  req_stream : bool
}.

(** The [gen_params] dictionary sent to the worker. *)
Record gen_params : Type := mkGenParams {
  gp_model : string;
  gp_prompt : string;
  gp_max_new_tokens : Z;
  gp_stream : bool;
  gp_echo : bool
}.

(** The [usage] object of a worker reply. *)
Record usage_dict : Type := mkUsageDict {
  u_prompt_tokens : option Z;
  u_completion_tokens : option Z;
  u_total_tokens : option Z
}.

(** The decoded reply of the worker's non-streaming generate operation. *)
Record generate_result : Type := mkResult {
  r_text : option string;
  r_error_code : option Z;
  r_finish_reason : option string;
  r_usage : option usage_dict
}.

(** A request sent to another process: [requests.post(url, ...)]. *)
Inductive backend_call : Type :=
| Post (url : string).

(** Result of a handler or dependency: a value, or [HTTPException]. *)
Inductive http_outcome (A : Type) : Type :=
| Ok (a : A)
| HTTPException (status_code : Z) (detail : string).

Arguments Ok {A} a.
Arguments HTTPException {A} status_code detail.

(** A handler: the backend calls it makes, in order, and its outcome. *)
Definition H (A : Type) : Type := list backend_call * http_outcome A.

Definition hret {A : Type} (a : A) : H A := ([], Ok a).

Definition hraise {A : Type} (status_code : Z) (detail : string) : H A :=
  ([], HTTPException status_code detail).

Definition hbind {A B : Type} (m : H A) (k : A -> H B) : H B :=
  match m with
  | (calls, Ok a) => let (calls', r) := k a in (calls ++ calls', r)
  | (calls, HTTPException s d) => (calls, HTTPException s d)
  end.

Definition called (c : backend_call) : H unit := ([c], Ok tt).

Declare Scope gw_scope.
Delimit Scope gw_scope with gw.

Notation "x <- m ;; k" := (hbind m (fun x => k))
  (at level 100, m at next level, right associativity) : gw_scope.
Notation "m ;;; k" := (hbind m (fun _ => k))
  (at level 100, right associativity) : gw_scope.

(** One server-sent event, before it is written out as a line. *)
Inductive sse_event : Type :=
| SseData (c : ChatCompletionStreamResponse)
| SseDone.

(** One item of the model list. *)
Record model_card : Type := mkModelCard {
  mc_id : string;
  mc_created : Z
}.

(** What the gateway sends back on success. *)
Inductive response : Type :=
| JsonModels (data : list model_card)
| JsonCompletion (r : APIChatCompletionResponse)
| StreamingResponse (events : list sse_event) (ending : gen_end)
| JsonHealth (timestamp : Z).

(** The other processes and the globals, as the gateway sees them. *)
Record environment : Type := mkEnv {
  controller_address : string;
  api_key : option string;
  (** [int(time.time())], by the number of earlier readings in the request *)
  clock : nat -> Z;
  (** controller [/get_worker_address]: the ["address"] key of the reply *)
  post_get_worker_address : string -> string -> http_result (option string);
  (** controller [/list_models]: what iterating over the decoded reply gives *)
  post_list_models : string -> http_result (list string);
  post_worker_generate : string -> gen_params -> http_result generate_result;
  post_worker_generate_stream : string -> gen_params -> worker_stream
}.

Section Gateway.

(** [ErrorCode.INTERNAL_ERROR] of [fastchat.constants]. *)
Variable INTERNAL_ERROR : Z.

Variable env : environment.

(** [verify_api_key]; [credentials] is [None] when the request has no bearer
    token, and the token otherwise. *)
Definition verify_api_key (credentials : option string) : http_outcome bool :=
  match api_key env with
  | Some key =>
      if str_truthy key &&
         match credentials with
         | None => true
         | Some token => negb (String.eqb token key)
         end
      then HTTPException 401 "Invalid API key"
      else Ok true
  | None => Ok true
  end.

(** [get_worker_address]: the 404 is raised inside the [try] and is not a
    [RequestException], so it leaves the function. *)
Definition get_worker_address (model_name : string) : H string :=
  let url := (controller_address env ++ "/get_worker_address")%string in
  (called (Post url) ;;;
   match post_get_worker_address env url model_name with
   | HttpOk body =>
       let worker_addr := get_default body EmptyString in
       if negb (str_truthy worker_addr)
       then hraise 404 ("No worker found for model " ++ model_name)%string
       else hret worker_addr
   | RequestException _ => hraise 503 "Service temporarily unavailable"
   end)%gw.

(** [generate_stream]: the items it yields and how it ends. *)
Definition generate_stream (s : worker_stream) : list chunk * gen_end :=
  match ws_end s with
  | StreamClosed => (ws_chunks s, GenReturn)
  | StreamRequestException _ =>
      (ws_chunks s ++
         [mkChunk (Some "Error occurred during generation"%string)
            (Some INTERNAL_ERROR) None],
       GenReturn)
  | StreamException e => (ws_chunks s, GenRaise (OtherException e))
  end.

(** [list_models]. *)
Definition list_models : H response :=
  let url := (controller_address env ++ "/list_models")%string in
  (called (Post url) ;;;
   match post_list_models env url with
   | HttpOk models =>
       hret (JsonModels
               (map (fun im => mkModelCard (snd im) (clock env (fst im)))
                  (combine (seq 0 (length models)) models)))
   | RequestException _ => hraise 503 "Service temporarily unavailable"
   end)%gw.

(** The prompt built from [request.messages]. *)
Definition prompt_part (msg : message_dict) : list string :=
  let role := get_default (msg_role msg) "user"%string in
  let content := get_default (msg_content msg) EmptyString in
  if String.eqb role "system" then [("System: " ++ content)%string]
  else if String.eqb role "user" then [("User: " ++ content)%string]
  else if String.eqb role "assistant" then [("Assistant: " ++ content)%string]
  else [].

Definition build_prompt (messages : messages_field) : string :=
  match messages with
  | MessagesStr s => s
  | MessagesList l =>
      (String.concat nl (flat_map prompt_part l) ++ nl ++ "Assistant:")%string
  end.

(** [request.max_tokens or 512]. *)
Definition max_new_tokens (max_tokens : option Z) : Z :=
  if opt_int_truthy max_tokens then get_default max_tokens 512 else 512.

(** The three stream chunks the generator builds; [t] is [int(time.time())]. *)
Definition stream_chunk (t : Z) (model : string) (delta : DeltaMessage)
    (finish : option string) : ChatCompletionStreamResponse :=
  mkStreamResponse ("chatcmpl-" ++ str_of_int t)%string
    [mkStreamChoice 0 delta finish] model.

Definition role_event (t : Z) (model : string) : sse_event :=
  SseData (stream_chunk t model (mkDelta (Some "assistant"%string) None) None).

Definition content_event (t : Z) (model content : string) : sse_event :=
  SseData (stream_chunk t model (mkDelta None (Some content)) None).

Definition final_event (t : Z) (model : string) : sse_event :=
  SseData (stream_chunk t model (mkDelta None None) (Some "stop"%string)).

(** The [async for] loop of [generate]: [k] clock readings were made before
    it; the result is what the loop yields and how it is left ([GenReturn]
    for [break] or exhaustion, [GenRaise] when the worker stream raises). *)
Fixpoint generate_loop (model : string) (k : nat) (items : list chunk)
    (ending : gen_end) : list sse_event * gen_end :=
  match items with
  | [] => ([], ending)
  | data :: rest =>
      if opt_int_truthy (error_code data) then ([], GenReturn)
      else
        let content := get_default (text data) EmptyString in
        let ev := content_event (clock env k) model content in
        if opt_str_truthy (finish_reason data) then ([ev], GenReturn)
        else
          let (evs, r) := generate_loop model (S k) rest ending in
          (ev :: evs, r)
  end.

(** The generator [generate] of [create_chat_completion]. *)
Definition generate (model : string) (source : list chunk * gen_end)
    : list sse_event * gen_end :=
  let first := role_event (clock env 0) model in
  match generate_loop model 1 (fst source) (snd source) with
  | (evs, GenReturn) =>
      (first :: evs ++ [final_event (clock env (S (length evs))) model; SseDone],
       GenReturn)
  | (evs, GenRaise e) => (first :: evs, GenRaise e)
  end.

(** The non-streaming branch, after the worker has replied. *)
Definition completion_of_result (model : string) (result : generate_result)
    : H response :=
  if opt_int_truthy (r_error_code result)
  then hraise 500 (get_default (r_text result) "Generation failed"%string)
  else
    let u := get_default (r_usage result) (mkUsageDict None None None) in
    let usage := mkUsage (get_default (u_prompt_tokens u) 0)
                   (get_default (u_completion_tokens u) 0)
                   (get_default (u_total_tokens u) 0) in
    let choice := mkChoice 0
                    (mkChatMessage "assistant"
                       (get_default (r_text result) EmptyString))
                    (get_default (r_finish_reason result) "stop"%string) in
    hret (JsonCompletion
            (mkCompletion ("chatcmpl-" ++ str_of_int (clock env 0))%string
               [choice] model usage)).

(** [create_chat_completion], once the key check has passed. *)
Definition create_chat_completion (request : APIChatCompletionRequest)
    : H response :=
  (worker_addr <- get_worker_address (req_model request) ;;
   let prompt := build_prompt (req_messages request) in
   let params := mkGenParams (req_model request) prompt
                   (max_new_tokens (req_max_tokens request))
                   (req_stream request) false in
   if req_stream request then
     let url := (worker_addr ++ "/worker_generate_stream")%string in
     called (Post url) ;;;
     let (events, ending) :=
       generate (req_model request)
         (generate_stream (post_worker_generate_stream env url params)) in
     hret (StreamingResponse events ending)
   else
     let url := (worker_addr ++ "/worker_generate")%string in
     called (Post url) ;;;
     match post_worker_generate env url params with
     | HttpOk result => completion_of_result (req_model request) result
     | RequestException _ => hraise 503 "Service temporarily unavailable"
     end)%gw.

(** [health_check]. *)
Definition health_check : H response := hret (JsonHealth (clock env 0)).

(** A request to one of the three routes of the application, with the
    bearer token it carries. *)
Inductive http_request : Type :=
| GetModels (credentials : option string)
| PostChatCompletions (credentials : option string)
    (request : APIChatCompletionRequest)
| GetHealth (credentials : option string).

(** A route declared with [Depends(verify_api_key)] runs the check first and
    the handler only when it returns. *)
Definition with_api_key (credentials : option string) (handler : H response)
    : H response :=
  match verify_api_key credentials with
  | Ok _ => handler
  | HTTPException status_code detail => hraise status_code detail
  end.

(** The application: route and dependencies of each decorator. *)
Definition app (r : http_request) : H response :=
  match r with
  | GetModels credentials => with_api_key credentials list_models
  | PostChatCompletions credentials request =>
      with_api_key credentials (create_chat_completion request)
  | GetHealth _ => health_check
  end.

End Gateway.

(** The line written for an event; [json] is the [.json()] method of the
    stream chunk ([pydantic]). *)
Definition sse_line (json : ChatCompletionStreamResponse -> string)
    (ev : sse_event) : string :=
  match ev with
  | SseData c => ("data: " ++ json c ++ nl ++ nl)%string
  | SseDone => ("data: [DONE]" ++ nl ++ nl)%string
  end.

End ApiServer.

(** ** The chat front end ([fastchat/serve/gradio_web_server.py]) *)

Module WebServer.

(** Modelled from the spec: the conversation template returned by
    [get_conversation_template] ([fastchat.model.model_adapter]) is not among
    the sources; it is consumed through "append message" and "update last
    message" over an ordered sequence of (role, content-or-pending) pairs. *)
Record Conversation : Type := mkConv {
  roles : string * string;
  messages : list (string * option string)
}.

(** Modelled from the spec: [Conversation.append_message], which adds a
    (role, content-or-pending) pair at the end. *)
Definition append_message (role : string) (message : option string)
    (c : Conversation) : Conversation :=
  mkConv (roles c) (messages c ++ [(role, message)]).

(** Replaces the content of the last pair; [None] when there is no pair. *)
Fixpoint set_last (message : string) (ms : list (string * option string))
    : option (list (string * option string)) :=
  match ms with
  | [] => None
  | (role, old) :: rest =>
      match rest with
      | [] => Some [(role, Some message)]
      | _ :: _ =>
          match set_last message rest with
          | Some rest' => Some ((role, old) :: rest')
          | None => None
          end
      end
  end.

(** Modelled from the spec: [Conversation.update_last_message], which
    replaces the content of the in-flight (last) message; on a conversation
    without messages the subscript [messages[-1]] raises. *)
Definition update_last_message (message : string) (c : Conversation)
    : result Conversation :=
  match set_last message (messages c) with
  | Some ms => Return (mkConv (roles c) ms)
  | None => Raise IndexError
  end.

(** Content of the last message: [None] when there is no message or its
    content is pending. *)
Definition last_message (c : Conversation) : option string :=
  match rev (messages c) with
  | (_, content) :: _ => content
  | [] => None
  end.

(** [State]: one chat session. *)
Record State : Type := mkState {
  conv : Conversation;
  conv_id : string;
  skip_next : bool;
  model_name : string
}.

(** What a run of the response generator does, in order: a call of
    [conv.update_last_message], or a [yield] (the state as it is at that
    moment; [controls] tells whether the tuple carries [enable_text] and
    [enable_btn], which hand the input back to the user). *)
Inductive event : Type :=
| Wrote (message : string)
| Yielded (s : State) (controls : bool).

(** A generator over the session state: the events so far, the result, the
    state after. *)
Definition G (A : Type) : Type := State -> list event * result A * State.

Definition gret {A : Type} (a : A) : G A := fun s => ([], Return a, s).

Definition gbind {A B : Type} (m : G A) (k : A -> G B) : G B :=
  fun s =>
    match m s with
    | (evs, Return a, s') =>
        match k a s' with
        | (evs', r, s'') => (evs ++ evs', r, s'')
        end
    | (evs, Raise e, s') => (evs, Raise e, s')
    end.

Definition get_state : G State := fun s => ([], Return s, s).

Definition set_skip_next (b : bool) : G unit :=
  fun s => ([], Return tt, mkState (conv s) (conv_id s) b (model_name s)).

(** [state_obj.conv.update_last_message(message)]. *)
Definition write_last (message : string) : G unit :=
  fun s =>
    match update_last_message message (conv s) with
    | Return c =>
        ([Wrote message], Return tt,
         mkState c (conv_id s) (skip_next s) (model_name s))
    | Raise e => ([], Raise e, s)
    end.

(** [yield state_obj, state_obj.to_gradio_chatbot(), ...]. *)
Definition yield (controls : bool) : G unit :=
  fun s => ([Yielded s controls], Return tt, s).

Declare Scope gen_scope.
Delimit Scope gen_scope with gen.

Notation "x <- m ;; k" := (gbind m (fun x => k))
  (at level 100, m at next level, right associativity) : gen_scope.
Notation "m ;;; k" := (gbind m (fun _ => k))
  (at level 100, right associativity) : gen_scope.

(** The streaming placeholder (U+258C, as its three UTF-8 bytes). *)
Definition cursor : string :=
  String (ascii_of_nat 226) (String (ascii_of_nat 150)
    (String (ascii_of_nat 140) EmptyString)).

(** The other processes and the globals, as the front end sees them. *)
Record environment : Type := mkEnv {
  controller_url : option string;
  (** controller [/get_worker_address]: the ["address"] key of the reply *)
  post_get_worker_address : string -> string -> http_result (option string);
  (** worker [/worker_generate_stream], for the prompt of the given state *)
  post_worker_generate_stream : string -> State -> worker_stream
}.

Section FrontEnd.

(** [SERVER_ERROR_MSG], [ErrorCode.CONNECTION_ERROR] and
    [ErrorCode.INTERNAL_ERROR] of [fastchat.constants]. *)
Variable SERVER_ERROR_MSG : string.
Variable CONNECTION_ERROR : Z.
Variable INTERNAL_ERROR : Z.

Variable env : environment.

(** [model_worker_stream_iter_fn]: both handlers yield one last chunk, so
    the generator always returns. *)
Definition model_worker_stream_iter_fn (s : worker_stream) : list chunk :=
  match ws_end s with
  | StreamClosed => ws_chunks s
  | StreamRequestException e =>
      ws_chunks s ++
        [mkChunk
           (Some (SERVER_ERROR_MSG ++ nl ++ "(Worker Connection Error: " ++ e ++ ")")%string)
           (Some CONNECTION_ERROR) None]
  | StreamException e =>
      ws_chunks s ++
        [mkChunk
           (Some (SERVER_ERROR_MSG ++ nl ++ "(Streaming Error: " ++ e ++ ")")%string)
           (Some INTERNAL_ERROR) None]
  end.

(** The [for] loop of [bot_response_fn]: [None] when the function returned
    from inside the loop, the accumulated text when the loop ran out. *)
Fixpoint stream_loop (chunks : list chunk) (full_resp_text : string)
    : G (option string) :=
  match chunks with
  | [] => gret (Some full_resp_text)
  | data_chunk :: rest =>
      if negb (get_default (error_code data_chunk) 0 =? 0) then
        let err_msg := get_default (text data_chunk) SERVER_ERROR_MSG in
        (write_last err_msg ;;;
         yield true ;;;
         gret None)%gen
      else
        let text_chunk := get_default (text data_chunk) EmptyString in
        let full_resp_text := (full_resp_text ++ text_chunk)%string in
        (write_last (full_resp_text ++ cursor)%string ;;;
         yield false ;;;
         stream_loop rest full_resp_text)%gen
  end.

(** [bot_response_fn]. *)
Definition bot_response_fn : G unit :=
  (state_obj <- get_state ;;
   if skip_next state_obj then
     set_skip_next false ;;;
     yield true
   else if negb (opt_str_truthy (controller_url env)) then
     write_last (SERVER_ERROR_MSG ++ " (System Error: Controller not configured)")%string ;;;
     yield true
   else
     let url := (get_default (controller_url env) EmptyString
                 ++ "/get_worker_address")%string in
     match post_get_worker_address env url (model_name state_obj) with
     | RequestException _ =>
         write_last (SERVER_ERROR_MSG ++ " (Controller/Worker Error)")%string ;;;
         yield true
     | HttpOk body =>
         let worker_addr := get_default body EmptyString in
         if negb (str_truthy worker_addr) then
           write_last (SERVER_ERROR_MSG ++ " (No worker for "
                       ++ model_name state_obj ++ ")")%string ;;;
           yield true
         else
           write_last cursor ;;;
           yield false ;;;
           state_now <- get_state ;;
           let source :=
             post_worker_generate_stream env
               (worker_addr ++ "/worker_generate_stream")%string state_now in
           finished <- stream_loop (model_worker_stream_iter_fn source) EmptyString ;;
           match finished with
           | None => gret tt
           | Some full_resp_text =>
               write_last full_resp_text ;;;
               yield true
           end
     end)%gen.

End FrontEnd.

(** [regenerate_fn]: the new session state (the widgets it returns with
    the state are left out). *)
Definition regenerate_fn (s : State) : State :=
  match rev (messages (conv s)) with
  | (role, _) :: _ =>
      if String.eqb role (snd (roles (conv s)))
      then mkState (mkConv (roles (conv s)) (removelast (messages (conv s))))
             (conv_id s) (skip_next s) (model_name s)
      else s
  | [] => s
  end.

Section TextInput.

(** The builtin [str.strip]. *)
Variable strip : string -> string.

(** [add_text_fn]: the new session state. *)
Definition add_text_fn (text : string) (s : State) : State :=
  if negb (str_truthy text) || (String.length (strip text) =? 0)%nat then
    mkState (conv s) (conv_id s) true (model_name s)
  else
    let c1 := append_message (fst (roles (conv s))) (Some (strip text)) (conv s) in
    let c2 := append_message (snd (roles (conv s))) None c1 in
    mkState c2 (conv_id s) false (model_name s).

End TextInput.

(** The initial value of the global [global_fixed_model_name]. *)
Definition default_model_name : string := "yeongjopt-default-model".

Section Startup.

(** Controller [/list_models] as the front end sees it: the ["models"] key
    of the decoded reply, when the reply has one. *)
Variable post_list_models : string -> http_result (option (list string)).

(** [get_model_list_from_controller]: the list it returns and the value of
    the global [global_fixed_model_name] after the call. *)
Definition get_model_list_from_controller (controller_addr : option string)
    (global_fixed_model_name : string) : list string * string :=
  if negb (opt_str_truthy controller_addr) then
    ([global_fixed_model_name], global_fixed_model_name)
  else
    match post_list_models
            (get_default controller_addr EmptyString ++ "/list_models")%string with
    | HttpOk body =>
        match get_default body [] with
        | first :: _ => ([first], first)
        | [] => ([global_fixed_model_name], global_fixed_model_name)
        end
    | RequestException _ => ([global_fixed_model_name], global_fixed_model_name)
    end.

(** How [main_gradio_server] ends: it returns early, or it builds the
    interface for the models of the context and launches it. *)
Inductive startup : Type :=
| Exited
| Launched (models : list string).

(** [GradioContext.__init__]: the models of the context. *)
Definition GradioContext_models (models : list string)
    (global_fixed_model_name : string) : list string :=
  match models with
  | [] => [global_fixed_model_name]
  | _ :: _ => models
  end.

(** [main_gradio_server], from the value of the global model name before
    the call. *)
Definition main_gradio_server (cli_controller_url : option string)
    (global_fixed_model_name : string) : startup :=
  let (models_available, name) :=
    get_model_list_from_controller cli_controller_url global_fixed_model_name in
  if match models_available with [] => true | _ :: _ => false end
     || String.eqb name default_model_name
     || negb (str_truthy name)
  then Exited
  else Launched (GradioContext_models models_available name).

End Startup.

End WebServer.

(** ** Runs of the registry *)

(** One call on the controller, with what the call reads from outside: the
    clock value and, where the worker is probed, the worker's answers. *)
Inductive op : Type :=
| Register (probe : string -> http_result status_dict) (now : Z)
    (worker_name : string) (check_heart_beat : bool)
    (worker_status : option status_dict) (multimodal : bool)
| Remove (worker_name : string)
| Refresh (probe : string -> http_result status_dict)
| HeartBeat (now : Z) (worker_name : string) (queue_length : Z)
| Sweep (now : Z).  (* one turn of the loop of [heart_beat_controller] *)

(** The registry after one call (whatever the call returned or raised). *)
Definition step (expiration : Z) (o : op) (c : Controller) : Controller :=
  match o with
  | Register probe now worker_name chb status mm =>
      snd (register_worker probe now worker_name chb status mm c)
  | Remove worker_name => snd (remove_worker worker_name c)
  | Refresh probe => snd (refresh_all_workers probe c)
  | HeartBeat now worker_name ql => snd (receive_heart_beat now worker_name ql c)
  | Sweep now => snd (remove_stale_workers_by_expiration expiration now c)
  end.

(** The registry as seen before the first call and after each call. *)
Fixpoint observations (expiration : Z) (ops : list op) (c : Controller)
    : list Controller :=
  c :: match ops with
       | [] => []
       | o :: rest => observations expiration rest (step expiration o c)
       end.

(** Deleting a list of keys, one after the other. *)
Definition del_all {V : Type} (ks : list string) (d : PyDict.dict V)
    : PyDict.dict V :=
  fold_left (fun d k => PyDict.del k d) ks d.

(** A status dictionary with the three keys of the worker contract. *)
Definition full_status (names : list string) (spd ql : Z) : option status_dict :=
  Some (mkStatus (Some names) (Some spd) (Some ql)).

(** ** Reading the two framings *)

(** What a server-sent event is, by the fields of its only choice: the role
    announcement (a role, no content, no finish reason), a content delta, the
    terminal event (empty delta and a finish reason), or the end-of-stream
    sentinel. *)
Inductive event_kind : Type :=
| RoleAnnouncement (role : string)
| ContentDelta (content : string)
| Terminal (finish_reason : string)
| DoneSentinel
| OtherEvent.

Definition classify (ev : ApiServer.sse_event) : event_kind :=
  match ev with
  | ApiServer.SseDone => DoneSentinel
  | ApiServer.SseData c =>
      match ApiServer.sr_choices c with
      | [choice] =>
          match ApiServer.delta_role (ApiServer.sc_delta choice),
                ApiServer.delta_content (ApiServer.sc_delta choice),
                ApiServer.sc_finish_reason choice with
          | Some role, None, None => RoleAnnouncement role
          | None, Some content, None => ContentDelta content
          | None, None, Some reason => Terminal reason
          | _, _, _ => OtherEvent
          end
      | _ => OtherEvent
      end
  end.

(** The content deltas of a list of events, in order. *)
Definition deltas (events : list ApiServer.sse_event) : list string :=
  flat_map (fun ev => match classify ev with
                      | ContentDelta content => [content]
                      | _ => []
                      end) events.

(** A chunk is successful when its error code is missing or zero. *)
Definition chunk_ok (c : chunk) : Prop := opt_int_truthy (error_code c) = false.

(** The session state once the last message has been overwritten. *)
Definition written (message : string) (s : WebServer.State) : WebServer.State :=
  match WebServer.update_last_message message (WebServer.conv s) with
  | Return c =>
      WebServer.mkState c (WebServer.conv_id s) (WebServer.skip_next s)
        (WebServer.model_name s)
  | Raise _ => s
  end.

(** The in-progress updates of the chat framing for a run of successful
    chunks: one write of the accumulated text followed by the marker, and one
    yield without the controls, per chunk. *)
Fixpoint progress (chunks : list chunk) (full_resp_text : string)
    (s : WebServer.State) : list WebServer.event :=
  match chunks with
  | [] => []
  | c :: rest =>
      let full := (full_resp_text ++ get_default (text c) EmptyString)%string in
      WebServer.Wrote (full ++ WebServer.cursor)%string
        :: WebServer.Yielded (written (full ++ WebServer.cursor)%string s) false
        :: progress rest full s
  end.

(** A yield that hands the controls back: the final state of a response. *)
Definition is_final_yield (ev : WebServer.event) : bool :=
  match ev with
  | WebServer.Yielded _ controls => controls
  | WebServer.Wrote _ => false
  end.

(** The writes of a run, in order. *)
Definition writes (events : list WebServer.event) : list string :=
  flat_map (fun ev => match ev with
                      | WebServer.Wrote message => [message]
                      | WebServer.Yielded _ _ => []
                      end) events.

(** A worker stream that fails after the chunks [good]: either the transport
    breaks ([requests] raises), or a chunk with a non-zero error code follows.
    The last component is the error text of the failure as the chat front end
    words it: its own connection-error message, or the text of the failing
    chunk ([SERVER_ERROR_MSG] when the chunk has none). *)
Inductive stream_failure (SERVER_ERROR_MSG : string) (good : list chunk)
    : worker_stream -> string -> Prop :=
| transport_break (e : string) :
    stream_failure SERVER_ERROR_MSG good
      (mkStream good (StreamRequestException e))
      (SERVER_ERROR_MSG ++ nl ++ "(Worker Connection Error: " ++ e ++ ")")%string
| error_chunk (c : chunk) (rest : list chunk) (ending : stream_end) :
    opt_int_truthy (error_code c) = true ->
    stream_failure SERVER_ERROR_MSG good
      (mkStream (good ++ c :: rest) ending)
      (get_default (text c) SERVER_ERROR_MSG).

(** The three chunks of the worked example of the streaming framing. *)
Definition hi_chunks : list chunk :=
  [mkChunk (Some "Hi"%string) None None;
   mkChunk (Some "Hi there"%string) None None;
   mkChunk None (Some 0) (Some "stop"%string)].

(** A gateway environment with a configured key, a clock stuck at [0] and
    backends that refuse every connection. *)
Definition keyed_env : ApiServer.environment :=
  ApiServer.mkEnv "http://localhost:21001" (Some "secret"%string)
    (fun _ => 0)
    (fun _ _ => RequestException "refused")
    (fun _ => RequestException "refused")
    (fun _ _ => RequestException "refused")
    (fun _ _ => mkStream [] (StreamRequestException "refused")).

(** A chat session after one user turn, with the assistant turn pending. *)
Definition pending_session : WebServer.State :=
  WebServer.mkState
    (WebServer.mkConv ("USER"%string, "ASSISTANT"%string)
       [("USER"%string, Some "hello"%string); ("ASSISTANT"%string, None)])
    "0123abcd" false "yeongjopt".

(** The connection to the worker breaks after the chunk ["Hi"]. *)
Definition broken_stream : worker_stream :=
  mkStream [mkChunk (Some "Hi"%string) (Some 0) None]
    (StreamRequestException "Connection reset").

(** A front-end environment whose controller resolves every model to one
    worker, and whose worker stream is [broken_stream]. *)
Definition broken_env : WebServer.environment :=
  WebServer.mkEnv (Some "http://localhost:21001"%string)
    (fun _ _ => HttpOk (Some "http://localhost:21002"%string))
    (fun _ _ => broken_stream).

(** ** The processes connected to each other *)

(** The controller with registry [c], as the gateway reaches it: the two
    controller calls of the gateway are answered by the endpoints. *)
Definition gateway_of_controller (c : Controller) (address : string)
    (key : option string) (clock : nat -> Z)
    (post_worker_generate :
       string -> ApiServer.gen_params -> http_result ApiServer.generate_result)
    (post_worker_generate_stream : string -> ApiServer.gen_params -> worker_stream)
    : ApiServer.environment :=
  ApiServer.mkEnv address key clock
    (fun _ model =>
       match served (app_get_worker_address (Some model) c) with
       | HttpOk r => HttpOk (reply_address r)
       | RequestException e => RequestException e
       end)
    (fun _ =>
       match served (app_list_models c) with
       | HttpOk r => HttpOk (reply_keys r)
       | RequestException e => RequestException e
       end)
    post_worker_generate post_worker_generate_stream.

(** The text of a chunk as both front ends read it: [get("text", "")]. *)
Definition chunk_text (c : chunk) : string := get_default (text c) EmptyString.

(** A chunk that neither fails nor finishes the stream. *)
Definition plain (c : chunk) : Prop :=
  opt_int_truthy (error_code c) = false /\
  opt_str_truthy (finish_reason c) = false.

(** The concatenation of a list of strings, in order. *)
Definition joined (parts : list string) : string :=
  fold_right String.append EmptyString parts.

(** * Properties *)

(** ** Lists of strings and dictionaries *)

Lemma str_in_In (x : string) (xs : list string) :
  str_in x xs = true <-> In x xs.
Proof.
  unfold str_in. rewrite existsb_exists. split.
  - intros [y [Hy Heq]]. apply String.eqb_eq in Heq. now subst.
  - intros H. exists x. split; [assumption | apply String.eqb_refl].
Qed.

Lemma str_in_not_In (x : string) (xs : list string) :
  str_in x xs = false <-> ~ In x xs.
Proof.
  rewrite <- str_in_In. destruct (str_in x xs); split; congruence.
Qed.

Section DictFacts.

Context {V : Type}.

Implicit Types (d : PyDict.dict V) (k : string) (v : V).

Lemma contains_get k d :
  PyDict.contains k d = true <-> exists v, PyDict.get k d = Some v.
Proof.
  unfold PyDict.contains. destruct (PyDict.get k d) as [v |].
  - split; [eauto | reflexivity].
  - split; [discriminate | intros [v Hv]; discriminate].
Qed.

Lemma not_contains_get k d :
  PyDict.contains k d = false <-> PyDict.get k d = None.
Proof.
  unfold PyDict.contains. destruct (PyDict.get k d); split; congruence.
Qed.

Lemma set_length_present k v d :
  PyDict.contains k d = true -> length (PyDict.set k v d) = length d.
Proof.
  unfold PyDict.contains. induction d as [| [k' v'] rest IH]; simpl.
  - discriminate.
  - destruct (String.eqb k' k); simpl; [reflexivity |].
    intros H. now rewrite IH.
Qed.

Lemma del_length_le k d : (length (PyDict.del k d) <= length d)%nat.
Proof.
  induction d as [| [k' v'] rest IH]; simpl; [lia |].
  destruct (String.eqb k' k); simpl; lia.
Qed.

Lemma get_set_same k v d : PyDict.get k (PyDict.set k v d) = Some v.
Proof.
  induction d as [| [k' v'] rest IH]; simpl.
  - now rewrite String.eqb_refl.
  - destruct (String.eqb k' k) eqn:E; simpl; rewrite E; [reflexivity | exact IH].
Qed.

Lemma get_set_other k k' v d :
  k <> k' -> PyDict.get k' (PyDict.set k v d) = PyDict.get k' d.
Proof.
  intros Hne. induction d as [| [k0 v0] rest IH]; simpl.
  - destruct (String.eqb k k') eqn:E; [| reflexivity].
    apply String.eqb_eq in E. contradiction.
  - destruct (String.eqb k0 k) eqn:E; simpl.
    + apply String.eqb_eq in E. subst k0.
      destruct (String.eqb k k') eqn:E'; [| reflexivity].
      apply String.eqb_eq in E'. contradiction.
    + destruct (String.eqb k0 k'); [reflexivity | exact IH].
Qed.

Lemma keys_set_present k v d :
  PyDict.contains k d = true -> PyDict.keys (PyDict.set k v d) = PyDict.keys d.
Proof.
  unfold PyDict.contains, PyDict.keys.
  induction d as [| [k' v'] rest IH]; simpl.
  - discriminate.
  - destruct (String.eqb k' k); simpl; [reflexivity |].
    intros H. now rewrite IH.
Qed.

Lemma del_absent k d : PyDict.get k d = None -> PyDict.del k d = d.
Proof.
  induction d as [| [k' v'] rest IH]; simpl; [reflexivity |].
  destruct (String.eqb k' k); [discriminate |].
  intros H. now rewrite IH.
Qed.

Lemma get_del_other k k' d :
  k <> k' -> PyDict.get k' (PyDict.del k d) = PyDict.get k' d.
Proof.
  intros Hne. induction d as [| [k0 v0] rest IH]; simpl; [reflexivity |].
  destruct (String.eqb k0 k) eqn:E; simpl.
  - apply String.eqb_eq in E. subst k0.
    destruct (String.eqb k k') eqn:E'; [| reflexivity].
    apply String.eqb_eq in E'. contradiction.
  - destruct (String.eqb k0 k'); [reflexivity | exact IH].
Qed.

Lemma get_del_none k k' d :
  PyDict.get k' d = None -> PyDict.get k' (PyDict.del k d) = None.
Proof.
  induction d as [| [k0 v0] rest IH]; simpl; [reflexivity |].
  destruct (String.eqb k0 k') eqn:E'; [discriminate |].
  intros H. destruct (String.eqb k0 k); simpl; [exact H |].
  rewrite E'. now apply IH.
Qed.

Lemma get_In k v d : PyDict.get k d = Some v -> In (k, v) d.
Proof.
  induction d as [| [k0 v0] rest IH]; simpl; [discriminate |].
  destruct (String.eqb k0 k) eqn:E.
  - apply String.eqb_eq in E. intros [= ->]. left. now subst.
  - intros H. right. now apply IH.
Qed.

Lemma get_None_keys k d : PyDict.get k d = None -> ~ In k (PyDict.keys d).
Proof.
  unfold PyDict.keys. induction d as [| [k0 v0] rest IH]; simpl.
  - tauto.
  - destruct (String.eqb k0 k) eqn:E; [discriminate |].
    intros H [Heq | Hin].
    + subst k0. rewrite String.eqb_refl in E. discriminate.
    + now apply IH.
Qed.

Lemma keys_get_None k d : ~ In k (PyDict.keys d) -> PyDict.get k d = None.
Proof.
  unfold PyDict.keys. induction d as [| [k0 v0] rest IH]; simpl.
  - reflexivity.
  - intros H. destruct (String.eqb k0 k) eqn:E.
    + apply String.eqb_eq in E. tauto.
    + apply IH. tauto.
Qed.

Lemma In_get k v d : NoDup (PyDict.keys d) -> In (k, v) d -> PyDict.get k d = Some v.
Proof.
  unfold PyDict.keys. induction d as [| [k0 v0] rest IH]; simpl; [tauto |].
  intros ND [Heq | Hin]; inversion ND as [| ? ? Hnotin ND']; subst.
  - injection Heq as -> ->. now rewrite String.eqb_refl.
  - destruct (String.eqb k0 k) eqn:E.
    + apply String.eqb_eq in E. subst k0. exfalso. apply Hnotin.
      change k with (fst (k, v)). now apply in_map.
    + now apply IH.
Qed.

Lemma get_del_same k d :
  NoDup (PyDict.keys d) -> PyDict.get k (PyDict.del k d) = None.
Proof.
  unfold PyDict.keys. induction d as [| [k0 v0] rest IH]; simpl; intros ND.
  - reflexivity.
  - inversion ND as [| ? ? Hnotin ND']; subst.
    destruct (String.eqb k0 k) eqn:E.
    + apply String.eqb_eq in E. subst k0. now apply keys_get_None.
    + simpl. rewrite E. now apply IH.
Qed.

Lemma keys_del_incl k k' d :
  In k' (PyDict.keys (PyDict.del k d)) -> In k' (PyDict.keys d).
Proof.
  unfold PyDict.keys. induction d as [| [k0 v0] rest IH]; simpl; [tauto |].
  destruct (String.eqb k0 k); simpl; [tauto |].
  intros [H | H]; [now left | right; now apply IH].
Qed.

Lemma NoDup_keys_del k d :
  NoDup (PyDict.keys d) -> NoDup (PyDict.keys (PyDict.del k d)).
Proof.
  induction d as [| [k0 v0] rest IH]; simpl; intros ND; [constructor |].
  inversion ND as [| ? ? Hnotin ND']; subst.
  destruct (String.eqb k0 k); [assumption |].
  simpl. constructor.
  - intros Hin. apply Hnotin. eapply keys_del_incl. exact Hin.
  - now apply IH.
Qed.

Lemma del_all_length_le ks d : (length (del_all ks d) <= length d)%nat.
Proof.
  revert d. induction ks as [| k ks IH]; intros d; simpl; [lia |].
  etransitivity; [apply IH | apply del_length_le].
Qed.

Lemma get_del_all_none ks k d :
  PyDict.get k d = None -> PyDict.get k (del_all ks d) = None.
Proof.
  revert d. induction ks as [| k0 ks IH]; intros d H; simpl; [exact H |].
  apply IH. now apply get_del_none.
Qed.

Lemma get_del_all_in ks k d :
  NoDup (PyDict.keys d) -> In k ks -> PyDict.get k (del_all ks d) = None.
Proof.
  revert d. induction ks as [| k0 ks IH]; intros d ND Hin; simpl.
  - destruct Hin.
  - destruct (string_dec k0 k) as [-> | Hne].
    + apply get_del_all_none. now apply get_del_same.
    + destruct Hin as [Heq | Hin]; [contradiction |].
      apply IH; [now apply NoDup_keys_del | assumption].
Qed.

Lemma get_del_all_notin ks k d :
  ~ In k ks -> PyDict.get k (del_all ks d) = PyDict.get k d.
Proof.
  revert d. induction ks as [| k0 ks IH]; intros d Hnotin; simpl; [reflexivity |].
  rewrite IH by (simpl in Hnotin; tauto).
  apply get_del_other. simpl in Hnotin. tauto.
Qed.

End DictFacts.

(** ** The registry *)

Ltac ctl_unfold :=
  unfold register_worker, store_registration, new_worker_info, getitem,
    remove_worker, refresh_all_workers, receive_heart_beat,
    remove_stale_workers_by_expiration, bind, ret, raise,
    read_worker_info, write_worker_info.

Lemma remove_worker_eq (worker_name : string) (c : Controller) :
  remove_worker worker_name c = (Return tt, PyDict.del worker_name c).
Proof.
  ctl_unfold. destruct (PyDict.contains worker_name c) eqn:E; [reflexivity |].
  apply not_contains_get in E. now rewrite del_absent.
Qed.

Lemma remove_all_eq (to_delete : list string) (c : Controller) :
  remove_all to_delete c = (Return tt, del_all to_delete c).
Proof.
  revert c. induction to_delete as [| k ks IH]; intros c; simpl.
  - reflexivity.
  - unfold bind. rewrite remove_worker_eq. apply IH.
Qed.

Lemma sweep_eq (expiration now : Z) (c : Controller) :
  remove_stale_workers_by_expiration expiration now c =
  (Return tt, del_all (stale_workers (now - expiration) c) c).
Proof.
  unfold remove_stale_workers_by_expiration, bind, read_worker_info.
  apply remove_all_eq.
Qed.

(** A registration leaves the registry as it was or stores one record under
    the registering name. *)
Lemma store_registration_state probe now worker_name chb status mm (c : Controller) :
  snd (store_registration probe now worker_name chb status mm c) = c \/
  exists w, snd (store_registration probe now worker_name chb status mm c)
            = PyDict.set worker_name w c.
Proof.
  unfold store_registration.
  destruct (if negb (status_truthy status)
            then get_worker_status_direct probe worker_name
            else status) as [st |]; [| now destruct (negb (status_truthy None)); left].
  destruct (negb (status_truthy (Some st))); [now left |].
  unfold new_worker_info, getitem, bind, ret, raise, read_worker_info,
    write_worker_info.
  destruct (st_model_names st); [| now left].
  destruct (st_speed st); [| now left].
  destruct (st_queue_length st); [| now left].
  right. eexists. reflexivity.
Qed.

Lemma register_worker_length probe now worker_name chb status mm (c : Controller) :
  (length c <= 1)%nat ->
  (length (snd (register_worker probe now worker_name chb status mm c)) <= 1)%nat.
Proof.
  intros Hlen. unfold register_worker, bind, read_worker_info.
  destruct (PyDict.is_empty c) eqn:Hempty.
  - destruct c; [| discriminate].
    destruct (store_registration_state probe now worker_name chb status mm [])
      as [-> | [w ->]]; simpl; lia.
  - destruct (PyDict.contains worker_name c) eqn:Hin; simpl; [| exact Hlen].
    destruct (store_registration_state probe now worker_name chb status mm c)
      as [-> | [w ->]]; [exact Hlen |].
    now rewrite set_length_present.
Qed.

Lemma step_length (expiration : Z) (o : op) (c : Controller) :
  (length c <= 1)%nat -> (length (step expiration o c) <= 1)%nat.
Proof.
  intros Hlen. destruct o as [probe now w chb status mm | w | probe | now w ql | now];
    simpl.
  - now apply register_worker_length.
  - rewrite remove_worker_eq. simpl.
    etransitivity; [apply del_length_le | exact Hlen].
  - unfold refresh_all_workers, bind, read_worker_info, ret.
    destruct (PyDict.keys c) as [| w ws]; [exact Hlen |].
    destruct (negb (status_truthy (get_worker_status_direct probe w)));
      [| exact Hlen].
    rewrite remove_worker_eq. simpl.
    etransitivity; [apply del_length_le | exact Hlen].
  - unfold receive_heart_beat, bind, read_worker_info, write_worker_info, ret.
    destruct (PyDict.get w c) as [info |] eqn:G; simpl; [| exact Hlen].
    rewrite set_length_present; [exact Hlen |].
    apply contains_get. eauto.
  - rewrite sweep_eq. simpl.
    etransitivity; [apply del_all_length_le | exact Hlen].
Qed.

Lemma observations_length (expiration : Z) (ops : list op) (c : Controller) :
  (length c <= 1)%nat ->
  Forall (fun c' => (length c' <= 1)%nat) (observations expiration ops c).
Proof.
  revert c. induction ops as [| o rest IH]; intros c Hlen; simpl.
  - constructor; [exact Hlen | constructor].
  - constructor; [exact Hlen |].
    apply IH. now apply step_length.
Qed.

(** A registration under a name the registry does not hold, while it holds
    another one, is refused and changes nothing. *)
Lemma register_other_rejected probe now worker_name chb status mm (c : Controller) :
  PyDict.is_empty c = false ->
  PyDict.contains worker_name c = false ->
  register_worker probe now worker_name chb status mm c = (Return false, c).
Proof.
  intros Hne Hnot. unfold register_worker, bind, read_worker_info, ret.
  now rewrite Hne, Hnot.
Qed.

(** C1. Starting from the empty registry, after any sequence of
    registrations, removals, refreshes, heart beats and expiration sweeps
    (with any clock values, worker names, statuses and probe answers), the
    registry holds at most one record at every observation point; and at
    every such point a registration under a name that is not registered,
    while a record is present, returns [False] and leaves the registry
    unchanged. *)
Theorem registry_holds_at_most_one_worker (expiration : Z) (ops : list op) :
  Forall (fun c => (length c <= 1)%nat)
    (observations expiration ops Controller_init) /\
  (forall c probe now worker_name chb status mm,
      In c (observations expiration ops Controller_init) ->
      PyDict.is_empty c = false ->
      PyDict.contains worker_name c = false ->
      register_worker probe now worker_name chb status mm c = (Return false, c)).
Proof.
  split.
  - apply observations_length. simpl. lia.
  - intros c probe now worker_name chb status mm _ Hne Hnot.
    now apply register_other_rejected.
Qed.

Lemma register_full_status probe now worker_name chb names spd ql mm (c : Controller) :
  PyDict.is_empty c = true \/ PyDict.contains worker_name c = true ->
  register_worker probe now worker_name chb (full_status names spd ql) mm c =
  (Return true,
   PyDict.set worker_name (mkWorkerInfo names spd ql chb now mm) c).
Proof.
  intros Hc. unfold register_worker, bind, read_worker_info.
  destruct (PyDict.is_empty c) eqn:Hempty; [reflexivity |].
  destruct Hc as [Hc | Hc]; [discriminate |].
  rewrite Hc. reflexivity.
Qed.

Lemma single_record_contains (worker_name : string) (c : Controller) :
  (length c <= 1)%nat ->
  PyDict.contains worker_name c = true ->
  exists old, c = [(worker_name, old)].
Proof.
  destruct c as [| [k old] [| kv rest]]; simpl; intros Hlen Hin.
  - discriminate.
  - unfold PyDict.contains in Hin. simpl in Hin.
    destruct (String.eqb k worker_name) eqn:E; [| discriminate].
    apply String.eqb_eq in E. subst k. now exists old.
  - lia.
Qed.

(** C4. On a registry that is empty or holds endpoint [a] only, registering
    [a] with a valid status succeeds and stores its record; registering a
    different endpoint [b] while that record is present returns [False] and
    leaves the registry (hence the record of [a]) unchanged; registering [a]
    a second time with a valid status returns [True] again, and the stored
    record then holds the second call's model names, speed, queue length,
    heart-beat flag and multimodal flag, with [last_heart_beat] set to the
    clock value of the second call. *)
Theorem register_conflict_and_reregistration
    probe (a b : string) (c0 : Controller)
    now1 chb1 names1 spd1 ql1 mm1
    nowb chbb statusb mmb
    now2 chb2 names2 spd2 ql2 mm2 :
  (length c0 <= 1)%nat ->
  PyDict.is_empty c0 = true \/ PyDict.contains a c0 = true ->
  a <> b ->
  register_worker probe now1 a chb1 (full_status names1 spd1 ql1) mm1 c0 =
    (Return true, [(a, mkWorkerInfo names1 spd1 ql1 chb1 now1 mm1)]) /\
  register_worker probe nowb b chbb statusb mmb
    [(a, mkWorkerInfo names1 spd1 ql1 chb1 now1 mm1)] =
    (Return false, [(a, mkWorkerInfo names1 spd1 ql1 chb1 now1 mm1)]) /\
  register_worker probe now2 a chb2 (full_status names2 spd2 ql2) mm2
    [(a, mkWorkerInfo names1 spd1 ql1 chb1 now1 mm1)] =
    (Return true, [(a, mkWorkerInfo names2 spd2 ql2 chb2 now2 mm2)]).
Proof.
  intros Hlen Hc Hab. repeat split.
  - rewrite register_full_status by exact Hc.
    destruct Hc as [Hc | Hc].
    + destruct c0; [reflexivity | discriminate].
    + destruct (single_record_contains a c0 Hlen Hc) as [old ->].
      simpl. now rewrite String.eqb_refl.
  - apply register_other_rejected; [reflexivity |].
    unfold PyDict.contains. simpl.
    destruct (String.eqb a b) eqn:E; [| reflexivity].
    apply String.eqb_eq in E. contradiction.
  - rewrite register_full_status.
    + simpl. now rewrite String.eqb_refl.
    + right. unfold PyDict.contains. simpl. now rewrite String.eqb_refl.
Qed.

Lemma stale_workers_In (expire : Z) (w : string) (c : Controller) :
  In w (stale_workers expire c) <->
  exists info, In (w, info) c /\ check_heart_beat info = true /\
               last_heart_beat info < expire.
Proof.
  unfold stale_workers, PyDict.items. rewrite in_map_iff. split.
  - intros [[k info] [Hk Hin]]. simpl in Hk. subst k.
    apply filter_In in Hin. destruct Hin as [Hin Hcond]. simpl in Hcond.
    apply andb_true_iff in Hcond. destruct Hcond as [Hchb Hlt].
    exists info. repeat split; [assumption .. |]. now apply Z.ltb_lt.
  - intros [info [Hin [Hchb Hlt]]]. exists (w, info). split; [reflexivity |].
    apply filter_In. split; [assumption |]. simpl.
    apply andb_true_iff. split; [assumption | now apply Z.ltb_lt].
Qed.

(** A registry with at most one record has unique keys. *)
Lemma single_record_NoDup (c : Controller) :
  (length c <= 1)%nat -> NoDup (PyDict.keys c).
Proof.
  destruct c as [| [k v] [| kv rest]]; simpl; intros Hlen.
  - constructor.
  - constructor; [simpl; tauto | constructor].
  - lia.
Qed.

(** C5. Let a worker be registered (in a dictionary with unique keys).  One
    run of the expiration sweep at clock value [now] returns normally; if the
    worker's [check_heart_beat] is true and its [last_heart_beat] is less
    than [now] minus the expiration window, the worker is absent afterwards;
    if its [check_heart_beat] is false its record is still there, unchanged,
    whatever its [last_heart_beat]. *)
Theorem sweep_removes_expired_only
    (expiration now : Z) (c : Controller) (w : string) (info : WorkerInfo) :
  NoDup (PyDict.keys c) ->
  PyDict.get w c = Some info ->
  fst (remove_stale_workers_by_expiration expiration now c) = Return tt /\
  (check_heart_beat info = true ->
   last_heart_beat info < now - expiration ->
   PyDict.contains w
     (snd (remove_stale_workers_by_expiration expiration now c)) = false) /\
  (check_heart_beat info = false ->
   PyDict.get w
     (snd (remove_stale_workers_by_expiration expiration now c)) = Some info).
Proof.
  intros ND Hget. rewrite sweep_eq. simpl. repeat split.
  - intros Hchb Hlt. apply not_contains_get.
    apply get_del_all_in; [exact ND |].
    apply stale_workers_In. exists info.
    repeat split; [now apply get_In | assumption ..].
  - intros Hchb. rewrite get_del_all_notin; [exact Hget |].
    intros Hin. apply stale_workers_In in Hin.
    destruct Hin as [info' [Hin [Hchb' _]]].
    apply (In_get _ _ _ ND) in Hin. congruence.
Qed.

(** C7. [get_worker_address m] is the empty string on the empty registry;
    on a registry holding the single worker [w] it is [w] when [m] is one of
    the worker's model names and the empty string otherwise; so, for a worker
    with a non-empty endpoint, the endpoint is returned exactly when the
    model is listed, and the empty registry and the unlisted model give the
    same return value. *)
Theorem get_worker_address_cases (m w : string) (info : WorkerInfo) :
  get_worker_address m Controller_init = EmptyString /\
  (In m (model_names info) -> get_worker_address m [(w, info)] = w) /\
  (~ In m (model_names info) -> get_worker_address m [(w, info)] = EmptyString) /\
  (w <> EmptyString ->
   (get_worker_address m [(w, info)] = w <-> In m (model_names info))) /\
  (~ In m (model_names info) ->
   get_worker_address m [(w, info)] = get_worker_address m Controller_init).
Proof.
  assert (Hone : get_worker_address m [(w, info)] =
                 if str_in m (model_names info) then w else EmptyString).
  { unfold get_worker_address. simpl. now rewrite String.eqb_refl. }
  assert (Hin : In m (model_names info) -> get_worker_address m [(w, info)] = w).
  { intros H. apply str_in_In in H. now rewrite Hone, H. }
  assert (Hout : ~ In m (model_names info) ->
                 get_worker_address m [(w, info)] = EmptyString).
  { intros H. apply str_in_not_In in H. now rewrite Hone, H. }
  split; [reflexivity |].
  split; [exact Hin |].
  split; [exact Hout |].
  split.
  - intros Hw. split; [| exact Hin].
    intros Heq. destruct (str_in m (model_names info)) eqn:E.
    + now apply str_in_In.
    + rewrite Hone in Heq. congruence.
  - intros H. now rewrite Hout.
Qed.

(** C8. For a registered endpoint, [receive_heart_beat] returns [True] and
    the record of that endpoint afterwards has the given queue length and the
    current clock value as [last_heart_beat], its other fields and every other
    record being as before; for an endpoint that is not registered it returns
    [False] and the registry is unchanged. *)
Theorem receive_heart_beat_cases (now : Z) (w : string) (ql : Z) (c : Controller) :
  (forall info, PyDict.get w c = Some info ->
     fst (receive_heart_beat now w ql c) = Return true /\
     PyDict.get w (snd (receive_heart_beat now w ql c)) =
       Some (mkWorkerInfo (model_names info) (speed info) ql
               (check_heart_beat info) now (multimodal info)) /\
     PyDict.keys (snd (receive_heart_beat now w ql c)) = PyDict.keys c /\
     (forall w', w <> w' ->
        PyDict.get w' (snd (receive_heart_beat now w ql c)) = PyDict.get w' c)) /\
  (PyDict.get w c = None ->
     receive_heart_beat now w ql c = (Return false, c)).
Proof.
  unfold receive_heart_beat, bind, read_worker_info, write_worker_info, ret.
  split.
  - intros info Hget. rewrite Hget. simpl. repeat split.
    + apply get_set_same.
    + apply keys_set_present. apply contains_get. eauto.
    + intros w' Hne. now apply get_set_other.
  - intros Hget. now rewrite Hget.
Qed.

(** C10. When [register_worker] is called for an endpoint that is already
    registered, without a status (or with an empty one), and the direct
    status probe fails (or answers with an empty status), the call returns
    [False] and the registry after the call is the registry before it: the
    stored record is neither changed nor removed. *)
Theorem failed_reregistration_is_atomic
    probe (now : Z) (w : string) (chb mm : bool)
    (status : option status_dict) (c : Controller) :
  PyDict.contains w c = true ->
  status_truthy status = false ->
  status_truthy (get_worker_status_direct probe w) = false ->
  register_worker probe now w chb status mm c = (Return false, c).
Proof.
  intros Hin Hstatus Hprobe.
  assert (Hstore : store_registration probe now w chb status mm c = (Return false, c)).
  { unfold store_registration. rewrite Hstatus. cbn [negb].
    now rewrite Hprobe. }
  unfold register_worker, bind, read_worker_info.
  destruct (PyDict.is_empty c); [exact Hstore |].
  rewrite Hin. exact Hstore.
Qed.

(** *** The registry on concrete runs *)

Example registry_run_example :
  observations 90
    [Register (fun _ => RequestException "refused"%string) 100
       "http://w1:21002"%string true (full_status ["yeongjopt"%string] 1 0) false;
     Register (fun _ => RequestException "refused"%string) 101
       "http://w2:21002"%string true (full_status ["other"%string] 1 0) false;
     HeartBeat 150 "http://w1:21002"%string 4;
     Sweep 241]
    Controller_init =
  [ [];
    [("http://w1:21002"%string, mkWorkerInfo ["yeongjopt"%string] 1 0 true 100 false)];
    [("http://w1:21002"%string, mkWorkerInfo ["yeongjopt"%string] 1 0 true 100 false)];
    [("http://w1:21002"%string, mkWorkerInfo ["yeongjopt"%string] 1 4 true 150 false)];
    [] ].
Proof. reflexivity. Qed.

Lemma registry_holds_at_most_one_worker_witness :
  Forall (fun c => (length c <= 1)%nat)
    (observations 90
       [Register (fun _ => RequestException "refused"%string) 100
          "http://w1:21002"%string true (full_status ["yeongjopt"%string] 1 0) false;
        Register (fun _ => RequestException "refused"%string) 101
          "http://w2:21002"%string true (full_status ["other"%string] 1 0) false]
       Controller_init) /\
  register_worker (fun _ => RequestException "refused"%string) 101
    "http://w2:21002"%string true (full_status ["other"%string] 1 0) false
    [("http://w1:21002"%string, mkWorkerInfo ["yeongjopt"%string] 1 0 true 100 false)] =
  (Return false,
   [("http://w1:21002"%string, mkWorkerInfo ["yeongjopt"%string] 1 0 true 100 false)]).
Proof.
  destruct (registry_holds_at_most_one_worker 90
    [Register (fun _ => RequestException "refused"%string) 100
       "http://w1:21002"%string true (full_status ["yeongjopt"%string] 1 0) false;
     Register (fun _ => RequestException "refused"%string) 101
       "http://w2:21002"%string true (full_status ["other"%string] 1 0) false])
    as [Hinv Hreject].
  split; [exact Hinv |].
  apply Hreject.
  - simpl. right. left. reflexivity.
  - reflexivity.
  - reflexivity.
Defined.

Lemma register_conflict_and_reregistration_witness :
  (length Controller_init <= 1)%nat /\
  "http://w1:21002"%string <> "http://w2:21002"%string /\
  register_worker (fun _ => RequestException "refused"%string) 100
    "http://w1:21002"%string true (full_status ["yeongjopt"%string] 1 0) false
    Controller_init =
    (Return true,
     [("http://w1:21002"%string, mkWorkerInfo ["yeongjopt"%string] 1 0 true 100 false)]) /\
  register_worker (fun _ => RequestException "refused"%string) 110
    "http://w2:21002"%string true (full_status ["other"%string] 5 5) true
    [("http://w1:21002"%string, mkWorkerInfo ["yeongjopt"%string] 1 0 true 100 false)] =
    (Return false,
     [("http://w1:21002"%string, mkWorkerInfo ["yeongjopt"%string] 1 0 true 100 false)]) /\
  register_worker (fun _ => RequestException "refused"%string) 120
    "http://w1:21002"%string false (full_status ["yeongjopt-v2"%string] 2 3) true
    [("http://w1:21002"%string, mkWorkerInfo ["yeongjopt"%string] 1 0 true 100 false)] =
    (Return true,
     [("http://w1:21002"%string, mkWorkerInfo ["yeongjopt-v2"%string] 2 3 false 120 true)]).
Proof.
  assert (Hlen : (length Controller_init <= 1)%nat) by (simpl; lia).
  assert (Hne : "http://w1:21002"%string <> "http://w2:21002"%string)
    by discriminate.
  split; [exact Hlen |]. split; [exact Hne |].
  exact (register_conflict_and_reregistration
           (fun _ => RequestException "refused"%string)
           "http://w1:21002"%string "http://w2:21002"%string Controller_init
           100 true ["yeongjopt"%string] 1 0 false
           110 true (full_status ["other"%string] 5 5) true
           120 false ["yeongjopt-v2"%string] 2 3 true
           Hlen (or_introl eq_refl) Hne).
Defined.

Lemma sweep_removes_expired_only_witness :
  PyDict.contains "http://w1:21002"%string
    (snd (remove_stale_workers_by_expiration 90 200
            [("http://w1:21002"%string,
              mkWorkerInfo ["yeongjopt"%string] 1 0 true 100 false)])) = false /\
  PyDict.get "http://w1:21002"%string
    (snd (remove_stale_workers_by_expiration 90 200
            [("http://w1:21002"%string,
              mkWorkerInfo ["yeongjopt"%string] 1 0 false 100 false)])) =
  Some (mkWorkerInfo ["yeongjopt"%string] 1 0 false 100 false).
Proof.
  assert (ND : NoDup ["http://w1:21002"%string]).
  { constructor; [simpl; tauto | constructor]. }
  split.
  - destruct (sweep_removes_expired_only 90 200
                [("http://w1:21002"%string,
                  mkWorkerInfo ["yeongjopt"%string] 1 0 true 100 false)]
                "http://w1:21002"%string
                (mkWorkerInfo ["yeongjopt"%string] 1 0 true 100 false)
                ND eq_refl) as [_ [Hexpired _]].
    apply Hexpired; [reflexivity | simpl; lia].
  - destruct (sweep_removes_expired_only 90 200
                [("http://w1:21002"%string,
                  mkWorkerInfo ["yeongjopt"%string] 1 0 false 100 false)]
                "http://w1:21002"%string
                (mkWorkerInfo ["yeongjopt"%string] 1 0 false 100 false)
                ND eq_refl) as [_ [_ Hkept]].
    apply Hkept. reflexivity.
Defined.

Lemma get_worker_address_cases_witness :
  get_worker_address "yeongjopt"%string
    [("http://w1:21002"%string,
      mkWorkerInfo ["yeongjopt"%string] 1 0 true 100 false)] =
  "http://w1:21002"%string /\
  get_worker_address "gpt"%string
    [("http://w1:21002"%string,
      mkWorkerInfo ["yeongjopt"%string] 1 0 true 100 false)] = EmptyString.
Proof.
  split.
  - destruct (get_worker_address_cases "yeongjopt"%string "http://w1:21002"%string
                (mkWorkerInfo ["yeongjopt"%string] 1 0 true 100 false))
      as [_ [Hlisted _]].
    apply Hlisted. simpl. left. reflexivity.
  - destruct (get_worker_address_cases "gpt"%string "http://w1:21002"%string
                (mkWorkerInfo ["yeongjopt"%string] 1 0 true 100 false))
      as [_ [_ [Hunlisted _]]].
    apply Hunlisted. simpl. intros [H | []]. discriminate H.
Defined.

Lemma receive_heart_beat_cases_witness :
  PyDict.get "http://w1:21002"%string
    (snd (receive_heart_beat 150 "http://w1:21002"%string 4
            [("http://w1:21002"%string,
              mkWorkerInfo ["yeongjopt"%string] 1 0 true 100 false)])) =
  Some (mkWorkerInfo ["yeongjopt"%string] 1 4 true 150 false) /\
  receive_heart_beat 150 "http://w2:21002"%string 4
    [("http://w1:21002"%string,
      mkWorkerInfo ["yeongjopt"%string] 1 0 true 100 false)] =
  (Return false,
   [("http://w1:21002"%string,
     mkWorkerInfo ["yeongjopt"%string] 1 0 true 100 false)]).
Proof.
  split.
  - destruct (receive_heart_beat_cases 150 "http://w1:21002"%string 4
                [("http://w1:21002"%string,
                  mkWorkerInfo ["yeongjopt"%string] 1 0 true 100 false)])
      as [Hknown _].
    destruct (Hknown (mkWorkerInfo ["yeongjopt"%string] 1 0 true 100 false) eq_refl)
      as [_ [Hrecord _]].
    exact Hrecord.
  - destruct (receive_heart_beat_cases 150 "http://w2:21002"%string 4
                [("http://w1:21002"%string,
                  mkWorkerInfo ["yeongjopt"%string] 1 0 true 100 false)])
      as [_ Hunknown].
    apply Hunknown. reflexivity.
Defined.

Lemma failed_reregistration_is_atomic_witness :
  register_worker (fun _ => RequestException "timed out"%string) 120
    "http://w1:21002"%string true None false
    [("http://w1:21002"%string,
      mkWorkerInfo ["yeongjopt"%string] 1 0 true 100 false)] =
  (Return false,
   [("http://w1:21002"%string,
     mkWorkerInfo ["yeongjopt"%string] 1 0 true 100 false)]).
Proof.
  apply (failed_reregistration_is_atomic
           (fun _ => RequestException "timed out"%string) 120
           "http://w1:21002"%string true false None
           [("http://w1:21002"%string,
             mkWorkerInfo ["yeongjopt"%string] 1 0 true 100 false)]);
    reflexivity.
Defined.

(** ** The API gateway *)

Section GatewayFacts.

Variable INTERNAL_ERROR : Z.
Variable env : ApiServer.environment.

(** A chunk with a non-zero error code ends the loop exactly as the end of
    the stream does: nothing of it is sent. *)
Lemma generate_loop_error_break (model : string) (good : list chunk)
    (err : chunk) (rest : list chunk) (ending : gen_end) (k : nat) :
  opt_int_truthy (error_code err) = true ->
  ApiServer.generate_loop env model k (good ++ err :: rest) ending =
  ApiServer.generate_loop env model k good GenReturn.
Proof.
  intros Herr. revert k. induction good as [| g good IH]; intros k; simpl.
  - now rewrite Herr.
  - destruct (opt_int_truthy (error_code g)); [reflexivity |].
    destruct (opt_str_truthy (finish_reason g)); [reflexivity |].
    now rewrite IH.
Qed.

Lemma generate_error_break (model : string) (good : list chunk)
    (err : chunk) (rest : list chunk) (ending : gen_end) :
  opt_int_truthy (error_code err) = true ->
  ApiServer.generate env model (good ++ err :: rest, ending) =
  ApiServer.generate env model (good, GenReturn).
Proof.
  intros Herr. unfold ApiServer.generate. simpl.
  now rewrite generate_loop_error_break.
Qed.

(** The loop left by [break] or by exhaustion of a stream that does not
    raise always returns. *)
Lemma generate_loop_returns (model : string) (items : list chunk) (k : nat) :
  snd (ApiServer.generate_loop env model k items GenReturn) = GenReturn.
Proof.
  revert k. induction items as [| g items IH]; intros k; simpl.
  - reflexivity.
  - destruct (opt_int_truthy (error_code g)); [reflexivity |].
    destruct (opt_str_truthy (finish_reason g)); [reflexivity |].
    specialize (IH (S k)).
    destruct (ApiServer.generate_loop env model (S k) items GenReturn).
    exact IH.
Qed.

(** The non-streaming branch turns a reply with a non-zero error code into
    an [HTTPException] with status 500 that carries the worker's text. *)
Lemma completion_error_is_http_500 (model : string)
    (result : ApiServer.generate_result) :
  opt_int_truthy (ApiServer.r_error_code result) = true ->
  ApiServer.completion_of_result env model result =
  ([], ApiServer.HTTPException 500
         (get_default (ApiServer.r_text result) "Generation failed"%string)).
Proof.
  intros Herr. unfold ApiServer.completion_of_result. now rewrite Herr.
Qed.

(** C2 (as the code has it). For the worker chunks ["Hi"], ["Hi there"] and
    [error_code=0, finish_reason="stop"], whatever the clock, the model name
    and the way the connection ends afterwards, the generator yields, in
    order: the role announcement, three content events carrying "Hi",
    "Hi there" and the empty string (the [text] of each chunk as received,
    the empty string for the chunk without text; nothing is subtracted from
    it), the terminal event with an empty delta and finish reason "stop", and
    the [DONE] sentinel; then it returns. *)
Theorem hi_stream_events (model : string) (ending : stream_end) :
  ApiServer.generate env model
    (ApiServer.generate_stream INTERNAL_ERROR (mkStream hi_chunks ending)) =
  ([ApiServer.role_event (ApiServer.clock env 0) model;
    ApiServer.content_event (ApiServer.clock env 1) model "Hi";
    ApiServer.content_event (ApiServer.clock env 2) model "Hi there";
    ApiServer.content_event (ApiServer.clock env 3) model "";
    ApiServer.final_event (ApiServer.clock env 4) model;
    ApiServer.SseDone],
   GenReturn) /\
  map classify
    (fst (ApiServer.generate env model
            (ApiServer.generate_stream INTERNAL_ERROR (mkStream hi_chunks ending)))) =
  [RoleAnnouncement "assistant"; ContentDelta "Hi"; ContentDelta "Hi there";
   ContentDelta ""; Terminal "stop"; DoneSentinel].
Proof.
  destruct ending; split; reflexivity.
Qed.

End GatewayFacts.

(** C2 (as the claim has it) fails: on the three chunks the deltas sent are
    "Hi", "Hi there" and "", not "Hi" and " there", and the events are not
    the five of the claim. *)
Lemma hi_stream_deltas_are_not_differences :
  deltas (fst (ApiServer.generate keyed_env "yeongjopt"
                 (ApiServer.generate_stream 50001 (mkStream hi_chunks StreamClosed)))) =
  ["Hi"%string; "Hi there"%string; ""%string] /\
  map classify
    (fst (ApiServer.generate keyed_env "yeongjopt"
            (ApiServer.generate_stream 50001 (mkStream hi_chunks StreamClosed)))) <>
  [RoleAnnouncement "assistant"; ContentDelta "Hi"; ContentDelta " there";
   Terminal "stop"; DoneSentinel].
Proof.
  split; [reflexivity | discriminate].
Qed.

(** C6 (the streaming framing at a failing input). A worker stream whose
    only chunk has error code 50002 and the text "CUDA out of memory" is
    answered with the role announcement, the terminal event with finish
    reason "stop" and the [DONE] sentinel: the very events of a stream that
    ends without any chunk.  No event carries the worker's text, and none
    tells the failure from a normal end. *)
Theorem stream_error_text_is_dropped :
  ApiServer.generate keyed_env "yeongjopt"
    (ApiServer.generate_stream 50001
       (mkStream [mkChunk (Some "CUDA out of memory"%string) (Some 50002) None]
          StreamClosed)) =
  ([ApiServer.role_event 0 "yeongjopt";
    ApiServer.final_event 0 "yeongjopt";
    ApiServer.SseDone], GenReturn) /\
  ApiServer.generate keyed_env "yeongjopt"
    (ApiServer.generate_stream 50001
       (mkStream [mkChunk (Some "CUDA out of memory"%string) (Some 50002) None]
          StreamClosed)) =
  ApiServer.generate keyed_env "yeongjopt"
    (ApiServer.generate_stream 50001 (mkStream [] StreamClosed)) /\
  deltas (fst (ApiServer.generate keyed_env "yeongjopt"
                 (ApiServer.generate_stream 50001
                    (mkStream [mkChunk (Some "CUDA out of memory"%string)
                                 (Some 50002) None] StreamClosed)))) = [].
Proof.
  repeat split; reflexivity.
Qed.

(** *** The key check *)

Lemma verify_api_key_rejects (env : ApiServer.environment)
    (key : string) (credentials : option string) :
  ApiServer.api_key env = Some key ->
  key <> EmptyString ->
  credentials = None \/ (exists token, credentials = Some token /\ token <> key) ->
  ApiServer.verify_api_key env credentials =
  ApiServer.HTTPException 401 "Invalid API key".
Proof.
  intros Hkey Hne Hcred. unfold ApiServer.verify_api_key. rewrite Hkey.
  destruct key as [| a key']; [contradiction |]. cbn [str_truthy andb].
  destruct Hcred as [-> | [token [-> Hdiff]]]; [reflexivity |].
  destruct (String.eqb token (String a key')) eqn:E; [| reflexivity].
  apply String.eqb_eq in E. contradiction.
Qed.

(** C9 (as the code has it). With a non-empty key configured, a request for
    the model list or for a chat completion whose bearer token is missing or
    differs from the key ends in [HTTPException] 401 and no backend call has
    been made; the health probe is not behind the check: it answers without
    any backend call whatever the credentials; with no key configured, or an
    empty one, the check returns [True] for all credentials. *)
Theorem api_key_check (INTERNAL_ERROR : Z) (env : ApiServer.environment)
    (credentials : option string) :
  (forall key,
     ApiServer.api_key env = Some key ->
     key <> EmptyString ->
     credentials = None \/ (exists token, credentials = Some token /\ token <> key) ->
     ApiServer.app INTERNAL_ERROR env (ApiServer.GetModels credentials) =
       ([], ApiServer.HTTPException 401 "Invalid API key") /\
     forall request,
       ApiServer.app INTERNAL_ERROR env
         (ApiServer.PostChatCompletions credentials request) =
       ([], ApiServer.HTTPException 401 "Invalid API key")) /\
  ApiServer.app INTERNAL_ERROR env (ApiServer.GetHealth credentials) =
    ([], ApiServer.Ok (ApiServer.JsonHealth (ApiServer.clock env 0))) /\
  (ApiServer.api_key env = None \/ ApiServer.api_key env = Some EmptyString ->
   ApiServer.verify_api_key env credentials = ApiServer.Ok true).
Proof.
  split; [| split].
  - intros key Hkey Hne Hcred.
    pose proof (verify_api_key_rejects env key credentials Hkey Hne Hcred) as Hrej.
    split; [| intros request]; simpl; unfold ApiServer.with_api_key;
      now rewrite Hrej.
  - reflexivity.
  - intros [Hnone | Hempty]; unfold ApiServer.verify_api_key.
    + now rewrite Hnone.
    + now rewrite Hempty.
Qed.

Lemma api_key_check_witness :
  ApiServer.app 50001 keyed_env (ApiServer.GetModels (Some "guess"%string)) =
    ([], ApiServer.HTTPException 401 "Invalid API key") /\
  ApiServer.app 50001 keyed_env
    (ApiServer.PostChatCompletions None
       (ApiServer.mkRequest "yeongjopt" (ApiServer.MessagesStr "hello") None false)) =
    ([], ApiServer.HTTPException 401 "Invalid API key").
Proof.
  destruct (api_key_check 50001 keyed_env (Some "guess"%string)) as [Hbad _].
  destruct (api_key_check 50001 keyed_env None) as [Hnone _].
  split.
  - apply (Hbad "secret"%string); [reflexivity | discriminate |].
    right. exists "guess"%string. split; [reflexivity | discriminate].
  - apply (Hnone "secret"%string); [reflexivity | discriminate | now left].
Defined.

(** C9 (as the claim has it) fails: with the key "secret" configured, a
    health request without credentials is answered, not rejected with 401. *)
Lemma health_request_is_not_rejected :
  ApiServer.api_key keyed_env = Some "secret"%string /\
  ApiServer.app 50001 keyed_env (ApiServer.GetHealth None) =
    ([], ApiServer.Ok (ApiServer.JsonHealth 0)) /\
  snd (ApiServer.app 50001 keyed_env (ApiServer.GetHealth None)) <>
    ApiServer.HTTPException 401 "Invalid API key".
Proof.
  repeat split. discriminate.
Qed.

(** ** The chat front end *)

Lemma set_last_snoc (message : string) (init : list (string * option string))
    (role : string) (old : option string) :
  WebServer.set_last message (init ++ [(role, old)]) =
  Some (init ++ [(role, Some message)]).
Proof.
  induction init as [| [r0 o0] init IH]; simpl; [reflexivity |].
  destruct (init ++ [(role, old)]) as [| p l] eqn:E.
  - destruct init; discriminate.
  - rewrite IH. reflexivity.
Qed.

Lemma nonempty_snoc {A : Type} (l : list A) :
  l <> [] -> exists init x, l = init ++ [x].
Proof.
  intros Hne. destruct (exists_last Hne) as [init [x Heq]]. eauto.
Qed.

Section SessionFacts.

Implicit Types (s : WebServer.State) (m : string).

Lemma written_snoc m s init role old :
  WebServer.messages (WebServer.conv s) = init ++ [(role, old)] ->
  written m s =
  WebServer.mkState
    (WebServer.mkConv (WebServer.roles (WebServer.conv s))
       (init ++ [(role, Some m)]))
    (WebServer.conv_id s) (WebServer.skip_next s) (WebServer.model_name s).
Proof.
  intros Hms. unfold written, WebServer.update_last_message.
  now rewrite Hms, set_last_snoc.
Qed.

Lemma write_last_ok m s :
  WebServer.messages (WebServer.conv s) <> [] ->
  WebServer.write_last m s = ([WebServer.Wrote m], Return tt, written m s).
Proof.
  intros Hne. destruct (nonempty_snoc _ Hne) as [init [[role old] Hms]].
  unfold WebServer.write_last, written, WebServer.update_last_message.
  now rewrite Hms, set_last_snoc.
Qed.

Lemma written_nonempty m s :
  WebServer.messages (WebServer.conv s) <> [] ->
  WebServer.messages (WebServer.conv (written m s)) <> [].
Proof.
  intros Hne. destruct (nonempty_snoc _ Hne) as [init [[role old] Hms]].
  rewrite (written_snoc m s init role old Hms). simpl.
  destruct init; discriminate.
Qed.

Lemma written_twice m1 m2 s :
  WebServer.messages (WebServer.conv s) <> [] ->
  written m2 (written m1 s) = written m2 s.
Proof.
  intros Hne. destruct (nonempty_snoc _ Hne) as [init [[role old] Hms]].
  rewrite (written_snoc m1 s init role old Hms).
  rewrite (written_snoc m2 s init role old Hms).
  now rewrite (written_snoc m2 _ init role (Some m1)).
Qed.

Lemma written_last_message m s :
  WebServer.messages (WebServer.conv s) <> [] ->
  WebServer.last_message (WebServer.conv (written m s)) = Some m.
Proof.
  intros Hne. destruct (nonempty_snoc _ Hne) as [init [[role old] Hms]].
  rewrite (written_snoc m s init role old Hms).
  unfold WebServer.last_message. simpl. now rewrite rev_unit.
Qed.

Lemma written_skip_next m s :
  WebServer.skip_next (written m s) = WebServer.skip_next s.
Proof.
  unfold written. now destruct (WebServer.update_last_message m (WebServer.conv s)).
Qed.

Lemma written_model_name m s :
  WebServer.model_name (written m s) = WebServer.model_name s.
Proof.
  unfold written. now destruct (WebServer.update_last_message m (WebServer.conv s)).
Qed.

Lemma progress_written chunks acc m s :
  WebServer.messages (WebServer.conv s) <> [] ->
  progress chunks acc (written m s) = progress chunks acc s.
Proof.
  intros Hne. revert acc. induction chunks as [| c rest IH]; intros acc; simpl.
  - reflexivity.
  - now rewrite written_twice, IH.
Qed.

Lemma progress_no_final_yield chunks acc s :
  filter is_final_yield (progress chunks acc s) = [].
Proof.
  revert acc. induction chunks as [| c rest IH]; intros acc; simpl.
  - reflexivity.
  - apply IH.
Qed.

End SessionFacts.

Lemma error_test_is_truthiness (code : option Z) :
  negb (get_default code 0 =? 0) = opt_int_truthy code.
Proof. destruct code; reflexivity. Qed.

Section FrontEndFacts.

Variable SERVER_ERROR_MSG : string.
Variable CONNECTION_ERROR : Z.
Variable INTERNAL_ERROR : Z.

(** The loop over a run of successful chunks followed by a failing one: the
    in-progress updates, then one write of the error text and the final
    yield; the function returns from inside the loop. *)
Lemma stream_loop_failure (good : list chunk) (err : chunk) (rest : list chunk)
    (acc : string) (s : WebServer.State) :
  WebServer.messages (WebServer.conv s) <> [] ->
  Forall chunk_ok good ->
  opt_int_truthy (error_code err) = true ->
  WebServer.stream_loop SERVER_ERROR_MSG (good ++ err :: rest) acc s =
  (progress good acc s ++
     [WebServer.Wrote (get_default (text err) SERVER_ERROR_MSG);
      WebServer.Yielded (written (get_default (text err) SERVER_ERROR_MSG) s) true],
   Return None,
   written (get_default (text err) SERVER_ERROR_MSG) s).
Proof.
  intros Hne Hgood Herr. revert acc s Hne.
  induction Hgood as [| g good Hg Hgood IH]; intros acc s Hne; simpl.
  - rewrite error_test_is_truthiness, Herr.
    unfold WebServer.gbind. rewrite write_last_ok by exact Hne. reflexivity.
  - rewrite error_test_is_truthiness. unfold chunk_ok in Hg. rewrite Hg.
    unfold WebServer.gbind at 1. rewrite write_last_ok by exact Hne.
    unfold WebServer.gbind at 1. unfold WebServer.yield at 1.
    rewrite IH by (now apply written_nonempty).
    rewrite progress_written by exact Hne.
    rewrite written_twice by exact Hne. reflexivity.
Qed.

(** What the worker stream iterator yields for a stream that fails after
    [good]: the chunks [good], then a chunk with a non-zero error code whose
    text (or [SERVER_ERROR_MSG] in its place) is the error text. *)
Lemma failing_stream_items (good : list chunk) (source : worker_stream)
    (error_text : string) :
  CONNECTION_ERROR <> 0 ->
  stream_failure SERVER_ERROR_MSG good source error_text ->
  exists err rest,
    WebServer.model_worker_stream_iter_fn SERVER_ERROR_MSG CONNECTION_ERROR
      INTERNAL_ERROR source = good ++ err :: rest /\
    opt_int_truthy (error_code err) = true /\
    get_default (text err) SERVER_ERROR_MSG = error_text.
Proof.
  intros Hcode Hfail. destruct Hfail as [e | c rest ending Hc].
  - eexists. exists []. unfold WebServer.model_worker_stream_iter_fn. simpl.
    split; [reflexivity |]. split; [| reflexivity].
    simpl. now apply negb_true_iff, Z.eqb_neq.
  - unfold WebServer.model_worker_stream_iter_fn. simpl.
    destruct ending.
    + exists c, rest. auto.
    + eexists c, _. rewrite <- app_assoc. simpl. auto.
    + eexists c, _. rewrite <- app_assoc. simpl. auto.
Qed.

End FrontEndFacts.

(** ** A worker stream that fails midway, in both framings *)

Section MidStreamFailure.

Variable SERVER_ERROR_MSG : string.
Variable CONNECTION_ERROR : Z.
Variable INTERNAL_ERROR : Z.
Variable wenv : WebServer.environment.
Variable genv : ApiServer.environment.

(** The chat framing on a failing stream, for a session that is ready for a
    response and a worker that the controller resolves. *)
Lemma bot_response_on_failure (s0 : WebServer.State) (addr : string)
    (good : list chunk) (source : worker_stream) (error_text : string) :
  CONNECTION_ERROR <> 0 ->
  Forall chunk_ok good ->
  stream_failure SERVER_ERROR_MSG good source error_text ->
  WebServer.skip_next s0 = false ->
  WebServer.messages (WebServer.conv s0) <> [] ->
  opt_str_truthy (WebServer.controller_url wenv) = true ->
  WebServer.post_get_worker_address wenv
    (get_default (WebServer.controller_url wenv) EmptyString
     ++ "/get_worker_address")%string
    (WebServer.model_name s0) = HttpOk (Some addr) ->
  str_truthy addr = true ->
  WebServer.post_worker_generate_stream wenv
    (addr ++ "/worker_generate_stream")%string
    (written WebServer.cursor s0) = source ->
  WebServer.bot_response_fn SERVER_ERROR_MSG CONNECTION_ERROR INTERNAL_ERROR
    wenv s0 =
  ([WebServer.Wrote WebServer.cursor;
    WebServer.Yielded (written WebServer.cursor s0) false]
     ++ progress good EmptyString s0
     ++ [WebServer.Wrote error_text;
         WebServer.Yielded (written error_text s0) true],
   Return tt,
   written error_text s0).
Proof.
  intros Hcode Hgood Hfail Hskip Hne Hurl Hpost Haddr Hsource.
  destruct (failing_stream_items SERVER_ERROR_MSG CONNECTION_ERROR
              INTERNAL_ERROR good source error_text Hcode Hfail)
    as [err [rest [Hitems [Herr Htext]]]].
  unfold WebServer.bot_response_fn.
  unfold WebServer.gbind at 1. unfold WebServer.get_state at 1.
  rewrite Hskip, Hurl. cbn [negb]. rewrite Hpost. cbn [get_default].
  rewrite Haddr. cbn [negb].
  unfold WebServer.gbind at 1. rewrite write_last_ok by exact Hne.
  unfold WebServer.gbind at 1. unfold WebServer.yield at 1.
  unfold WebServer.gbind at 1. unfold WebServer.get_state at 1.
  rewrite Hsource, Hitems.
  unfold WebServer.gbind at 1.
  rewrite (stream_loop_failure SERVER_ERROR_MSG good err rest EmptyString
             (written WebServer.cursor s0) (written_nonempty _ _ Hne) Hgood Herr).
  rewrite Htext.
  rewrite progress_written by exact Hne.
  rewrite written_twice by exact Hne.
  unfold WebServer.gret. simpl. rewrite app_nil_r. reflexivity.
Qed.

(** The gateway framing on a failing stream. *)
Lemma generate_on_failure (model : string) (good : list chunk)
    (source : worker_stream) (error_text : string) :
  INTERNAL_ERROR <> 0 ->
  stream_failure SERVER_ERROR_MSG good source error_text ->
  ApiServer.generate genv model (ApiServer.generate_stream INTERNAL_ERROR source) =
  ApiServer.generate genv model (good, GenReturn).
Proof.
  intros Hcode Hfail. destruct Hfail as [e | c rest ending Hc].
  - unfold ApiServer.generate_stream. simpl.
    apply generate_error_break. simpl. now apply negb_true_iff, Z.eqb_neq.
  - unfold ApiServer.generate_stream. simpl. destruct ending.
    + now apply generate_error_break.
    + rewrite <- app_assoc. simpl. now apply generate_error_break.
    + now apply generate_error_break.
Qed.

(** What the loop of the gateway sends, read by kind: content deltas
    carrying the texts of a prefix of the chunks, in their order. *)
Lemma generate_loop_sends_deltas (model : string) (items : list chunk)
    (ending : gen_end) (k : nat) :
  exists n,
    (n <= length items)%nat /\
    map classify (fst (ApiServer.generate_loop genv model k items ending)) =
    map ContentDelta (map chunk_text (firstn n items)).
Proof.
  revert k. induction items as [| c items IH]; intros k; simpl.
  - exists 0%nat. split; [lia | reflexivity].
  - destruct (opt_int_truthy (error_code c)).
    + exists 0%nat. split; [lia | reflexivity].
    + destruct (opt_str_truthy (finish_reason c)).
      * exists 1%nat. split; [lia | reflexivity].
      * destruct (IH (S k)) as [n [Hle Hmap]].
        destruct (ApiServer.generate_loop genv model (S k) items ending)
          as [evs r]. simpl in *.
        exists (S n). split; [lia |]. simpl. now rewrite Hmap.
Qed.

(** C3. Let the worker stream fail after the successful chunks [good], at
    least one: the transport breaks, or a chunk with a non-zero error code
    arrives.  In the chat framing (session ready, worker resolved) the run
    consists of the placeholder, one in-progress update per successful chunk,
    and then a single write of the error text followed by the final yield;
    the last message of the final state is the error text (not the partial
    text with the marker), and the final yield is the only one of the run.
    In the gateway framing the events are the role announcement and the
    content events already sent for [good] (the first of them carries the
    text of the first chunk), followed by the terminal event with finish
    reason "stop" and the [DONE] sentinel, and the generator returns.  Read
    by their fields, these events are: a role announcement for "assistant",
    content deltas carrying the texts of the first chunk and of a prefix of
    the chunks after it, one terminal event whose delta is empty and whose
    finish reason is "stop", and the sentinel as the last event. *)
Theorem mid_stream_failure_in_both_framings
    (s0 : WebServer.State) (addr model : string)
    (first : chunk) (others : list chunk)
    (source : worker_stream) (error_text : string) :
  CONNECTION_ERROR <> 0 ->
  INTERNAL_ERROR <> 0 ->
  Forall chunk_ok (first :: others) ->
  stream_failure SERVER_ERROR_MSG (first :: others) source error_text ->
  WebServer.skip_next s0 = false ->
  WebServer.messages (WebServer.conv s0) <> [] ->
  opt_str_truthy (WebServer.controller_url wenv) = true ->
  WebServer.post_get_worker_address wenv
    (get_default (WebServer.controller_url wenv) EmptyString
     ++ "/get_worker_address")%string
    (WebServer.model_name s0) = HttpOk (Some addr) ->
  str_truthy addr = true ->
  WebServer.post_worker_generate_stream wenv
    (addr ++ "/worker_generate_stream")%string
    (written WebServer.cursor s0) = source ->
  (WebServer.bot_response_fn SERVER_ERROR_MSG CONNECTION_ERROR INTERNAL_ERROR
     wenv s0 =
   ([WebServer.Wrote WebServer.cursor;
     WebServer.Yielded (written WebServer.cursor s0) false]
      ++ progress (first :: others) EmptyString s0
      ++ [WebServer.Wrote error_text;
          WebServer.Yielded (written error_text s0) true],
    Return tt,
    written error_text s0) /\
   WebServer.last_message (WebServer.conv (written error_text s0)) =
     Some error_text /\
   filter is_final_yield
     (fst (fst (WebServer.bot_response_fn SERVER_ERROR_MSG CONNECTION_ERROR
                  INTERNAL_ERROR wenv s0))) =
     [WebServer.Yielded (written error_text s0) true]) /\
  (exists sent,
     ApiServer.generate_loop genv model 1 (first :: others) GenReturn =
       (ApiServer.content_event (ApiServer.clock genv 1) model
          (get_default (text first) EmptyString) :: sent, GenReturn) /\
     ApiServer.generate genv model
       (ApiServer.generate_stream INTERNAL_ERROR source) =
     (ApiServer.role_event (ApiServer.clock genv 0) model
        :: (ApiServer.content_event (ApiServer.clock genv 1) model
              (get_default (text first) EmptyString) :: sent)
        ++ [ApiServer.final_event (ApiServer.clock genv (S (S (length sent)))) model;
            ApiServer.SseDone],
      GenReturn) /\
     map classify
       (fst (ApiServer.generate genv model
               (ApiServer.generate_stream INTERNAL_ERROR source))) =
     RoleAnnouncement "assistant"
       :: ContentDelta (chunk_text first)
       :: map classify sent ++ [Terminal "stop"; DoneSentinel] /\
     exists n,
       (n <= length others)%nat /\
       map classify sent = map ContentDelta (map chunk_text (firstn n others))).
Proof.
  intros Hce Hie Hgood Hfail Hskip Hne Hurl Hpost Haddr Hsource.
  pose proof (bot_response_on_failure s0 addr (first :: others) source
                error_text Hce Hgood Hfail Hskip Hne Hurl Hpost Haddr Hsource)
    as Hrun.
  split; [split; [exact Hrun | split] |].
  - now apply written_last_message.
  - rewrite Hrun. cbn [fst].
    rewrite filter_app. cbn [filter is_final_yield app].
    rewrite filter_app, progress_no_final_yield. reflexivity.
  - rewrite (generate_on_failure model (first :: others) source error_text Hie Hfail).
    unfold ApiServer.generate. cbn [fst snd].
    pose proof (generate_loop_returns genv model (first :: others) 1) as Hret.
    inversion Hgood as [| ? ? Hfirst Hothers]; subst. unfold chunk_ok in Hfirst.
    simpl in Hret |- *. rewrite Hfirst in Hret |- *.
    destruct (opt_str_truthy (finish_reason first)).
    + exists []. split; [reflexivity |]. split; [reflexivity |].
      split; [reflexivity |]. exists 0%nat. split; [lia | reflexivity].
    + destruct (generate_loop_sends_deltas model others GenReturn 2)
        as [n [Hle Hmap]].
      destruct (ApiServer.generate_loop genv model 2 others GenReturn)
        as [sent ending] eqn:Hloop.
      simpl in Hret, Hmap. subst ending. exists sent.
      split; [reflexivity |]. split; [reflexivity |]. split.
      * cbn [fst map]. rewrite map_app. reflexivity.
      * exists n. split; [exact Hle | exact Hmap].
Qed.

End MidStreamFailure.

Example broken_stream_chat_run :
  WebServer.bot_response_fn "NETWORK ERROR" 50003 50001 broken_env pending_session =
  ([WebServer.Wrote WebServer.cursor;
    WebServer.Yielded (written WebServer.cursor pending_session) false;
    WebServer.Wrote ("Hi" ++ WebServer.cursor)%string;
    WebServer.Yielded (written ("Hi" ++ WebServer.cursor)%string pending_session) false;
    WebServer.Wrote
      ("NETWORK ERROR" ++ nl ++ "(Worker Connection Error: Connection reset)")%string;
    WebServer.Yielded
      (written
         ("NETWORK ERROR" ++ nl ++ "(Worker Connection Error: Connection reset)")%string
         pending_session) true],
   Return tt,
   written
     ("NETWORK ERROR" ++ nl ++ "(Worker Connection Error: Connection reset)")%string
     pending_session).
Proof. reflexivity. Qed.

Lemma mid_stream_failure_in_both_framings_witness :
  WebServer.last_message
    (WebServer.conv
       (snd (WebServer.bot_response_fn "NETWORK ERROR" 50003 50001
               broken_env pending_session))) =
  Some ("NETWORK ERROR" ++ nl ++ "(Worker Connection Error: Connection reset)")%string /\
  ApiServer.generate keyed_env "yeongjopt"
    (ApiServer.generate_stream 50001 broken_stream) =
  ([ApiServer.role_event 0 "yeongjopt";
    ApiServer.content_event 0 "yeongjopt" "Hi";
    ApiServer.final_event 0 "yeongjopt";
    ApiServer.SseDone], GenReturn) /\
  map classify
    (fst (ApiServer.generate keyed_env "yeongjopt"
            (ApiServer.generate_stream 50001 broken_stream))) =
  [RoleAnnouncement "assistant"; ContentDelta "Hi"; Terminal "stop"; DoneSentinel].
Proof.
  assert (Hce : 50003 <> 0) by lia.
  assert (Hie : 50001 <> 0) by lia.
  assert (Hgood : Forall chunk_ok [mkChunk (Some "Hi"%string) (Some 0) None]).
  { constructor; [reflexivity | constructor]. }
  assert (Hne : WebServer.messages (WebServer.conv pending_session) <> [])
    by discriminate.
  destruct (mid_stream_failure_in_both_framings "NETWORK ERROR" 50003 50001
              broken_env keyed_env pending_session
              "http://localhost:21002" "yeongjopt"
              (mkChunk (Some "Hi"%string) (Some 0) None) []
              broken_stream
              ("NETWORK ERROR" ++ nl ++ "(Worker Connection Error: Connection reset)")%string
              Hce Hie Hgood
              (transport_break "NETWORK ERROR"
                 [mkChunk (Some "Hi"%string) (Some 0) None] "Connection reset")
              eq_refl Hne eq_refl eq_refl eq_refl eq_refl)
    as [[Hrun [Hlast _]] [sent [Hloop [Hevents [Hkinds _]]]]].
  split; [| split].
  - rewrite Hrun. exact Hlast.
  - injection Hloop as Hsent. subst sent. exact Hevents.
  - injection Hloop as Hsent. subst sent. exact Hkinds.
Defined.

(** ** The definitions on further concrete inputs *)

Example complete_stream_chat_run :
  WebServer.bot_response_fn "NETWORK ERROR" 50003 50001
    (WebServer.mkEnv (Some "http://localhost:21001"%string)
       (fun _ _ => HttpOk (Some "http://localhost:21002"%string))
       (fun _ _ => mkStream [mkChunk (Some "Hi"%string) (Some 0) None;
                             mkChunk (Some " there"%string) (Some 0) (Some "stop"%string)]
                     StreamClosed))
    pending_session =
  ([WebServer.Wrote WebServer.cursor;
    WebServer.Yielded (written WebServer.cursor pending_session) false;
    WebServer.Wrote ("Hi" ++ WebServer.cursor)%string;
    WebServer.Yielded (written ("Hi" ++ WebServer.cursor)%string pending_session) false;
    WebServer.Wrote ("Hi there" ++ WebServer.cursor)%string;
    WebServer.Yielded (written ("Hi there" ++ WebServer.cursor)%string pending_session) false;
    WebServer.Wrote "Hi there";
    WebServer.Yielded (written "Hi there" pending_session) true],
   Return tt,
   written "Hi there" pending_session).
Proof. reflexivity. Qed.

Example no_worker_chat_run :
  WebServer.bot_response_fn "NETWORK ERROR" 50003 50001
    (WebServer.mkEnv (Some "http://localhost:21001"%string)
       (fun _ _ => HttpOk (Some ""%string))
       (fun _ _ => mkStream [] StreamClosed))
    pending_session =
  ([WebServer.Wrote "NETWORK ERROR (No worker for yeongjopt)";
    WebServer.Yielded
      (written "NETWORK ERROR (No worker for yeongjopt)" pending_session) true],
   Return tt,
   written "NETWORK ERROR (No worker for yeongjopt)" pending_session).
Proof. reflexivity. Qed.

Example chat_completion_without_worker :
  ApiServer.app 50001 keyed_env
    (ApiServer.PostChatCompletions (Some "secret"%string)
       (ApiServer.mkRequest "yeongjopt" (ApiServer.MessagesStr "hello") None true)) =
  ([ApiServer.Post "http://localhost:21001/get_worker_address"],
   ApiServer.HTTPException 503 "Service temporarily unavailable").
Proof. reflexivity. Qed.

Example prompt_of_messages :
  ApiServer.build_prompt
    (ApiServer.MessagesList
       [ApiServer.mkMessage (Some "system"%string) (Some "Be brief."%string);
        ApiServer.mkMessage None (Some "hello"%string);
        ApiServer.mkMessage (Some "tool"%string) (Some "ignored"%string)]) =
  ("System: Be brief." ++ nl ++ "User: hello" ++ nl ++ "Assistant:")%string.
Proof. reflexivity. Qed.

Example sse_lines_of_hi_stream :
  map (ApiServer.sse_line (fun c => ApiServer.sr_id c))
    (fst (ApiServer.generate keyed_env "yeongjopt" (hi_chunks, GenReturn))) =
  [("data: chatcmpl-0" ++ nl ++ nl)%string;
   ("data: chatcmpl-0" ++ nl ++ nl)%string;
   ("data: chatcmpl-0" ++ nl ++ nl)%string;
   ("data: chatcmpl-0" ++ nl ++ nl)%string;
   ("data: chatcmpl-0" ++ nl ++ nl)%string;
   ("data: [DONE]" ++ nl ++ nl)%string].
Proof. reflexivity. Qed.

Example keyless_registration_raises :
  register_worker (fun _ => RequestException "refused"%string) 100
    "http://w1:21002"%string true
    (Some (mkStatus (Some ["yeongjopt"%string]) None (Some 0))) false
    Controller_init =
  (Raise (KeyError "speed"), Controller_init).
Proof. reflexivity. Qed.

(** * Further properties of the code *)

(** ** The registry, operation by operation *)

Section MoreDictFacts.

Context {V : Type}.

Implicit Types (d : PyDict.dict V) (k : string) (v : V).

Lemma In_del_incl k (kv : string * V) d : In kv (PyDict.del k d) -> In kv d.
Proof.
  induction d as [| [k0 v0] rest IH]; simpl; [tauto |].
  destruct (String.eqb k0 k); simpl; [tauto |].
  intros [H | H]; [now left | right; now apply IH].
Qed.

Lemma In_del_all_incl ks (kv : string * V) d : In kv (del_all ks d) -> In kv d.
Proof.
  revert d. induction ks as [| k ks IH]; intros d; simpl; [tauto |].
  intros H. apply IH in H. eapply In_del_incl. exact H.
Qed.

Lemma NoDup_keys_del_all ks d :
  NoDup (PyDict.keys d) -> NoDup (PyDict.keys (del_all ks d)).
Proof.
  revert d. induction ks as [| k ks IH]; intros d ND; simpl; [exact ND |].
  apply IH. now apply NoDup_keys_del.
Qed.

Lemma NoDup_keys_set k v d :
  NoDup (PyDict.keys d) -> PyDict.contains k d = true ->
  NoDup (PyDict.keys (PyDict.set k v d)).
Proof.
  intros ND Hin. now rewrite keys_set_present.
Qed.

Lemma filter_none {A : Type} (f : A -> bool) (l : list A) :
  (forall x, In x l -> f x = false) -> filter f l = [].
Proof.
  induction l as [| a l IH]; simpl; intros H; [reflexivity |].
  rewrite (H a) by now left. apply IH. intros x Hx. apply H. now right.
Qed.

End MoreDictFacts.

(** X1. [remove_worker] returns normally; on a registry with unique keys
    the removed endpoint is absent afterwards and every other record is as
    before; a second removal, like the removal of an endpoint that is not
    registered, changes nothing. *)
Theorem remove_worker_is_idempotent (w : string) (c : Controller) :
  NoDup (PyDict.keys c) ->
  fst (remove_worker w c) = Return tt /\
  PyDict.contains w (snd (remove_worker w c)) = false /\
  (forall w', w <> w' ->
     PyDict.get w' (snd (remove_worker w c)) = PyDict.get w' c) /\
  remove_worker w (snd (remove_worker w c)) =
    (Return tt, snd (remove_worker w c)) /\
  (PyDict.contains w c = false -> remove_worker w c = (Return tt, c)).
Proof.
  intros ND. rewrite !remove_worker_eq. cbn [fst snd].
  assert (Hgone : PyDict.get w (PyDict.del w c) = None) by now apply get_del_same.
  repeat split.
  - now apply not_contains_get.
  - intros w' Hne. now apply get_del_other.
  - now rewrite (del_absent w (PyDict.del w c)).
  - intros Habsent. apply not_contains_get in Habsent. now rewrite del_absent.
Qed.

Lemma remove_worker_is_idempotent_witness :
  remove_worker "http://w1:21002"%string
    [("http://w1:21002"%string, mkWorkerInfo ["yeongjopt"%string] 1 0 true 100 false)] =
  (Return tt, []) /\
  remove_worker "http://w1:21002"%string [] = (Return tt, []).
Proof.
  assert (ND : NoDup (PyDict.keys (V := WorkerInfo) [])) by constructor.
  destruct (remove_worker_is_idempotent "http://w1:21002"%string [] ND)
    as [_ [_ [_ [_ Habsent]]]].
  split; [reflexivity | apply Habsent; reflexivity].
Defined.

(** X2. [refresh_all_workers] probes the first registered worker only.  When
    the probe fails (or answers with an empty status) that worker's record
    is removed at once and the other records are kept; when the probe
    answers, the registry is unchanged; on the empty registry nothing
    happens.  The call always returns normally. *)
Theorem refresh_removes_unreachable_worker
    (probe : string -> http_result status_dict)
    (w : string) (info : WorkerInfo) (rest : Controller) :
  (status_truthy (get_worker_status_direct probe w) = false ->
   refresh_all_workers probe ((w, info) :: rest) = (Return tt, rest)) /\
  (status_truthy (get_worker_status_direct probe w) = true ->
   refresh_all_workers probe ((w, info) :: rest) = (Return tt, (w, info) :: rest)) /\
  refresh_all_workers probe Controller_init = (Return tt, Controller_init).
Proof.
  unfold refresh_all_workers, bind, read_worker_info, ret. simpl.
  repeat split.
  - intros Hprobe. rewrite Hprobe. cbn [negb]. rewrite remove_worker_eq.
    simpl. now rewrite String.eqb_refl.
  - intros Hprobe. now rewrite Hprobe.
Qed.

Lemma refresh_removes_unreachable_worker_witness :
  refresh_all_workers (fun _ => RequestException "timed out"%string)
    [("http://w1:21002"%string, mkWorkerInfo ["yeongjopt"%string] 1 0 false 100 false)] =
  (Return tt, []).
Proof.
  destruct (refresh_removes_unreachable_worker
              (fun _ => RequestException "timed out"%string)
              "http://w1:21002"%string
              (mkWorkerInfo ["yeongjopt"%string] 1 0 false 100 false) [])
    as [Hfail _].
  apply Hfail. reflexivity.
Defined.

(** X3. On every registry, [get_worker_address] and [list_models] agree: the
    address returned for a model is the first registered endpoint when the
    model is among the listed models and the empty string otherwise; so a
    non-empty address is returned only for a listed model. *)
Theorem resolved_models_are_listed (m : string) (c : Controller) :
  get_worker_address m c =
    (if str_in m (list_models c) then hd EmptyString (PyDict.keys c)
     else EmptyString) /\
  (get_worker_address m c <> EmptyString -> In m (list_models c)).
Proof.
  assert (Heq : get_worker_address m c =
                (if str_in m (list_models c) then hd EmptyString (PyDict.keys c)
                 else EmptyString)).
  { destruct c as [| [k v] rest]; [reflexivity |].
    unfold get_worker_address, list_models. simpl. now rewrite String.eqb_refl. }
  split; [exact Heq |].
  intros Hne. rewrite Heq in Hne.
  destruct (str_in m (list_models c)) eqn:E; [now apply str_in_In | congruence].
Qed.

Lemma resolved_models_are_listed_witness :
  In "yeongjopt"%string
    (list_models
       [("http://w1:21002"%string, mkWorkerInfo ["yeongjopt"%string] 1 0 true 100 false)]).
Proof.
  destruct (resolved_models_are_listed "yeongjopt"%string
              [("http://w1:21002"%string,
                mkWorkerInfo ["yeongjopt"%string] 1 0 true 100 false)])
    as [_ Hlisted].
  apply Hlisted. discriminate.
Defined.

(** X4. The multimodal and the language model lists split the model list:
    on every registry one of the two is empty and the other is the list of
    [list_models]. *)
Theorem model_lists_split (c : Controller) :
  (list_multimodal_models c ++ list_language_models c = list_models c) /\
  (list_multimodal_models c = [] \/ list_language_models c = []).
Proof.
  unfold list_multimodal_models, list_language_models, list_models.
  destruct (PyDict.values c) as [| worker rest]; [now split; [| left] |].
  destruct (multimodal worker); simpl.
  - split; [apply app_nil_r | now right].
  - split; [reflexivity | now left].
Qed.

(** X5. A heart beat postpones the expiry: after [receive_heart_beat] at
    clock value [t] for a registered worker, a sweep at any clock value [now]
    with [now - expiration <= t] keeps the record, with the queue length of
    the heart beat and [t] as [last_heart_beat], whatever the record held
    before. *)
Theorem heart_beat_postpones_expiry
    (expiration t now ql : Z) (w : string) (info : WorkerInfo) (c : Controller) :
  NoDup (PyDict.keys c) ->
  PyDict.get w c = Some info ->
  now - expiration <= t ->
  PyDict.get w
    (snd (remove_stale_workers_by_expiration expiration now
            (snd (receive_heart_beat t w ql c)))) =
  Some (mkWorkerInfo (model_names info) (speed info) ql
          (check_heart_beat info) t (multimodal info)).
Proof.
  intros ND Hget Hle.
  assert (Hstate : snd (receive_heart_beat t w ql c) =
                   PyDict.set w (mkWorkerInfo (model_names info) (speed info) ql
                                   (check_heart_beat info) t (multimodal info)) c).
  { unfold receive_heart_beat, bind, read_worker_info, write_worker_info, ret.
    now rewrite Hget. }
  rewrite Hstate.
  set (c' := PyDict.set w _ c).
  assert (Hrecord : PyDict.get w c' =
                    Some (mkWorkerInfo (model_names info) (speed info) ql
                            (check_heart_beat info) t (multimodal info)))
    by apply get_set_same.
  assert (ND' : NoDup (PyDict.keys c')).
  { apply NoDup_keys_set; [exact ND |]. apply contains_get. eauto. }
  rewrite sweep_eq. cbn [snd].
  rewrite get_del_all_notin; [exact Hrecord |].
  intros Hin. apply stale_workers_In in Hin.
  destruct Hin as [info' [Hin [_ Hlt]]].
  apply (In_get _ _ _ ND') in Hin. rewrite Hrecord in Hin.
  injection Hin as <-. simpl in Hlt. lia.
Qed.

Lemma heart_beat_postpones_expiry_witness :
  PyDict.get "http://w1:21002"%string
    (snd (remove_stale_workers_by_expiration 90 200
            (snd (receive_heart_beat 150 "http://w1:21002"%string 2
                    [("http://w1:21002"%string,
                      mkWorkerInfo ["yeongjopt"%string] 1 0 true 100 false)])))) =
  Some (mkWorkerInfo ["yeongjopt"%string] 1 2 true 150 false).
Proof.
  assert (ND : NoDup ["http://w1:21002"%string]).
  { constructor; [simpl; tauto | constructor]. }
  assert (Hle : 200 - 90 <= 150) by lia.
  exact (heart_beat_postpones_expiry 90 150 200 2 "http://w1:21002"%string
           (mkWorkerInfo ["yeongjopt"%string] 1 0 true 100 false)
           [("http://w1:21002"%string,
             mkWorkerInfo ["yeongjopt"%string] 1 0 true 100 false)]
           ND eq_refl Hle).
Defined.

(** X6. A worker registered on the empty registry with a full status is
    what the read queries then report: [list_models] gives its model names,
    and [get_worker_address] gives its endpoint for each of these names and
    the empty string for every other model. *)
Theorem registered_worker_is_resolved
    (probe : string -> http_result status_dict) (now : Z) (w : string)
    (chb mm : bool) (names : list string) (spd ql : Z) (m : string) :
  list_models
    (snd (register_worker probe now w chb (full_status names spd ql) mm
            Controller_init)) = names /\
  get_worker_address m
    (snd (register_worker probe now w chb (full_status names spd ql) mm
            Controller_init)) =
  (if str_in m names then w else EmptyString).
Proof.
  rewrite register_full_status by (left; reflexivity).
  split; [reflexivity |].
  unfold get_worker_address. simpl. now rewrite String.eqb_refl.
Qed.

(** X7. The expiration sweep only removes: every record found after it was
    there before, unchanged.  And it is idempotent: on a registry with unique
    keys a second sweep at the same clock value changes nothing. *)
Theorem sweep_only_removes_and_is_idempotent
    (expiration now : Z) (c : Controller) :
  NoDup (PyDict.keys c) ->
  (forall w info,
     PyDict.get w (snd (remove_stale_workers_by_expiration expiration now c)) =
       Some info ->
     PyDict.get w c = Some info) /\
  remove_stale_workers_by_expiration expiration now
    (snd (remove_stale_workers_by_expiration expiration now c)) =
  (Return tt, snd (remove_stale_workers_by_expiration expiration now c)).
Proof.
  intros ND. rewrite !sweep_eq. cbn [snd].
  set (stale := stale_workers (now - expiration) c).
  assert (ND' : NoDup (PyDict.keys (del_all stale c)))
    by now apply NoDup_keys_del_all.
  split.
  - intros w info Hget. apply In_get; [exact ND |].
    apply (In_del_all_incl stale). now apply get_In.
  - assert (Hnone : stale_workers (now - expiration) (del_all stale c) = []).
    { unfold stale_workers, PyDict.items. rewrite filter_none; [reflexivity |].
      intros [w info] Hin.
      destruct (check_heart_beat info && (last_heart_beat info <? now - expiration))
        eqn:Hcond; [| exact Hcond].
      exfalso. apply andb_true_iff in Hcond. destruct Hcond as [Hchb Hlt].
      apply Z.ltb_lt in Hlt.
      assert (Hstale : In w stale).
      { apply stale_workers_In. exists info. split; [| now split].
        now apply (In_del_all_incl stale). }
      pose proof (get_del_all_in stale w c ND Hstale) as Hgone.
      rewrite (In_get _ _ _ ND' Hin) in Hgone. discriminate. }
    rewrite Hnone. reflexivity.
Qed.

Lemma sweep_only_removes_and_is_idempotent_witness :
  remove_stale_workers_by_expiration 90 200
    (snd (remove_stale_workers_by_expiration 90 200
            [("http://w1:21002"%string,
              mkWorkerInfo ["yeongjopt"%string] 1 0 true 100 false)])) =
  (Return tt,
   snd (remove_stale_workers_by_expiration 90 200
          [("http://w1:21002"%string,
            mkWorkerInfo ["yeongjopt"%string] 1 0 true 100 false)])).
Proof.
  assert (ND : NoDup ["http://w1:21002"%string]).
  { constructor; [simpl; tauto | constructor]. }
  destruct (sweep_only_removes_and_is_idempotent 90 200
              [("http://w1:21002"%string,
                mkWorkerInfo ["yeongjopt"%string] 1 0 true 100 false)] ND)
    as [_ Hagain].
  exact Hagain.
Defined.

(** X8. The three ways [register_worker] can end, on every input.  It raises
    only [KeyError], for one of the keys [model_names], [speed] and
    [queue_length], and then the registry is untouched; when it returns
    [False] the registry is untouched as well; when it returns [True] the
    registry holds, under the registering name, a record with the given
    heart-beat and multimodal flags and the current clock value as
    [last_heart_beat]. *)
Theorem register_worker_outcomes
    (probe : string -> http_result status_dict) (now : Z) (w : string)
    (chb mm : bool) (status : option status_dict) (c : Controller) :
  match fst (register_worker probe now w chb status mm c) with
  | Raise e =>
      snd (register_worker probe now w chb status mm c) = c /\
      (e = KeyError "model_names" \/ e = KeyError "speed" \/
       e = KeyError "queue_length")
  | Return false => snd (register_worker probe now w chb status mm c) = c
  | Return true =>
      exists names spd ql,
        PyDict.get w (snd (register_worker probe now w chb status mm c)) =
        Some (mkWorkerInfo names spd ql chb now mm)
  end.
Proof.
  assert (Hstore :
    match fst (store_registration probe now w chb status mm c) with
    | Raise e =>
        snd (store_registration probe now w chb status mm c) = c /\
        (e = KeyError "model_names" \/ e = KeyError "speed" \/
         e = KeyError "queue_length")
    | Return false => snd (store_registration probe now w chb status mm c) = c
    | Return true =>
        exists names spd ql,
          PyDict.get w (snd (store_registration probe now w chb status mm c)) =
          Some (mkWorkerInfo names spd ql chb now mm)
    end).
  { unfold store_registration.
    destruct (if negb (status_truthy status)
              then get_worker_status_direct probe w else status) as [st |];
      [| now destruct (negb (status_truthy None))].
    destruct (negb (status_truthy (Some st))); [reflexivity |].
    unfold new_worker_info, getitem, bind, ret, raise, read_worker_info,
      write_worker_info.
    destruct (st_model_names st) as [names |]; [| simpl; auto].
    destruct (st_speed st) as [spd |]; [| simpl; auto].
    destruct (st_queue_length st) as [ql |]; [| simpl; auto].
    simpl. exists names, spd, ql. apply get_set_same. }
  unfold register_worker, bind, read_worker_info.
  destruct (PyDict.is_empty c); [exact Hstore |].
  destruct (negb (PyDict.contains w c)); [reflexivity | exact Hstore].
Qed.

(** X9. A registration without a status stores what the worker's own status
    operation answers: on a registry that is empty or holds the same
    endpoint, when the probe of [worker_name + "/worker_get_status"] answers
    with the three keys, [register_worker] returns [True] and the record of
    the endpoint holds the probed model names, speed and queue length. *)
Theorem registration_without_status_uses_probe
    (probe : string -> http_result status_dict) (now : Z) (w : string)
    (chb mm : bool) (names : list string) (spd ql : Z) (c : Controller) :
  PyDict.is_empty c = true \/ PyDict.contains w c = true ->
  probe (w ++ "/worker_get_status")%string =
    HttpOk (mkStatus (Some names) (Some spd) (Some ql)) ->
  register_worker probe now w chb None mm c =
  (Return true, PyDict.set w (mkWorkerInfo names spd ql chb now mm) c).
Proof.
  intros Hc Hprobe.
  assert (Hstore : store_registration probe now w chb None mm c =
                   (Return true, PyDict.set w (mkWorkerInfo names spd ql chb now mm) c)).
  { unfold store_registration, get_worker_status_direct. simpl.
    rewrite Hprobe. reflexivity. }
  unfold register_worker, bind, read_worker_info.
  destruct (PyDict.is_empty c) eqn:Hempty; [exact Hstore |].
  destruct Hc as [Hc | Hc]; [discriminate |].
  rewrite Hc. exact Hstore.
Qed.

Lemma registration_without_status_uses_probe_witness :
  register_worker
    (fun _ => HttpOk (mkStatus (Some ["yeongjopt"%string]) (Some 1) (Some 0)))
    100 "http://w1:21002"%string true None false Controller_init =
  (Return true,
   [("http://w1:21002"%string, mkWorkerInfo ["yeongjopt"%string] 1 0 true 100 false)]).
Proof.
  exact (registration_without_status_uses_probe
           (fun _ => HttpOk (mkStatus (Some ["yeongjopt"%string]) (Some 1) (Some 0)))
           100 "http://w1:21002"%string true false ["yeongjopt"%string] 1 0
           Controller_init (or_introl eq_refl) eq_refl).
Defined.

(** X10. The registration endpoint.  A body without [worker_name] or
    without [check_heart_beat] raises [KeyError] for that key and the
    registry is untouched.  A body with both, a full status and no
    [multimodal] key, sent to the empty registry, is answered with the
    success message and registers the worker as not multimodal: its models
    are listed as language models and not as multimodal models. *)
Theorem registration_endpoint_defaults
    (probe : string -> http_result status_dict) (now : Z)
    (data : register_request) (c : Controller) :
  (rq_worker_name data = None ->
   app_register_worker probe now data c = (Raise (KeyError "worker_name"), c)) /\
  (rq_worker_name data <> None -> rq_check_heart_beat data = None ->
   app_register_worker probe now data c = (Raise (KeyError "check_heart_beat"), c)) /\
  (forall w chb names spd ql,
     rq_worker_name data = Some w ->
     rq_check_heart_beat data = Some chb ->
     rq_worker_status data = full_status names spd ql ->
     rq_multimodal data = None ->
     app_register_worker probe now data Controller_init =
       (Return (ReplyMessage "Worker registered/updated successfully."),
        [(w, mkWorkerInfo names spd ql chb now false)]) /\
     list_language_models
       (snd (app_register_worker probe now data Controller_init)) = names /\
     list_multimodal_models
       (snd (app_register_worker probe now data Controller_init)) = []).
Proof.
  unfold app_register_worker, getitem, bind, ret, raise.
  split; [| split].
  - intros Hname. now rewrite Hname.
  - intros Hname Hchb. destruct (rq_worker_name data); [| contradiction].
    now rewrite Hchb.
  - intros w chb names spd ql Hname Hchb Hstatus Hmm.
    rewrite Hname, Hchb, Hstatus, Hmm. cbn [get_default].
    rewrite register_full_status by (left; reflexivity).
    repeat split.
Qed.

Lemma registration_endpoint_defaults_witness :
  app_register_worker (fun _ => RequestException "refused"%string) 100
    (mkRegisterRequest (Some "http://w1:21002"%string) (Some true)
       (full_status ["yeongjopt"%string] 1 0) None)
    Controller_init =
  (Return (ReplyMessage "Worker registered/updated successfully."),
   [("http://w1:21002"%string, mkWorkerInfo ["yeongjopt"%string] 1 0 true 100 false)]) /\
  app_register_worker (fun _ => RequestException "refused"%string) 100
    (mkRegisterRequest None (Some true) (full_status ["yeongjopt"%string] 1 0) None)
    Controller_init =
  (Raise (KeyError "worker_name"), Controller_init).
Proof.
  split.
  - destruct (registration_endpoint_defaults
                (fun _ => RequestException "refused"%string) 100
                (mkRegisterRequest (Some "http://w1:21002"%string) (Some true)
                   (full_status ["yeongjopt"%string] 1 0) None)
                Controller_init) as [_ [_ Hfull]].
    destruct (Hfull "http://w1:21002"%string true ["yeongjopt"%string] 1 0
                eq_refl eq_refl eq_refl eq_refl) as [Hreply _].
    exact Hreply.
  - destruct (registration_endpoint_defaults
                (fun _ => RequestException "refused"%string) 100
                (mkRegisterRequest None (Some true)
                   (full_status ["yeongjopt"%string] 1 0) None)
                Controller_init) as [Hmissing _].
    apply Hmissing. reflexivity.
Defined.

(** ** The gateway, function by function *)

Section MoreGatewayFacts.

Variable INTERNAL_ERROR : Z.
Variable env : ApiServer.environment.

Lemma address_lookup_calls (model_name : string) :
  fst (ApiServer.get_worker_address env model_name) =
  [ApiServer.Post (ApiServer.controller_address env ++ "/get_worker_address")%string].
Proof.
  unfold ApiServer.get_worker_address, ApiServer.hbind, ApiServer.called,
    ApiServer.hret, ApiServer.hraise.
  destruct (ApiServer.post_get_worker_address env _ model_name) as [body | e];
    [| reflexivity].
  now destruct (str_truthy (get_default body EmptyString)).
Qed.

(** X11. The gateway's address lookup makes exactly one call, to the
    controller.  It returns only a non-empty address, the one the controller
    sent; it raises 404 exactly when the controller answered without an
    address or with an empty one, and 503 exactly when the call failed. *)
Theorem address_lookup_outcomes (model_name : string) :
  fst (ApiServer.get_worker_address env model_name) =
    [ApiServer.Post (ApiServer.controller_address env ++ "/get_worker_address")%string] /\
  match snd (ApiServer.get_worker_address env model_name) with
  | ApiServer.Ok worker_addr =>
      str_truthy worker_addr = true /\
      ApiServer.post_get_worker_address env
        (ApiServer.controller_address env ++ "/get_worker_address")%string
        model_name = HttpOk (Some worker_addr)
  | ApiServer.HTTPException status_code detail =>
      (status_code = 404 /\
       detail = ("No worker found for model " ++ model_name)%string /\
       exists body,
         ApiServer.post_get_worker_address env
           (ApiServer.controller_address env ++ "/get_worker_address")%string
           model_name = HttpOk body /\
         str_truthy (get_default body EmptyString) = false) \/
      (status_code = 503 /\
       detail = "Service temporarily unavailable"%string /\
       exists e,
         ApiServer.post_get_worker_address env
           (ApiServer.controller_address env ++ "/get_worker_address")%string
           model_name = RequestException e)
  end.
Proof.
  unfold ApiServer.get_worker_address, ApiServer.hbind, ApiServer.called,
    ApiServer.hret, ApiServer.hraise.
  destruct (ApiServer.post_get_worker_address env _ model_name)
    as [body | e] eqn:Hpost.
  - destruct (str_truthy (get_default body EmptyString)) eqn:Haddr; simpl.
    + split; [reflexivity |]. split; [exact Haddr |].
      destruct body as [addr |]; [reflexivity | discriminate].
    + split; [reflexivity |]. left. repeat split. now exists body.
  - simpl. split; [reflexivity |]. right. repeat split. now exists e.
Qed.

(** The lookup when the controller sends a non-empty address. *)
Lemma address_lookup_resolved (model_name worker_addr : string) :
  ApiServer.post_get_worker_address env
    (ApiServer.controller_address env ++ "/get_worker_address")%string
    model_name = HttpOk (Some worker_addr) ->
  str_truthy worker_addr = true ->
  ApiServer.get_worker_address env model_name =
  ([ApiServer.Post (ApiServer.controller_address env ++ "/get_worker_address")%string],
   ApiServer.Ok worker_addr).
Proof.
  intros Hpost Haddr.
  unfold ApiServer.get_worker_address, ApiServer.hbind, ApiServer.called,
    ApiServer.hret, ApiServer.hraise.
  rewrite Hpost. simpl. now rewrite Haddr.
Qed.

(** X12. A chat completion contacts the worker only after the controller
    has resolved the model.  When the lookup raises, the handler ends with
    the same exception and the controller call is the only call made; when
    it returns an address, exactly one more call follows, to that address,
    on the streaming endpoint for a streaming request and on the
    non-streaming endpoint otherwise. *)
Theorem worker_is_contacted_only_when_resolved
    (request : ApiServer.APIChatCompletionRequest) :
  match snd (ApiServer.get_worker_address env (ApiServer.req_model request)) with
  | ApiServer.Ok worker_addr =>
      fst (ApiServer.create_chat_completion INTERNAL_ERROR env request) =
      [ApiServer.Post (ApiServer.controller_address env ++ "/get_worker_address")%string;
       ApiServer.Post
         (worker_addr ++
          (if ApiServer.req_stream request
           then "/worker_generate_stream" else "/worker_generate"))%string]
  | ApiServer.HTTPException status_code detail =>
      ApiServer.create_chat_completion INTERNAL_ERROR env request =
      ([ApiServer.Post (ApiServer.controller_address env ++ "/get_worker_address")%string],
       ApiServer.HTTPException status_code detail)
  end.
Proof.
  pose proof (address_lookup_calls (ApiServer.req_model request)) as Hcalls.
  unfold ApiServer.create_chat_completion.
  destruct (ApiServer.get_worker_address env (ApiServer.req_model request))
    as [calls [worker_addr | status_code detail]].
  - simpl in Hcalls. subst calls. cbn [snd]. unfold ApiServer.hbind at 1.
    destruct (ApiServer.req_stream request).
    + unfold ApiServer.hbind, ApiServer.called, ApiServer.hret.
      destruct (ApiServer.generate _ _ _). reflexivity.
    + unfold ApiServer.hbind, ApiServer.called, ApiServer.hraise.
      destruct (ApiServer.post_worker_generate env _ _) as [result | e].
      * unfold ApiServer.completion_of_result, ApiServer.hret, ApiServer.hraise.
        destruct (opt_int_truthy (ApiServer.r_error_code result)); reflexivity.
      * reflexivity.
  - simpl in Hcalls. subst calls. reflexivity.
Qed.

End MoreGatewayFacts.

Section StreamFraming.

Variable env : ApiServer.environment.

Lemma classify_content_event (t : Z) (model content : string) :
  classify (ApiServer.content_event t model content) = ContentDelta content.
Proof. reflexivity. Qed.

(** What the loop sends is the texts of a prefix of the chunks, one event
    per chunk, and all of them when no chunk fails or finishes. *)
Lemma generate_loop_prefix (model : string) (items : list chunk)
    (ending : gen_end) (k : nat) :
  exists n,
    (n <= length items)%nat /\
    length (fst (ApiServer.generate_loop env model k items ending)) = n /\
    map classify (fst (ApiServer.generate_loop env model k items ending)) =
      map ContentDelta (map chunk_text (firstn n items)) /\
    (Forall plain items -> n = length items).
Proof.
  revert k. induction items as [| c items IH]; intros k; simpl.
  - exists 0%nat. repeat split; auto.
  - destruct (opt_int_truthy (error_code c)) eqn:Herr.
    + exists 0%nat. simpl. repeat split; [lia |].
      intros Hplain. inversion Hplain as [| ? ? [Hc _] _]; subst. congruence.
    + destruct (opt_str_truthy (finish_reason c)) eqn:Hfin.
      * exists 1%nat. simpl. repeat split; [lia |].
        intros Hplain. inversion Hplain as [| ? ? [_ Hc] _]; subst. congruence.
      * destruct (IH (S k)) as [n [Hle [Hlen [Hmap Hall]]]].
        destruct (ApiServer.generate_loop env model (S k) items ending)
          as [evs r]. simpl in *.
        exists (S n). simpl. repeat split; [lia | lia | |].
        -- now rewrite Hmap.
        -- intros Hplain. inversion Hplain; subst. f_equal. now apply Hall.
Qed.

(** The loop is left by an exception exactly when the source raises and no
    chunk before failed or finished. *)
Lemma generate_loop_raises (model : string) (items : list chunk)
    (ending : gen_end) (k : nat) (e : exn) :
  snd (ApiServer.generate_loop env model k items ending) = GenRaise e <->
  ending = GenRaise e /\ Forall plain items.
Proof.
  revert k. induction items as [| c items IH]; intros k; simpl.
  - split; [intros H; split; [exact H | constructor] | now intros [H _]].
  - destruct (opt_int_truthy (error_code c)) eqn:Herr.
    + simpl. split; [discriminate |].
      intros [_ Hplain]. inversion Hplain as [| ? ? [Hc _] _]; subst. congruence.
    + destruct (opt_str_truthy (finish_reason c)) eqn:Hfin.
      * simpl. split; [discriminate |].
        intros [_ Hplain]. inversion Hplain as [| ? ? [_ Hc] _]; subst. congruence.
      * specialize (IH (S k)).
        destruct (ApiServer.generate_loop env model (S k) items ending)
          as [evs r]. simpl in *.
        rewrite IH. split.
        -- intros [He Hplain]. split; [exact He |].
           constructor; [now split | exact Hplain].
        -- intros [He Hplain]. inversion Hplain; subst. now split.
Qed.

(** X13. Whatever the worker sends, a stream that is not cut by an
    exception has one shape: the role announcement, then content events
    carrying the texts of the first [n] chunks in their order, one event per
    chunk, then the terminal event with finish reason "stop" and the [DONE]
    sentinel.  No chunk is skipped inside that prefix, and when no chunk has
    an error code or a finish reason every chunk is forwarded. *)
Theorem stream_framing_shape (model : string) (items : list chunk) :
  exists n,
    (n <= length items)%nat /\
    map classify (fst (ApiServer.generate env model (items, GenReturn))) =
      RoleAnnouncement "assistant"
        :: map ContentDelta (map chunk_text (firstn n items))
        ++ [Terminal "stop"; DoneSentinel] /\
    snd (ApiServer.generate env model (items, GenReturn)) = GenReturn /\
    (Forall plain items -> n = length items).
Proof.
  destruct (generate_loop_prefix model items GenReturn 1)
    as [n [Hle [_ [Hmap Hall]]]].
  pose proof (generate_loop_returns env model items 1) as Hret.
  exists n. unfold ApiServer.generate. cbn [fst snd].
  destruct (ApiServer.generate_loop env model 1 items GenReturn) as [evs r].
  simpl in Hret, Hmap. subst r. cbn [fst snd].
  repeat split; [exact Hle | | exact Hall].
  cbn [map]. rewrite map_app, Hmap. reflexivity.
Qed.

(** X14. The stream is cut, without terminal event and without sentinel,
    exactly when the worker stream raises something that is not a
    [RequestException] and no chunk before it carried an error code or a
    finish reason; the events sent are then the role announcement and one
    content event per chunk. *)
Theorem stream_is_cut_only_when_source_raises
    (model : string) (items : list chunk) (ending : gen_end) (e : exn) :
  (snd (ApiServer.generate env model (items, ending)) = GenRaise e <->
   ending = GenRaise e /\ Forall plain items) /\
  (ending = GenRaise e -> Forall plain items ->
   map classify (fst (ApiServer.generate env model (items, ending))) =
   RoleAnnouncement "assistant" :: map ContentDelta (map chunk_text items)).
Proof.
  pose proof (generate_loop_raises model items ending 1 e) as Hiff.
  destruct (generate_loop_prefix model items ending 1)
    as [n [_ [_ [Hmap Hall]]]].
  unfold ApiServer.generate. cbn [fst snd].
  destruct (ApiServer.generate_loop env model 1 items ending) as [evs r].
  cbn [fst snd] in *. split.
  - rewrite <- Hiff. destruct r; cbn [snd]; [split; discriminate | tauto].
  - intros He Hplain. destruct Hiff as [_ Hr].
    rewrite (Hr (conj He Hplain)). cbn [fst map].
    rewrite Hmap, (Hall Hplain), firstn_all. reflexivity.
Qed.

End StreamFraming.

Lemma stream_is_cut_only_when_source_raises_witness :
  snd (ApiServer.generate keyed_env "yeongjopt"
         ([mkChunk (Some "Hi"%string) None None],
          GenRaise (OtherException "Expecting value"))) =
  GenRaise (OtherException "Expecting value") /\
  map classify
    (fst (ApiServer.generate keyed_env "yeongjopt"
            ([mkChunk (Some "Hi"%string) None None],
             GenRaise (OtherException "Expecting value")))) =
  [RoleAnnouncement "assistant"; ContentDelta "Hi"].
Proof.
  assert (Hplain : Forall plain [mkChunk (Some "Hi"%string) None None]).
  { constructor; [split; reflexivity | constructor]. }
  destruct (stream_is_cut_only_when_source_raises keyed_env "yeongjopt"
              [mkChunk (Some "Hi"%string) None None]
              (GenRaise (OtherException "Expecting value"))
              (OtherException "Expecting value")) as [[_ Hcut] Hevents].
  split.
  - exact (Hcut (conj eq_refl Hplain)).
  - exact (Hevents eq_refl Hplain).
Defined.

Section KeyAndParameters.

Variable INTERNAL_ERROR : Z.
Variable env : ApiServer.environment.

(** X15. The key check passes exactly when no key (or an empty key) is
    configured or the bearer token is the configured key; every other
    request ends in 401.  With the right token the two guarded routes run
    their handlers. *)
Theorem api_key_accepts_exactly_the_key (credentials : option string) :
  (ApiServer.verify_api_key env credentials = ApiServer.Ok true <->
   opt_str_truthy (ApiServer.api_key env) = false \/
   credentials = ApiServer.api_key env) /\
  (ApiServer.verify_api_key env credentials = ApiServer.Ok true \/
   ApiServer.verify_api_key env credentials =
     ApiServer.HTTPException 401 "Invalid API key") /\
  (ApiServer.verify_api_key env credentials = ApiServer.Ok true ->
   ApiServer.app INTERNAL_ERROR env (ApiServer.GetModels credentials) =
     ApiServer.list_models env /\
   forall request,
     ApiServer.app INTERNAL_ERROR env
       (ApiServer.PostChatCompletions credentials request) =
     ApiServer.create_chat_completion INTERNAL_ERROR env request).
Proof.
  split; [| split].
  - unfold ApiServer.verify_api_key.
    destruct (ApiServer.api_key env) as [[| a key'] |]; simpl.
    + split; auto.
    + destruct credentials as [token |].
      * destruct (String.eqb token (String a key')) eqn:E; simpl.
        -- apply String.eqb_eq in E. subst token. split; auto.
        -- apply String.eqb_neq in E.
           split; [discriminate | intros [H | H]; [discriminate | congruence]].
      * split; [discriminate | intros [H | H]; discriminate].
    + split; auto.
  - unfold ApiServer.verify_api_key.
    destruct (ApiServer.api_key env) as [key |]; [| now left].
    destruct (str_truthy key && _); [now right | now left].
  - intros Hok. unfold ApiServer.app, ApiServer.with_api_key. rewrite Hok.
    split; [reflexivity | intros request; reflexivity].
Qed.

(** X16. [max_new_tokens] sent to the worker is never [0]: a request
    without [max_tokens], or with [max_tokens = 0], asks for 512 tokens;
    every other value, negative ones included, is forwarded as it is. *)
Theorem max_new_tokens_is_never_zero (max_tokens : option Z) :
  ApiServer.max_new_tokens max_tokens <> 0 /\
  (max_tokens = None \/ max_tokens = Some 0 ->
   ApiServer.max_new_tokens max_tokens = 512) /\
  (forall n, max_tokens = Some n -> n <> 0 ->
   ApiServer.max_new_tokens max_tokens = n).
Proof.
  unfold ApiServer.max_new_tokens. split; [| split].
  - destruct max_tokens as [n |]; simpl; [| lia].
    destruct (n =? 0) eqn:E; simpl; [lia | now apply Z.eqb_neq].
  - intros [-> | ->]; reflexivity.
  - intros n -> Hn. simpl. apply Z.eqb_neq in Hn. now rewrite Hn.
Qed.

End KeyAndParameters.

(** X17. The prompt built from a message list.  A message whose role is
    none of "system", "user" and "assistant" contributes nothing: the prompt
    is the same as without it.  A message without a role is read as a user
    message.  A string is used as the prompt unchanged, and the empty list
    gives a prompt that consists of the closing line alone. *)
Theorem prompt_ignores_unknown_roles
    (before after : list ApiServer.message_dict)
    (role : string) (content : option string) :
  role <> "system"%string -> role <> "user"%string -> role <> "assistant"%string ->
  ApiServer.build_prompt
    (ApiServer.MessagesList
       (before ++ ApiServer.mkMessage (Some role) content :: after)) =
  ApiServer.build_prompt (ApiServer.MessagesList (before ++ after)) /\
  ApiServer.build_prompt
    (ApiServer.MessagesList (before ++ ApiServer.mkMessage None content :: after)) =
  ApiServer.build_prompt
    (ApiServer.MessagesList
       (before ++ ApiServer.mkMessage (Some "user"%string) content :: after)) /\
  (forall s, ApiServer.build_prompt (ApiServer.MessagesStr s) = s) /\
  ApiServer.build_prompt (ApiServer.MessagesList []) = (nl ++ "Assistant:")%string.
Proof.
  intros Hsys Huser Hasm.
  assert (Hnone : ApiServer.prompt_part (ApiServer.mkMessage (Some role) content) = []).
  { unfold ApiServer.prompt_part. cbn [ApiServer.msg_role get_default].
    apply String.eqb_neq in Hsys, Huser, Hasm. now rewrite Hsys, Huser, Hasm. }
  repeat split.
  - unfold ApiServer.build_prompt. rewrite !flat_map_app. cbn [flat_map].
    now rewrite Hnone.
  - unfold ApiServer.build_prompt. rewrite !flat_map_app. reflexivity.
Qed.

Lemma prompt_ignores_unknown_roles_witness :
  ApiServer.build_prompt
    (ApiServer.MessagesList
       [ApiServer.mkMessage (Some "user"%string) (Some "hello"%string);
        ApiServer.mkMessage (Some "tool"%string) (Some "42"%string)]) =
  ApiServer.build_prompt
    (ApiServer.MessagesList
       [ApiServer.mkMessage (Some "user"%string) (Some "hello"%string)]).
Proof.
  assert (H1 : "tool"%string <> "system"%string) by discriminate.
  assert (H2 : "tool"%string <> "user"%string) by discriminate.
  assert (H3 : "tool"%string <> "assistant"%string) by discriminate.
  destruct (prompt_ignores_unknown_roles
              [ApiServer.mkMessage (Some "user"%string) (Some "hello"%string)] []
              "tool"%string (Some "42"%string) H1 H2 H3) as [Hdrop _].
  exact Hdrop.
Defined.

Lemma map_snd_combine_seq {A : Type} (l : list A) (start : nat) :
  map snd (combine (seq start (length l)) l) = l.
Proof.
  revert start. induction l as [| a l IH]; intros start; simpl; [reflexivity |].
  now rewrite IH.
Qed.

(** X18. The model list of the gateway makes one call, to the controller.
    When the call succeeds the answer has one card per item obtained from the
    reply, in the same order and with the item as its id; when the call fails
    the handler raises 503. *)
Theorem model_list_preserves_order (env : ApiServer.environment) :
  fst (ApiServer.list_models env) =
    [ApiServer.Post (ApiServer.controller_address env ++ "/list_models")%string] /\
  (forall models,
     ApiServer.post_list_models env
       (ApiServer.controller_address env ++ "/list_models")%string = HttpOk models ->
     exists data,
       snd (ApiServer.list_models env) = ApiServer.Ok (ApiServer.JsonModels data) /\
       map ApiServer.mc_id data = models) /\
  (forall e,
     ApiServer.post_list_models env
       (ApiServer.controller_address env ++ "/list_models")%string =
       RequestException e ->
     snd (ApiServer.list_models env) =
       ApiServer.HTTPException 503 "Service temporarily unavailable").
Proof.
  unfold ApiServer.list_models, ApiServer.hbind, ApiServer.called,
    ApiServer.hret, ApiServer.hraise.
  destruct (ApiServer.post_list_models env _) as [models | e]; simpl.
  - split; [reflexivity |]. split; [| discriminate].
    intros ms [= <-]. eexists. split; [reflexivity |].
    rewrite map_map. simpl. apply map_snd_combine_seq.
  - split; [reflexivity |]. split; [discriminate | reflexivity].
Qed.

Lemma model_list_preserves_order_witness :
  exists data,
    snd (ApiServer.list_models
           (ApiServer.mkEnv "http://localhost:21001" None (fun _ => 0)
              (fun _ _ => RequestException "refused")
              (fun _ => HttpOk ["b"%string; "a"%string])
              (fun _ _ => RequestException "refused")
              (fun _ _ => mkStream [] StreamClosed))) =
    ApiServer.Ok (ApiServer.JsonModels data) /\
    map ApiServer.mc_id data = ["b"%string; "a"%string].
Proof.
  destruct (model_list_preserves_order
              (ApiServer.mkEnv "http://localhost:21001" None (fun _ => 0)
                 (fun _ _ => RequestException "refused")
                 (fun _ => HttpOk ["b"%string; "a"%string])
                 (fun _ _ => RequestException "refused")
                 (fun _ _ => mkStream [] StreamClosed))) as [_ [Hok _]].
  apply Hok. reflexivity.
Defined.

(** X19. The gateway's model list against the controller of this
    repository.  The controller answers [/list_models] with an object whose
    only key is "models", and the gateway iterates over the decoded object
    itself, so whatever the registry holds the answer is a single card whose
    id is the string "models"; the names of the registered models do not
    appear in it. *)
Theorem gateway_model_list_names_the_reply_key
    (c : Controller) (address : string) (key : option string) (clock : nat -> Z)
    (post_worker_generate :
       string -> ApiServer.gen_params -> http_result ApiServer.generate_result)
    (post_worker_generate_stream : string -> ApiServer.gen_params -> worker_stream) :
  ApiServer.list_models
    (gateway_of_controller c address key clock post_worker_generate
       post_worker_generate_stream) =
  ([ApiServer.Post (address ++ "/list_models")%string],
   ApiServer.Ok (ApiServer.JsonModels [ApiServer.mkModelCard "models" (clock 0%nat)])).
Proof. reflexivity. Qed.

Lemma get_worker_address_by_list (m : string) (c : Controller) :
  get_worker_address m c =
  (if str_in m (list_models c) then hd EmptyString (PyDict.keys c) else EmptyString).
Proof.
  destruct c as [| [k v] rest]; [reflexivity |].
  unfold get_worker_address, list_models. simpl. now rewrite String.eqb_refl.
Qed.

(** X20. The non-streaming chat completion tells the failures apart.  Once
    the controller has resolved the model: a worker reply with a non-zero
    error code ends in 500 whose detail is the worker's text ("Generation
    failed" when the reply has none); a failed call to the worker ends in
    503; a reply without error code (or with [0]) is answered with one
    choice, of role "assistant", whose content is the worker's text and
    whose finish reason is the worker's ("stop" when the reply has none). *)
Theorem non_streaming_failures_are_told_apart
    (INTERNAL_ERROR : Z) (env : ApiServer.environment)
    (request : ApiServer.APIChatCompletionRequest) (worker_addr : string) :
  ApiServer.req_stream request = false ->
  ApiServer.post_get_worker_address env
    (ApiServer.controller_address env ++ "/get_worker_address")%string
    (ApiServer.req_model request) = HttpOk (Some worker_addr) ->
  str_truthy worker_addr = true ->
  match ApiServer.post_worker_generate env
          (worker_addr ++ "/worker_generate")%string
          (ApiServer.mkGenParams (ApiServer.req_model request)
             (ApiServer.build_prompt (ApiServer.req_messages request))
             (ApiServer.max_new_tokens (ApiServer.req_max_tokens request))
             false false) with
  | RequestException _ =>
      snd (ApiServer.create_chat_completion INTERNAL_ERROR env request) =
      ApiServer.HTTPException 503 "Service temporarily unavailable"
  | HttpOk result =>
      if opt_int_truthy (ApiServer.r_error_code result) then
        snd (ApiServer.create_chat_completion INTERNAL_ERROR env request) =
        ApiServer.HTTPException 500
          (get_default (ApiServer.r_text result) "Generation failed"%string)
      else
        exists r,
          snd (ApiServer.create_chat_completion INTERNAL_ERROR env request) =
            ApiServer.Ok (ApiServer.JsonCompletion r) /\
          ApiServer.cr_choices r =
            [ApiServer.mkChoice 0
               (ApiServer.mkChatMessage "assistant"
                  (get_default (ApiServer.r_text result) EmptyString))
               (get_default (ApiServer.r_finish_reason result) "stop"%string)] /\
          ApiServer.cr_model r = ApiServer.req_model request
  end.
Proof.
  intros Hstream Hpost Haddr.
  unfold ApiServer.create_chat_completion.
  rewrite (address_lookup_resolved env _ _ Hpost Haddr), Hstream.
  unfold ApiServer.hbind, ApiServer.called, ApiServer.hraise.
  destruct (ApiServer.post_worker_generate env _ _) as [result | e];
    [| reflexivity].
  unfold ApiServer.completion_of_result, ApiServer.hret, ApiServer.hraise.
  destruct (opt_int_truthy (ApiServer.r_error_code result)); [reflexivity |].
  eexists. cbn [snd]. split; [reflexivity |]. split; reflexivity.
Qed.

Lemma non_streaming_failures_are_told_apart_witness :
  snd (ApiServer.create_chat_completion 50001
         (ApiServer.mkEnv "http://localhost:21001" None (fun _ => 0)
            (fun _ _ => HttpOk (Some "http://localhost:21002"%string))
            (fun _ => RequestException "refused")
            (fun _ _ => HttpOk (ApiServer.mkResult (Some "CUDA out of memory"%string)
                                  (Some 50002) None None))
            (fun _ _ => mkStream [] StreamClosed))
         (ApiServer.mkRequest "yeongjopt" (ApiServer.MessagesStr "hello") None false)) =
  ApiServer.HTTPException 500 "CUDA out of memory".
Proof.
  exact (non_streaming_failures_are_told_apart 50001
           (ApiServer.mkEnv "http://localhost:21001" None (fun _ => 0)
              (fun _ _ => HttpOk (Some "http://localhost:21002"%string))
              (fun _ => RequestException "refused")
              (fun _ _ => HttpOk (ApiServer.mkResult (Some "CUDA out of memory"%string)
                                    (Some 50002) None None))
              (fun _ _ => mkStream [] StreamClosed))
           (ApiServer.mkRequest "yeongjopt" (ApiServer.MessagesStr "hello") None false)
           "http://localhost:21002" eq_refl eq_refl eq_refl).
Defined.

(** X21. Gateway and controller together.  For a model that the registry
    does not list (the empty registry included) a chat completion ends in
    404 after the single call to the controller, and no worker is contacted;
    for a listed model of a worker with a non-empty endpoint the second call
    goes to that endpoint. *)
Theorem unserved_model_is_not_found
    (INTERNAL_ERROR : Z) (c : Controller) (address : string)
    (key : option string) (clock : nat -> Z)
    (post_worker_generate :
       string -> ApiServer.gen_params -> http_result ApiServer.generate_result)
    (post_worker_generate_stream : string -> ApiServer.gen_params -> worker_stream)
    (request : ApiServer.APIChatCompletionRequest) :
  (~ In (ApiServer.req_model request) (list_models c) ->
   ApiServer.create_chat_completion INTERNAL_ERROR
     (gateway_of_controller c address key clock post_worker_generate
        post_worker_generate_stream) request =
   ([ApiServer.Post (address ++ "/get_worker_address")%string],
    ApiServer.HTTPException 404
      ("No worker found for model " ++ ApiServer.req_model request)%string)) /\
  (In (ApiServer.req_model request) (list_models c) ->
   str_truthy (hd EmptyString (PyDict.keys c)) = true ->
   fst (ApiServer.create_chat_completion INTERNAL_ERROR
          (gateway_of_controller c address key clock post_worker_generate
             post_worker_generate_stream) request) =
   [ApiServer.Post (address ++ "/get_worker_address")%string;
    ApiServer.Post
      (hd EmptyString (PyDict.keys c) ++
       (if ApiServer.req_stream request
        then "/worker_generate_stream" else "/worker_generate"))%string]).
Proof.
  set (env := gateway_of_controller c address key clock post_worker_generate
                post_worker_generate_stream).
  assert (Hpost :
    ApiServer.post_get_worker_address env
      (ApiServer.controller_address env ++ "/get_worker_address")%string
      (ApiServer.req_model request) =
    HttpOk (Some (get_worker_address (ApiServer.req_model request) c)))
    by reflexivity.
  split.
  - intros Hnot. apply str_in_not_In in Hnot.
    unfold ApiServer.create_chat_completion, ApiServer.get_worker_address.
    rewrite Hpost, get_worker_address_by_list, Hnot. reflexivity.
  - intros Hin Haddr. apply str_in_In in Hin.
    rewrite get_worker_address_by_list, Hin in Hpost.
    unfold ApiServer.create_chat_completion.
    rewrite (address_lookup_resolved env _ _ Hpost Haddr).
    unfold ApiServer.hbind at 1.
    destruct (ApiServer.req_stream request).
    + unfold ApiServer.hbind, ApiServer.called, ApiServer.hret.
      destruct (ApiServer.generate _ _ _). reflexivity.
    + unfold ApiServer.hbind, ApiServer.called, ApiServer.hraise.
      destruct (ApiServer.post_worker_generate env _ _) as [result | e].
      * unfold ApiServer.completion_of_result, ApiServer.hret, ApiServer.hraise.
        destruct (opt_int_truthy (ApiServer.r_error_code result)); reflexivity.
      * reflexivity.
Qed.

Lemma unserved_model_is_not_found_witness :
  ApiServer.create_chat_completion 50001
    (gateway_of_controller
       [("http://w1:21002"%string, mkWorkerInfo ["yeongjopt"%string] 1 0 true 100 false)]
       "http://localhost:21001" None (fun _ => 0)
       (fun _ _ => RequestException "refused")
       (fun _ _ => mkStream [] StreamClosed))
    (ApiServer.mkRequest "gpt-4" (ApiServer.MessagesStr "hello") None true) =
  ([ApiServer.Post "http://localhost:21001/get_worker_address"],
   ApiServer.HTTPException 404 "No worker found for model gpt-4").
Proof.
  destruct (unserved_model_is_not_found 50001
              [("http://w1:21002"%string,
                mkWorkerInfo ["yeongjopt"%string] 1 0 true 100 false)]
              "http://localhost:21001" None (fun _ => 0)
              (fun _ _ => RequestException "refused")
              (fun _ _ => mkStream [] StreamClosed)
              (ApiServer.mkRequest "gpt-4" (ApiServer.MessagesStr "hello") None true))
    as [Hmissing _].
  apply Hmissing. simpl. intros [H | []]. discriminate H.
Defined.

(** ** The chat front end, run by run *)

Lemma string_append_assoc (a b c : string) :
  ((a ++ b) ++ c = a ++ (b ++ c))%string.
Proof.
  induction a as [| ch a IH]; simpl; [reflexivity | now rewrite IH].
Qed.

Lemma string_append_nil_r (a : string) : (a ++ "" = a)%string.
Proof.
  induction a as [| ch a IH]; simpl; [reflexivity | now rewrite IH].
Qed.

Section ResponseRuns.

Variable SERVER_ERROR_MSG : string.
Variable CONNECTION_ERROR : Z.
Variable INTERNAL_ERROR : Z.

(** The loop over successful chunks runs to the end: the in-progress
    updates, then the accumulated text. *)
Lemma stream_loop_success (good : list chunk) (acc : string) (s : WebServer.State) :
  WebServer.messages (WebServer.conv s) <> [] ->
  Forall chunk_ok good ->
  exists s',
    WebServer.stream_loop SERVER_ERROR_MSG good acc s =
    (progress good acc s,
     Return (Some (acc ++ joined (map chunk_text good))%string), s') /\
    WebServer.messages (WebServer.conv s') <> [] /\
    (forall m, written m s' = written m s).
Proof.
  intros Hne Hgood. revert acc s Hne.
  induction Hgood as [| g good Hg Hgood IH]; intros acc s Hne; simpl.
  - exists s. rewrite string_append_nil_r. auto.
  - rewrite error_test_is_truthiness. unfold chunk_ok in Hg. rewrite Hg.
    unfold WebServer.gbind at 1. rewrite write_last_ok by exact Hne.
    unfold WebServer.gbind at 1. unfold WebServer.yield at 1.
    destruct (IH (acc ++ get_default (text g) EmptyString)%string
                (written ((acc ++ get_default (text g) EmptyString)
                          ++ WebServer.cursor)%string s)
                (written_nonempty _ _ Hne)) as [s' [Hloop [Hne' Hsame]]].
    rewrite Hloop. exists s'. split; [| split].
    + rewrite progress_written by exact Hne.
      unfold chunk_text. rewrite <- string_append_assoc. reflexivity.
    + exact Hne'.
    + intros m. rewrite Hsame. now apply written_twice.
Qed.

(** The response to a stream of successful chunks that the worker closes,
    for a session that is ready and a worker that the controller resolves. *)
Lemma bot_response_on_success (wenv : WebServer.environment)
    (s0 : WebServer.State) (addr : string) (good : list chunk) :
  Forall chunk_ok good ->
  WebServer.skip_next s0 = false ->
  WebServer.messages (WebServer.conv s0) <> [] ->
  opt_str_truthy (WebServer.controller_url wenv) = true ->
  WebServer.post_get_worker_address wenv
    (get_default (WebServer.controller_url wenv) EmptyString
     ++ "/get_worker_address")%string
    (WebServer.model_name s0) = HttpOk (Some addr) ->
  str_truthy addr = true ->
  WebServer.post_worker_generate_stream wenv
    (addr ++ "/worker_generate_stream")%string
    (written WebServer.cursor s0) = mkStream good StreamClosed ->
  WebServer.bot_response_fn SERVER_ERROR_MSG CONNECTION_ERROR INTERNAL_ERROR
    wenv s0 =
  ([WebServer.Wrote WebServer.cursor;
    WebServer.Yielded (written WebServer.cursor s0) false]
     ++ progress good EmptyString s0
     ++ [WebServer.Wrote (joined (map chunk_text good));
         WebServer.Yielded (written (joined (map chunk_text good)) s0) true],
   Return tt,
   written (joined (map chunk_text good)) s0).
Proof.
  intros Hgood Hskip Hne Hurl Hpost Haddr Hsource.
  destruct (stream_loop_success good EmptyString (written WebServer.cursor s0)
              (written_nonempty _ _ Hne) Hgood) as [s' [Hloop [Hne' Hsame]]].
  unfold WebServer.bot_response_fn.
  unfold WebServer.gbind at 1. unfold WebServer.get_state at 1.
  rewrite Hskip, Hurl. cbn [negb]. rewrite Hpost. cbn [get_default].
  rewrite Haddr. cbn [negb].
  unfold WebServer.gbind at 1. rewrite write_last_ok by exact Hne.
  unfold WebServer.gbind at 1. unfold WebServer.yield at 1.
  unfold WebServer.gbind at 1. unfold WebServer.get_state at 1.
  rewrite Hsource. unfold WebServer.model_worker_stream_iter_fn. cbn [ws_end ws_chunks].
  unfold WebServer.gbind at 1. rewrite Hloop. cbn [String.append].
  unfold WebServer.gbind at 1. rewrite write_last_ok by exact Hne'.
  unfold WebServer.yield.
  rewrite Hsame, written_twice by exact Hne.
  rewrite progress_written by exact Hne.
  simpl. reflexivity.
Qed.

(** X22. A complete response in the chat framing.  For a session that is
    ready, a worker that the controller resolves and a stream of successful
    chunks that the worker closes, the run consists of the placeholder, one
    in-progress update per chunk (the text so far followed by the marker),
    and a last write of the concatenation of all chunk texts, without the
    marker, followed by the only final yield; that concatenation is the last
    message of the session afterwards. *)
Theorem complete_stream_is_concatenated (wenv : WebServer.environment)
    (s0 : WebServer.State) (addr : string) (good : list chunk) :
  Forall chunk_ok good ->
  WebServer.skip_next s0 = false ->
  WebServer.messages (WebServer.conv s0) <> [] ->
  opt_str_truthy (WebServer.controller_url wenv) = true ->
  WebServer.post_get_worker_address wenv
    (get_default (WebServer.controller_url wenv) EmptyString
     ++ "/get_worker_address")%string
    (WebServer.model_name s0) = HttpOk (Some addr) ->
  str_truthy addr = true ->
  WebServer.post_worker_generate_stream wenv
    (addr ++ "/worker_generate_stream")%string
    (written WebServer.cursor s0) = mkStream good StreamClosed ->
  WebServer.bot_response_fn SERVER_ERROR_MSG CONNECTION_ERROR INTERNAL_ERROR
    wenv s0 =
  ([WebServer.Wrote WebServer.cursor;
    WebServer.Yielded (written WebServer.cursor s0) false]
     ++ progress good EmptyString s0
     ++ [WebServer.Wrote (joined (map chunk_text good));
         WebServer.Yielded (written (joined (map chunk_text good)) s0) true],
   Return tt,
   written (joined (map chunk_text good)) s0) /\
  WebServer.last_message
    (WebServer.conv
       (snd (WebServer.bot_response_fn SERVER_ERROR_MSG CONNECTION_ERROR
               INTERNAL_ERROR wenv s0))) =
  Some (joined (map chunk_text good)) /\
  filter is_final_yield
    (fst (fst (WebServer.bot_response_fn SERVER_ERROR_MSG CONNECTION_ERROR
                 INTERNAL_ERROR wenv s0))) =
  [WebServer.Yielded (written (joined (map chunk_text good)) s0) true].
Proof.
  intros Hgood Hskip Hne Hurl Hpost Haddr Hsource.
  rewrite (bot_response_on_success wenv s0 addr good Hgood Hskip Hne Hurl
             Hpost Haddr Hsource).
  split; [reflexivity |]. cbn [fst snd]. split.
  - now apply written_last_message.
  - rewrite filter_app. cbn [filter is_final_yield app].
    rewrite filter_app, progress_no_final_yield. reflexivity.
Qed.

End ResponseRuns.

Lemma complete_stream_is_concatenated_witness :
  WebServer.last_message
    (WebServer.conv
       (snd (WebServer.bot_response_fn "NETWORK ERROR" 50003 50001
               (WebServer.mkEnv (Some "http://localhost:21001"%string)
                  (fun _ _ => HttpOk (Some "http://localhost:21002"%string))
                  (fun _ _ => mkStream
                                [mkChunk (Some "Hi"%string) (Some 0) None;
                                 mkChunk (Some " there"%string) None (Some "stop"%string)]
                                StreamClosed))
               pending_session))) =
  Some "Hi there"%string.
Proof.
  assert (Hgood : Forall chunk_ok
                    [mkChunk (Some "Hi"%string) (Some 0) None;
                     mkChunk (Some " there"%string) None (Some "stop"%string)]).
  { repeat constructor. }
  assert (Hne : WebServer.messages (WebServer.conv pending_session) <> [])
    by discriminate.
  destruct (complete_stream_is_concatenated "NETWORK ERROR" 50003 50001
              (WebServer.mkEnv (Some "http://localhost:21001"%string)
                 (fun _ _ => HttpOk (Some "http://localhost:21002"%string))
                 (fun _ _ => mkStream
                               [mkChunk (Some "Hi"%string) (Some 0) None;
                                mkChunk (Some " there"%string) None (Some "stop"%string)]
                               StreamClosed))
              pending_session "http://localhost:21002"
              [mkChunk (Some "Hi"%string) (Some 0) None;
               mkChunk (Some " there"%string) None (Some "stop"%string)]
              Hgood eq_refl Hne eq_refl eq_refl eq_refl eq_refl)
    as [_ [Hlast _]].
  exact Hlast.
Defined.

Section EveryRun.

Variable SERVER_ERROR_MSG : string.
Variable CONNECTION_ERROR : Z.
Variable INTERNAL_ERROR : Z.
Variable wenv : WebServer.environment.

(** Whatever the chunks, the loop ends normally: either it returned from
    inside, after a final yield that is its last event, or it ran out
    without any final yield. *)
Lemma stream_loop_ends (chunks : list chunk) (acc : string) (s : WebServer.State) :
  WebServer.messages (WebServer.conv s) <> [] ->
  exists evs r s',
    WebServer.stream_loop SERVER_ERROR_MSG chunks acc s = (evs, Return r, s') /\
    WebServer.messages (WebServer.conv s') <> [] /\
    WebServer.skip_next s' = WebServer.skip_next s /\
    match r with
    | None =>
        exists evs0,
          evs = evs0 ++ [WebServer.Yielded s' true] /\
          filter is_final_yield evs0 = []
    | Some _ => filter is_final_yield evs = []
    end.
Proof.
  revert acc s. induction chunks as [| c chunks IH]; intros acc s Hne; simpl.
  - exists [], (Some acc), s. repeat split; auto.
  - destruct (negb (get_default (error_code c) 0 =? 0)).
    + unfold WebServer.gbind at 1. rewrite write_last_ok by exact Hne.
      unfold WebServer.gbind, WebServer.yield, WebServer.gret.
      eexists _, None, _. split; [reflexivity |].
      split; [now apply written_nonempty |].
      split; [apply written_skip_next |].
      exists [WebServer.Wrote (get_default (text c) SERVER_ERROR_MSG)].
      split; reflexivity.
    + unfold WebServer.gbind at 1. rewrite write_last_ok by exact Hne.
      unfold WebServer.gbind at 1. unfold WebServer.yield at 1.
      destruct (IH (acc ++ get_default (text c) EmptyString)%string
                  (written ((acc ++ get_default (text c) EmptyString)
                            ++ WebServer.cursor)%string s)
                  (written_nonempty _ _ Hne))
        as [evs [r [s' [Hloop [Hne' [Hskip Hshape]]]]]].
      rewrite Hloop. eexists _, r, s'. split; [reflexivity |].
      split; [exact Hne' |].
      split; [now rewrite Hskip, written_skip_next |].
      destruct r as [full |].
      * simpl. exact Hshape.
      * destruct Hshape as [evs0 [-> Hnone]].
        eexists (_ :: _ :: evs0). split; [reflexivity |]. simpl. exact Hnone.
Qed.

(** X23. Every run of the response generator hands the input back exactly
    once, at its very end.  For a session with a pending skip, or with at
    least one message, whatever the controller and the worker do (controller
    not configured or unreachable, no worker, any chunks, any end of the
    stream), the generator returns normally, its last event is a final
    yield, no earlier yield is final, and [skip_next] is false afterwards. *)
Theorem every_run_hands_back_once (s : WebServer.State) :
  WebServer.skip_next s = true \/ WebServer.messages (WebServer.conv s) <> [] ->
  exists evs final,
    WebServer.bot_response_fn SERVER_ERROR_MSG CONNECTION_ERROR INTERNAL_ERROR
      wenv s = (evs ++ [WebServer.Yielded final true], Return tt, final) /\
    filter is_final_yield evs = [] /\
    WebServer.skip_next final = false.
Proof.
  intros Hready. unfold WebServer.bot_response_fn.
  unfold WebServer.gbind at 1. unfold WebServer.get_state at 1.
  destruct (WebServer.skip_next s) eqn:Hskip.
  - exists [], (WebServer.mkState (WebServer.conv s) (WebServer.conv_id s) false
                  (WebServer.model_name s)).
    repeat split.
  - destruct Hready as [Habs | Hne]; [discriminate |].
    assert (Hone : forall m,
      WebServer.gbind (WebServer.write_last m) (fun _ => WebServer.yield true) s =
      ([WebServer.Wrote m] ++ [WebServer.Yielded (written m s) true],
       Return tt, written m s)).
    { intros m. unfold WebServer.gbind. rewrite write_last_ok by exact Hne.
      reflexivity. }
    assert (Hdone : forall m,
      exists evs final,
        ([WebServer.Wrote m] ++ [WebServer.Yielded (written m s) true],
         Return tt, written m s) =
        (evs ++ [WebServer.Yielded final true], Return tt, final) /\
        filter is_final_yield evs = [] /\ WebServer.skip_next final = false).
    { intros m. exists [WebServer.Wrote m], (written m s).
      repeat split. now rewrite written_skip_next. }
    destruct (negb (opt_str_truthy (WebServer.controller_url wenv))).
    { rewrite Hone. apply Hdone. }
    destruct (WebServer.post_get_worker_address wenv _ _) as [body | e].
    2: { rewrite Hone. apply Hdone. }
    destruct (negb (str_truthy (get_default body EmptyString))).
    { rewrite Hone. apply Hdone. }
    unfold WebServer.gbind at 1. rewrite write_last_ok by exact Hne.
    unfold WebServer.gbind at 1. unfold WebServer.yield at 1.
    unfold WebServer.gbind at 1. unfold WebServer.get_state at 1.
    unfold WebServer.gbind at 1.
    destruct (stream_loop_ends
                (WebServer.model_worker_stream_iter_fn SERVER_ERROR_MSG
                   CONNECTION_ERROR INTERNAL_ERROR
                   (WebServer.post_worker_generate_stream wenv
                      (get_default body EmptyString ++ "/worker_generate_stream")%string
                      (written WebServer.cursor s)))
                EmptyString (written WebServer.cursor s)
                (written_nonempty _ _ Hne))
      as [evs [r [s' [Hloop [Hne' [Hskip' Hshape]]]]]].
    rewrite Hloop. rewrite written_skip_next, Hskip in Hskip'.
    destruct r as [full |].
    + unfold WebServer.gbind. rewrite write_last_ok by exact Hne'.
      unfold WebServer.yield.
      exists ([WebServer.Wrote WebServer.cursor;
               WebServer.Yielded (written WebServer.cursor s) false]
              ++ evs ++ [WebServer.Wrote full]), (written full s').
      split; [| split].
      * simpl. rewrite <- !app_assoc. reflexivity.
      * simpl. rewrite filter_app, Hshape. reflexivity.
      * now rewrite written_skip_next.
    + destruct Hshape as [evs0 [-> Hnone]]. unfold WebServer.gret.
      exists ([WebServer.Wrote WebServer.cursor;
               WebServer.Yielded (written WebServer.cursor s) false] ++ evs0), s'.
      split; [| split].
      * simpl. rewrite app_nil_r. reflexivity.
      * simpl. exact Hnone.
      * exact Hskip'.
Qed.

End EveryRun.

Lemma every_run_hands_back_once_witness :
  exists evs final,
    WebServer.bot_response_fn "NETWORK ERROR" 50003 50001 broken_env
      pending_session = (evs ++ [WebServer.Yielded final true], Return tt, final) /\
    filter is_final_yield evs = [] /\
    WebServer.skip_next final = false.
Proof.
  assert (Hne : WebServer.messages (WebServer.conv pending_session) <> [])
    by discriminate.
  exact (every_run_hands_back_once "NETWORK ERROR" 50003 50001 broken_env
           pending_session (or_intror Hne)).
Defined.

(** ** Session events of the chat front end *)

(** X24. [regenerate_fn] removes the last message exactly when its role is
    the assistant role of the conversation, and nothing else changes; a
    conversation that ends with another role, or has no message, is left as
    it is. *)
Theorem regenerate_drops_last_assistant_message
    (s : WebServer.State) (init : list (string * option string))
    (role : string) (content : option string) :
  WebServer.messages (WebServer.conv s) = init ++ [(role, content)] ->
  (role = snd (WebServer.roles (WebServer.conv s)) ->
   WebServer.regenerate_fn s =
   WebServer.mkState
     (WebServer.mkConv (WebServer.roles (WebServer.conv s)) init)
     (WebServer.conv_id s) (WebServer.skip_next s) (WebServer.model_name s)) /\
  (role <> snd (WebServer.roles (WebServer.conv s)) ->
   WebServer.regenerate_fn s = s).
Proof.
  intros Hms. unfold WebServer.regenerate_fn. rewrite Hms, rev_unit. split.
  - intros ->. rewrite String.eqb_refl. now rewrite removelast_last.
  - intros Hne. apply String.eqb_neq in Hne. now rewrite Hne.
Qed.

Lemma regenerate_drops_last_assistant_message_witness :
  WebServer.messages
    (WebServer.conv
       (WebServer.regenerate_fn (written "Hi there" pending_session))) =
  [("USER"%string, Some "hello"%string)].
Proof.
  destruct (regenerate_drops_last_assistant_message
              (written "Hi there" pending_session)
              [("USER"%string, Some "hello"%string)]
              "ASSISTANT"%string (Some "Hi there"%string) eq_refl)
    as [Hdrop _].
  rewrite (Hdrop eq_refl). reflexivity.
Defined.

Lemma regenerate_empty (s : WebServer.State) :
  WebServer.messages (WebServer.conv s) = [] -> WebServer.regenerate_fn s = s.
Proof.
  intros Hms. unfold WebServer.regenerate_fn. now rewrite Hms.
Qed.

Section Turns.

Variable SERVER_ERROR_MSG : string.
Variable CONNECTION_ERROR : Z.
Variable INTERNAL_ERROR : Z.
Variable wenv : WebServer.environment.
Variable strip : string -> string.

(** X25. Regenerating after a completed exchange.  [regenerate_fn] takes
    the assistant message away, so the last message is then the one before
    it; the response run that follows writes into that message.  With
    [update_last_message] replacing the content of the last message, a
    complete stream leaves the conversation with the earlier messages
    followed by the message that preceded the answer, its content replaced by
    the new response text, and without any new assistant message. *)
Theorem regenerated_response_replaces_previous_message
    (s : WebServer.State) (history : list (string * option string))
    (role : string) (question answer : option string)
    (addr : string) (good : list chunk) :
  WebServer.messages (WebServer.conv s) =
    history ++ [(role, question); (snd (WebServer.roles (WebServer.conv s)), answer)] ->
  WebServer.skip_next s = false ->
  Forall chunk_ok good ->
  opt_str_truthy (WebServer.controller_url wenv) = true ->
  WebServer.post_get_worker_address wenv
    (get_default (WebServer.controller_url wenv) EmptyString
     ++ "/get_worker_address")%string
    (WebServer.model_name s) = HttpOk (Some addr) ->
  str_truthy addr = true ->
  WebServer.post_worker_generate_stream wenv
    (addr ++ "/worker_generate_stream")%string
    (written WebServer.cursor (WebServer.regenerate_fn s)) =
    mkStream good StreamClosed ->
  WebServer.messages (WebServer.conv (WebServer.regenerate_fn s)) =
    history ++ [(role, question)] /\
  WebServer.messages
    (WebServer.conv
       (snd (WebServer.bot_response_fn SERVER_ERROR_MSG CONNECTION_ERROR
               INTERNAL_ERROR wenv (WebServer.regenerate_fn s)))) =
    history ++ [(role, Some (joined (map chunk_text good)))].
Proof.
  intros Hms Hskip Hgood Hurl Hpost Haddr Hsource.
  assert (Hregen : WebServer.regenerate_fn s =
                   WebServer.mkState
                     (WebServer.mkConv (WebServer.roles (WebServer.conv s))
                        (history ++ [(role, question)]))
                     (WebServer.conv_id s) (WebServer.skip_next s)
                     (WebServer.model_name s)).
  { unfold WebServer.regenerate_fn.
    replace (history ++ [(role, question);
                         (snd (WebServer.roles (WebServer.conv s)), answer)])
      with ((history ++ [(role, question)])
            ++ [(snd (WebServer.roles (WebServer.conv s)), answer)]) in Hms
      by (rewrite <- app_assoc; reflexivity).
    rewrite Hms, rev_unit, String.eqb_refl. now rewrite removelast_last. }
  assert (Hmsgs : WebServer.messages (WebServer.conv (WebServer.regenerate_fn s)) =
                  history ++ [(role, question)]) by now rewrite Hregen.
  assert (Hne : WebServer.messages (WebServer.conv (WebServer.regenerate_fn s)) <> []).
  { rewrite Hmsgs. destruct history; discriminate. }
  split; [exact Hmsgs |].
  rewrite (bot_response_on_success SERVER_ERROR_MSG CONNECTION_ERROR
             INTERNAL_ERROR wenv (WebServer.regenerate_fn s) addr good Hgood).
  - cbn [snd].
    rewrite (written_snoc _ _ history role question Hmsgs). reflexivity.
  - now rewrite Hregen.
  - exact Hne.
  - exact Hurl.
  - now rewrite Hregen.
  - exact Haddr.
  - exact Hsource.
Qed.

(** X26. A blank input costs no generation.  For the empty text, or a text
    that [strip] empties, [add_text_fn] adds no message and sets
    [skip_next]; the response run that follows makes no write and no
    in-progress yield: its single event is the final yield, [skip_next] is
    false again, and the conversation is the one before the input. *)
Theorem blank_input_is_skipped (text : string) (s : WebServer.State) :
  text = EmptyString \/ strip text = EmptyString ->
  WebServer.add_text_fn strip text s =
    WebServer.mkState (WebServer.conv s) (WebServer.conv_id s) true
      (WebServer.model_name s) /\
  WebServer.bot_response_fn SERVER_ERROR_MSG CONNECTION_ERROR INTERNAL_ERROR
    wenv (WebServer.add_text_fn strip text s) =
  ([WebServer.Yielded
      (WebServer.mkState (WebServer.conv s) (WebServer.conv_id s) false
         (WebServer.model_name s)) true],
   Return tt,
   WebServer.mkState (WebServer.conv s) (WebServer.conv_id s) false
     (WebServer.model_name s)).
Proof.
  intros Hblank.
  assert (Hadd : WebServer.add_text_fn strip text s =
                 WebServer.mkState (WebServer.conv s) (WebServer.conv_id s) true
                   (WebServer.model_name s)).
  { unfold WebServer.add_text_fn. destruct Hblank as [-> | Hstrip].
    - reflexivity.
    - rewrite Hstrip. simpl. now rewrite orb_true_r. }
  split; [exact Hadd |]. rewrite Hadd. reflexivity.
Qed.

(** X27. A full turn.  For a text that [strip] does not empty,
    [add_text_fn] appends the stripped text under the user role and a
    pending message under the assistant role; after the response to a
    complete stream the conversation is the earlier messages, the stripped
    user text, and the assistant message holding the concatenation of the
    chunk texts. *)
Theorem full_turn_appends_question_and_answer
    (text : string) (s : WebServer.State) (addr : string) (good : list chunk) :
  text <> EmptyString ->
  strip text <> EmptyString ->
  Forall chunk_ok good ->
  opt_str_truthy (WebServer.controller_url wenv) = true ->
  WebServer.post_get_worker_address wenv
    (get_default (WebServer.controller_url wenv) EmptyString
     ++ "/get_worker_address")%string
    (WebServer.model_name s) = HttpOk (Some addr) ->
  str_truthy addr = true ->
  WebServer.post_worker_generate_stream wenv
    (addr ++ "/worker_generate_stream")%string
    (written WebServer.cursor (WebServer.add_text_fn strip text s)) =
    mkStream good StreamClosed ->
  WebServer.messages (WebServer.conv (WebServer.add_text_fn strip text s)) =
    WebServer.messages (WebServer.conv s)
      ++ [(fst (WebServer.roles (WebServer.conv s)), Some (strip text));
          (snd (WebServer.roles (WebServer.conv s)), None)] /\
  WebServer.messages
    (WebServer.conv
       (snd (WebServer.bot_response_fn SERVER_ERROR_MSG CONNECTION_ERROR
               INTERNAL_ERROR wenv (WebServer.add_text_fn strip text s)))) =
    WebServer.messages (WebServer.conv s)
      ++ [(fst (WebServer.roles (WebServer.conv s)), Some (strip text));
          (snd (WebServer.roles (WebServer.conv s)),
           Some (joined (map chunk_text good)))].
Proof.
  intros Htext Hstrip Hgood Hurl Hpost Haddr Hsource.
  assert (Hadd : WebServer.add_text_fn strip text s =
                 WebServer.mkState
                   (WebServer.mkConv (WebServer.roles (WebServer.conv s))
                      ((WebServer.messages (WebServer.conv s)
                        ++ [(fst (WebServer.roles (WebServer.conv s)),
                             Some (strip text))])
                       ++ [(snd (WebServer.roles (WebServer.conv s)), None)]))
                   (WebServer.conv_id s) false (WebServer.model_name s)).
  { unfold WebServer.add_text_fn.
    destruct text as [| ch text']; [contradiction |].
    destruct (strip (String ch text')) as [| ch' stripped]; [contradiction |].
    reflexivity. }
  assert (Hmsgs : WebServer.messages
                    (WebServer.conv (WebServer.add_text_fn strip text s)) =
                  (WebServer.messages (WebServer.conv s)
                   ++ [(fst (WebServer.roles (WebServer.conv s)), Some (strip text))])
                  ++ [(snd (WebServer.roles (WebServer.conv s)), None)])
    by now rewrite Hadd.
  split; [rewrite Hmsgs, <- app_assoc; reflexivity |].
  rewrite (bot_response_on_success SERVER_ERROR_MSG CONNECTION_ERROR
             INTERNAL_ERROR wenv (WebServer.add_text_fn strip text s) addr good
             Hgood).
  - cbn [snd]. rewrite (written_snoc _ _ _ _ _ Hmsgs). simpl.
    now rewrite <- app_assoc.
  - now rewrite Hadd.
  - rewrite Hmsgs. intros Habs. apply app_eq_nil in Habs.
    destruct Habs as [_ Habs]. discriminate.
  - exact Hurl.
  - now rewrite Hadd.
  - exact Haddr.
  - exact Hsource.
Qed.

End Turns.

Lemma regenerated_response_replaces_previous_message_witness :
  WebServer.messages
    (WebServer.conv
       (snd (WebServer.bot_response_fn "NETWORK ERROR" 50003 50001
               (WebServer.mkEnv (Some "http://localhost:21001"%string)
                  (fun _ _ => HttpOk (Some "http://localhost:21002"%string))
                  (fun _ _ => mkStream [mkChunk (Some "Again"%string) None None]
                                StreamClosed))
               (WebServer.regenerate_fn (written "Hi there" pending_session))))) =
  [("USER"%string, Some "Again"%string)].
Proof.
  assert (Hgood : Forall chunk_ok [mkChunk (Some "Again"%string) None None]).
  { repeat constructor. }
  destruct (regenerated_response_replaces_previous_message
              "NETWORK ERROR" 50003 50001
              (WebServer.mkEnv (Some "http://localhost:21001"%string)
                 (fun _ _ => HttpOk (Some "http://localhost:21002"%string))
                 (fun _ _ => mkStream [mkChunk (Some "Again"%string) None None]
                               StreamClosed))
              (written "Hi there" pending_session) []
              "USER"%string (Some "hello"%string) (Some "Hi there"%string)
              "http://localhost:21002" [mkChunk (Some "Again"%string) None None]
              eq_refl eq_refl Hgood eq_refl eq_refl eq_refl eq_refl)
    as [_ Hfinal].
  exact Hfinal.
Defined.

Lemma blank_input_is_skipped_witness :
  WebServer.add_text_fn (fun t => t) "" pending_session =
  WebServer.mkState (WebServer.conv pending_session)
    (WebServer.conv_id pending_session) true
    (WebServer.model_name pending_session).
Proof.
  destruct (blank_input_is_skipped "NETWORK ERROR" 50003 50001 broken_env
              (fun t => t) "" pending_session (or_introl eq_refl))
    as [Hadd _].
  exact Hadd.
Defined.

Lemma full_turn_appends_question_and_answer_witness :
  WebServer.messages
    (WebServer.conv
       (snd (WebServer.bot_response_fn "NETWORK ERROR" 50003 50001
               (WebServer.mkEnv (Some "http://localhost:21001"%string)
                  (fun _ _ => HttpOk (Some "http://localhost:21002"%string))
                  (fun _ _ => mkStream [mkChunk (Some "Hi"%string) None None]
                                StreamClosed))
               (WebServer.add_text_fn (fun t => t) "hello"
                  (WebServer.mkState
                     (WebServer.mkConv ("USER"%string, "ASSISTANT"%string) [])
                     "0123abcd" false "yeongjopt"))))) =
  [("USER"%string, Some "hello"%string); ("ASSISTANT"%string, Some "Hi"%string)].
Proof.
  assert (Hgood : Forall chunk_ok [mkChunk (Some "Hi"%string) None None]).
  { repeat constructor. }
  assert (Htext : "hello"%string <> EmptyString) by discriminate.
  destruct (full_turn_appends_question_and_answer
              "NETWORK ERROR" 50003 50001
              (WebServer.mkEnv (Some "http://localhost:21001"%string)
                 (fun _ _ => HttpOk (Some "http://localhost:21002"%string))
                 (fun _ _ => mkStream [mkChunk (Some "Hi"%string) None None]
                               StreamClosed))
              (fun t => t) "hello"
              (WebServer.mkState
                 (WebServer.mkConv ("USER"%string, "ASSISTANT"%string) [])
                 "0123abcd" false "yeongjopt")
              "http://localhost:21002" [mkChunk (Some "Hi"%string) None None]
              Htext Htext Hgood eq_refl eq_refl eq_refl eq_refl)
    as [_ Hfinal].
  exact Hfinal.
Defined.

(** ** Start-up of the chat front end *)

Section StartupFacts.

Variable post_list_models : string -> http_result (option (list string)).

(** X28. [get_model_list_from_controller] always returns exactly one model
    name, and it is the value the global model name has after the call.  The
    global changes only when the controller is configured, reachable and
    lists at least one model: it then becomes the first listed model,
    whatever else is listed. *)
Theorem model_list_is_a_singleton
    (controller_addr : option string) (global_fixed_model_name : string) :
  exists m,
    WebServer.get_model_list_from_controller post_list_models controller_addr
      global_fixed_model_name = ([m], m) /\
    (m = global_fixed_model_name \/
     (opt_str_truthy controller_addr = true /\
      exists others,
        post_list_models
          (get_default controller_addr EmptyString ++ "/list_models")%string =
        HttpOk (Some (m :: others)))) /\
    (forall first others,
       opt_str_truthy controller_addr = true ->
       post_list_models
         (get_default controller_addr EmptyString ++ "/list_models")%string =
       HttpOk (Some (first :: others)) ->
       m = first).
Proof.
  unfold WebServer.get_model_list_from_controller.
  destruct (opt_str_truthy controller_addr) eqn:Haddr; cbn [negb].
  - destruct (post_list_models _) as [[[| first others] |] | e] eqn:Hpost;
      cbn [get_default].
    + exists global_fixed_model_name. repeat split; [now left | discriminate].
    + exists first. repeat split.
      * right. split; [reflexivity | now exists others].
      * intros f o _ [= -> _]. reflexivity.
    + exists global_fixed_model_name. repeat split; [now left | discriminate].
    + exists global_fixed_model_name. repeat split; [now left | discriminate].
  - exists global_fixed_model_name. repeat split; [now left | discriminate].
Qed.

(** X29. In a fresh process, where the global model name still has its
    initial value, [main_gradio_server] launches the interface exactly when
    the controller address is configured, the controller answers, and the
    first model it lists is neither empty nor the initial placeholder name;
    the interface is then built for that model alone.  In every other case
    the function returns without launching. *)
Theorem front_end_starts_only_with_a_confirmed_model
    (cli_controller_url : option string) (models : list string) :
  WebServer.main_gradio_server post_list_models cli_controller_url
    WebServer.default_model_name = WebServer.Launched models <->
  exists first others,
    opt_str_truthy cli_controller_url = true /\
    post_list_models
      (get_default cli_controller_url EmptyString ++ "/list_models")%string =
      HttpOk (Some (first :: others)) /\
    first <> EmptyString /\
    first <> WebServer.default_model_name /\
    models = [first].
Proof.
  unfold WebServer.main_gradio_server, WebServer.get_model_list_from_controller.
  destruct (opt_str_truthy cli_controller_url) eqn:Haddr; cbn [negb].
  - destruct (post_list_models _) as [[[| first others] |] | e] eqn:Hpost;
      cbn [get_default].
    + rewrite String.eqb_refl. simpl. split; [discriminate |].
      intros [f [o [_ [H _]]]]. discriminate.
    + destruct (String.eqb first WebServer.default_model_name) eqn:Edef.
      * simpl. split; [discriminate |].
        intros [f [o [_ [[= <- _] [_ [Hne _]]]]]].
        apply String.eqb_eq in Edef. contradiction.
      * destruct first as [| ch first'].
        -- simpl. split; [discriminate |].
           intros [f [o [_ [[= <- _] [Hne _]]]]]. contradiction.
        -- simpl. split.
           ++ intros [= <-]. exists (String ch first'), others.
              repeat split; [discriminate | now apply String.eqb_neq].
           ++ intros [f [o [_ [[= <- _] [_ [_ ->]]]]]]. reflexivity.
    + rewrite String.eqb_refl. simpl. split; [discriminate |].
      intros [f [o [_ [H _]]]]. discriminate.
    + rewrite String.eqb_refl. simpl. split; [discriminate |].
      intros [f [o [_ [H _]]]]. discriminate.
  - rewrite String.eqb_refl. simpl. split; [discriminate |].
    intros [f [o [H _]]]. discriminate.
Qed.

End StartupFacts.

(** ** A stream that cannot be decoded, in the chat framing *)

(** X30. When reading the worker stream fails with something that is not a
    [RequestException] (a line that cannot be decoded, say) after the
    successful chunks [good], the chat framing still ends in a final state:
    after the in-progress updates for [good] the last message is written
    once, with [SERVER_ERROR_MSG], a line break and "(Streaming Error: ...)"
    naming the failure, and the final yield follows.  ([INTERNAL_ERROR] is
    the code put on the chunk that carries this text; it is not zero.) *)
Theorem undecodable_stream_is_reported
    (SERVER_ERROR_MSG : string) (CONNECTION_ERROR INTERNAL_ERROR : Z)
    (wenv : WebServer.environment) (s0 : WebServer.State) (addr : string)
    (good : list chunk) (e : string) :
  INTERNAL_ERROR <> 0 ->
  Forall chunk_ok good ->
  WebServer.skip_next s0 = false ->
  WebServer.messages (WebServer.conv s0) <> [] ->
  opt_str_truthy (WebServer.controller_url wenv) = true ->
  WebServer.post_get_worker_address wenv
    (get_default (WebServer.controller_url wenv) EmptyString
     ++ "/get_worker_address")%string
    (WebServer.model_name s0) = HttpOk (Some addr) ->
  str_truthy addr = true ->
  WebServer.post_worker_generate_stream wenv
    (addr ++ "/worker_generate_stream")%string
    (written WebServer.cursor s0) = mkStream good (StreamException e) ->
  WebServer.bot_response_fn SERVER_ERROR_MSG CONNECTION_ERROR INTERNAL_ERROR
    wenv s0 =
  ([WebServer.Wrote WebServer.cursor;
    WebServer.Yielded (written WebServer.cursor s0) false]
     ++ progress good EmptyString s0
     ++ [WebServer.Wrote
           (SERVER_ERROR_MSG ++ nl ++ "(Streaming Error: " ++ e ++ ")")%string;
         WebServer.Yielded
           (written
              (SERVER_ERROR_MSG ++ nl ++ "(Streaming Error: " ++ e ++ ")")%string
              s0) true],
   Return tt,
   written (SERVER_ERROR_MSG ++ nl ++ "(Streaming Error: " ++ e ++ ")")%string s0) /\
  WebServer.last_message
    (WebServer.conv
       (snd (WebServer.bot_response_fn SERVER_ERROR_MSG CONNECTION_ERROR
               INTERNAL_ERROR wenv s0))) =
  Some (SERVER_ERROR_MSG ++ nl ++ "(Streaming Error: " ++ e ++ ")")%string.
Proof.
  intros Hcode Hgood Hskip Hne Hurl Hpost Haddr Hsource.
  assert (Herr : opt_int_truthy (Some INTERNAL_ERROR) = true).
  { simpl. now apply negb_true_iff, Z.eqb_neq. }
  assert (Hrun :
    WebServer.bot_response_fn SERVER_ERROR_MSG CONNECTION_ERROR INTERNAL_ERROR
      wenv s0 =
    ([WebServer.Wrote WebServer.cursor;
      WebServer.Yielded (written WebServer.cursor s0) false]
       ++ progress good EmptyString s0
       ++ [WebServer.Wrote
             (SERVER_ERROR_MSG ++ nl ++ "(Streaming Error: " ++ e ++ ")")%string;
           WebServer.Yielded
             (written
                (SERVER_ERROR_MSG ++ nl ++ "(Streaming Error: " ++ e ++ ")")%string
                s0) true],
     Return tt,
     written (SERVER_ERROR_MSG ++ nl ++ "(Streaming Error: " ++ e ++ ")")%string s0)).
  { unfold WebServer.bot_response_fn.
    unfold WebServer.gbind at 1. unfold WebServer.get_state at 1.
    rewrite Hskip, Hurl. cbn [negb]. rewrite Hpost. cbn [get_default].
    rewrite Haddr. cbn [negb].
    unfold WebServer.gbind at 1. rewrite write_last_ok by exact Hne.
    unfold WebServer.gbind at 1. unfold WebServer.yield at 1.
    unfold WebServer.gbind at 1. unfold WebServer.get_state at 1.
    rewrite Hsource. unfold WebServer.model_worker_stream_iter_fn.
    cbn [ws_end ws_chunks].
    unfold WebServer.gbind at 1.
    rewrite (stream_loop_failure SERVER_ERROR_MSG good
               (mkChunk
                  (Some (SERVER_ERROR_MSG ++ nl ++ "(Streaming Error: " ++ e ++ ")")%string)
                  (Some INTERNAL_ERROR) None)
               [] EmptyString
               (written WebServer.cursor s0) (written_nonempty _ _ Hne) Hgood Herr).
    cbn [text get_default].
    rewrite progress_written by exact Hne.
    rewrite written_twice by exact Hne.
    unfold WebServer.gret. simpl. rewrite app_nil_r. reflexivity. }
  split; [exact Hrun |].
  rewrite Hrun. cbn [snd]. now apply written_last_message.
Qed.

Lemma undecodable_stream_is_reported_witness :
  WebServer.last_message
    (WebServer.conv
       (snd (WebServer.bot_response_fn "NETWORK ERROR" 50003 50001
               (WebServer.mkEnv (Some "http://localhost:21001"%string)
                  (fun _ _ => HttpOk (Some "http://localhost:21002"%string))
                  (fun _ _ => mkStream [mkChunk (Some "Hi"%string) None None]
                                (StreamException "Expecting value")))
               pending_session))) =
  Some ("NETWORK ERROR" ++ nl ++ "(Streaming Error: Expecting value)")%string.
Proof.
  assert (Hie : 50001 <> 0) by lia.
  assert (Hgood : Forall chunk_ok [mkChunk (Some "Hi"%string) None None]).
  { repeat constructor. }
  assert (Hne : WebServer.messages (WebServer.conv pending_session) <> [])
    by discriminate.
  destruct (undecodable_stream_is_reported "NETWORK ERROR" 50003 50001
              (WebServer.mkEnv (Some "http://localhost:21001"%string)
                 (fun _ _ => HttpOk (Some "http://localhost:21002"%string))
                 (fun _ _ => mkStream [mkChunk (Some "Hi"%string) None None]
                               (StreamException "Expecting value")))
              pending_session "http://localhost:21002"
              [mkChunk (Some "Hi"%string) None None] "Expecting value"
              Hie Hgood eq_refl Hne eq_refl eq_refl eq_refl eq_refl)
    as [_ Hlast].
  exact Hlast.
Defined.
